(** * Statistics Module ([statistical_analysis.py]) : a shallow embedding

    The module under study is a set of seven stateless functions.  Each one
    cleans its input with [pd.Series(x).dropna()], checks a size
    precondition, raises [ValueError] when the check fails, and otherwise
    returns a fixed-key [dict] (or a pair) of numbers obtained from pandas
    and [scipy.stats].

    Conventions of the embedding.

    - There are two models of the Python [float].  In the first one a
      finite float is a real number: rounding and overflow are abstracted,
      [NaN] and the two infinities are kept, because the code can produce
      them (a standard deviation of one value, a division by a zero
      spread), and the sign of zero is dropped.  It carries the statements
      on the structure of the results: which keys, which formula, which
      error.  In the second one, the module [Binary64], a float is an
      IEEE 754 binary64 number and every operation rounds as the hardware
      does; it carries the statements on the numbers returned, and the
      runs on given inputs.
    - An input sample is a sequence whose entries are real numbers or the
      missing marker [NaN] ([None] below), as in the data model of the
      specification.
    - A pandas [Series] keeps its index labels: [dropna] and [iloc] keep the
      labels of the rows that survive, and binary arithmetic between two
      series aligns on labels.
    - The formulas of pandas, numpy and [scipy.stats] are written out from
      their documentation in the section [Numerical library]; the tail
      functions of the Student, Fisher and Shapiro-Wilk distributions and
      the three correlation routines stay parameters. *)

From Stdlib Require Import String.
From Stdlib Require Import Reals Lra Lia List Arith ZArith.
From Stdlib Require Import QArith Qround Qreals.
From Stdlib Require Floats Uint63.
From Stdlib Require Import Sorting.Sorted Sorting.Permutation.
Import ListNotations.

Open Scope R_scope.

(* ================================================================== *)
(** * Floats *)
(* ================================================================== *)

Inductive float : Type :=
| NaN
| NInf
| Fin (r : R)
| PInf.

(** The infinity carrying the sign of a non-zero real. *)
Definition signed_inf (r : R) : float :=
  if Rlt_dec 0 r then PInf else NInf.

Definition fneg (x : float) : float :=
  match x with
  | NaN => NaN
  | NInf => PInf
  | Fin r => Fin (- r)
  | PInf => NInf
  end.

Definition fabs (x : float) : float :=
  match x with
  | NaN => NaN
  | Fin r => Fin (Rabs r)
  | NInf | PInf => PInf
  end.

Definition fadd (x y : float) : float :=
  match x, y with
  | NaN, _ | _, NaN => NaN
  | Fin a, Fin b => Fin (a + b)
  | PInf, NInf | NInf, PInf => NaN
  | PInf, _ | _, PInf => PInf
  | NInf, _ | _, NInf => NInf
  end.

Definition fsub (x y : float) : float := fadd x (fneg y).

Definition fmul (x y : float) : float :=
  match x, y with
  | NaN, _ | _, NaN => NaN
  | Fin a, Fin b => Fin (a * b)
  | Fin a, PInf | PInf, Fin a =>
      if Req_dec_T a 0 then NaN else signed_inf a
  | Fin a, NInf | NInf, Fin a =>
      if Req_dec_T a 0 then NaN else signed_inf (- a)
  | PInf, PInf | NInf, NInf => PInf
  | PInf, NInf | NInf, PInf => NInf
  end.

(** numpy division: a zero divisor gives an infinity or [NaN], it does not
    raise.  Every zero divisor of the module is a square root or a sum of
    squares, so a zero divisor is read as [+0.0]. *)
Definition fdiv (x y : float) : float :=
  match x, y with
  | NaN, _ | _, NaN => NaN
  | Fin a, Fin b =>
      if Req_dec_T b 0
      then (if Req_dec_T a 0 then NaN else signed_inf a)
      else Fin (a / b)
  | Fin _, (PInf | NInf) => Fin 0
  | (PInf | NInf), (PInf | NInf) => NaN
  | PInf, Fin b => if Rlt_dec b 0 then NInf else PInf
  | NInf, Fin b => if Rlt_dec b 0 then PInf else NInf
  end.

Definition fsqrt (x : float) : float :=
  match x with
  | NaN | NInf => NaN
  | Fin r => if Rlt_dec r 0 then NaN else Fin (sqrt r)
  | PInf => PInf
  end.

(** [x ** 2] *)
Definition fsquare (x : float) : float := fmul x x.

(** [x < y] on floats: false as soon as one side is [NaN]. *)
Definition fltb (x y : float) : bool :=
  match x, y with
  | NaN, _ | _, NaN => false
  | Fin a, Fin b => if Rlt_dec a b then true else false
  | NInf, (Fin _ | PInf) => true
  | Fin _, PInf => true
  | _, _ => false
  end.

Definition isnan (x : float) : bool :=
  match x with NaN => true | _ => false end.

(** [float(k)] of a Python [int]. *)
Definition float_of_int (k : Z) : float := Fin (IZR k).

Declare Scope float_scope.
Delimit Scope float_scope with float.
Bind Scope float_scope with float.
Infix "+" := fadd : float_scope.
Infix "-" := fsub : float_scope.
Infix "*" := fmul : float_scope.
Infix "/" := fdiv : float_scope.
Notation "- x" := (fneg x) : float_scope.

(* ================================================================== *)
(** * Exceptions, results, dictionaries *)
(* ================================================================== *)

(** The module raises one exception class only, Python's built-in
    [ValueError]; [TypeError] is what [stats.f_oneway] raises when it is
    given fewer than two arrays. *)
Inductive exception : Type :=
| ValueError (msg : string)
| TypeError (msg : string).

(** [type(e).__name__] *)
Definition exception_class (e : exception) : string :=
  match e with
  | ValueError _ => "ValueError"%string
  | TypeError _ => "TypeError"%string
  end.

Inductive result (A : Type) : Type :=
| Return (a : A)
| Raise (e : exception).
Arguments Return {A} a.
Arguments Raise {A} e.

(** The values stored in a result dictionary. *)
Inductive value : Type :=
| VInt (k : Z)
| VFloat (x : float)
| VBool (b : bool).

(** A Python [dict] literal with string keys, in insertion order. *)
Definition Dict : Type := list (string * value).

Fixpoint dict_get (k : string) (d : Dict) : option value :=
  match d with
  | [] => None
  | (k', v) :: d' => if String.eqb k k' then Some v else dict_get k d'
  end.

(** [len(x)] as a Python [int]. *)
Definition len {A : Type} (l : list A) : Z := Z.of_nat (length l).

(* ================================================================== *)
(** * pandas series *)
(* ================================================================== *)

(** A sample as the caller passes it: a list (or array) of floats in which
    [None] is the missing marker [NaN].  (A series built by the caller
    carries its own labels in place of the range below; labels are read only
    where two series are combined, in [paired_t_test] and
    [correlation_analysis], and the samples considered here are plain
    sequences.) *)
Definition Sample : Type := list (option R).

(** A series is a column of labelled rows. *)
Definition Series : Type := list (nat * option R).

(** [pd.Series(data)] of a list: the labels are [0 .. len(data)-1]. *)
Definition pd_Series (data : Sample) : Series :=
  combine (seq 0 (length data)) data.

Definition notna (row : nat * option R) : bool :=
  match snd row with Some _ => true | None => false end.

(** [s.dropna()]: the rows that hold a value, with their labels. *)
Definition dropna (s : Series) : Series := filter notna s.

(** [s.iloc[:k]]: the first [k] rows by position. *)
Definition iloc_upto (k : Z) (s : Series) : Series := firstn (Z.to_nat k) s.

(** The non-missing values of a series, in row order.  The pandas
    reductions skip [NaN] and so read a series through this list; numpy
    and scipy receive the array of a cleaned series, which is the same
    list. *)
Fixpoint values (s : Series) : list R :=
  match s with
  | [] => []
  | (_, Some x) :: s' => x :: values s'
  | (_, None) :: s' => values s'
  end.

Definition osub (x y : option R) : option R :=
  match x, y with
  | Some a, Some b => Some (a - b)
  | _, _ => None
  end.

Definition all_missing (s : Series) : Series :=
  map (fun row => (fst row, @None R)) s.

(** [a - b] on two series: the rows are aligned on their labels, the result
    carries the union of the labels and holds [NaN] wherever a label is
    absent from one side.  Both label columns are increasing here (they are
    sub-sequences of a range index), so the alignment is a merge. *)
Fixpoint series_sub (a b : Series) : Series :=
  match a with
  | [] => all_missing b
  | (la, x) :: a' =>
      (fix against (b : Series) : Series :=
         match b with
         | [] => (la, None) :: all_missing a'
         | (lb, y) :: b' =>
             match Nat.compare la lb with
             | Eq => (la, osub x y) :: series_sub a' b'
             | Lt => (la, None) :: series_sub a' b
             | Gt => (lb, None) :: against b'
             end
         end) b
  end.

(** [pd.DataFrame({"x": a, "y": b}).dropna()]: the rows whose label is
    present on both sides with a value on both sides. *)
Fixpoint frame_dropna (a b : Series) : list (nat * (R * R)) :=
  match a with
  | [] => []
  | (la, x) :: a' =>
      (fix against (b : Series) : list (nat * (R * R)) :=
         match b with
         | [] => []
         | (lb, y) :: b' =>
             match Nat.compare la lb with
             | Eq => match x, y with
                     | Some u, Some v => (la, (u, v)) :: frame_dropna a' b'
                     | _, _ => frame_dropna a' b'
                     end
             | Lt => frame_dropna a' b
             | Gt => against b'
             end
         end) b
  end.

(* ================================================================== *)
(** * Numerical library *)
(* ================================================================== *)

(** ** Sums, means and spreads of a list of reals *)

Definition Rsum (v : list R) : R := fold_right Rplus 0 v.

Definition Rmean (v : list R) : R := Rsum v / INR (length v).

(** Sum of the squared deviations from the mean. *)
Definition sum_sq_dev (v : list R) : R :=
  Rsum (map (fun x => (x - Rmean v)²) v).

(** ** pandas reductions (they skip missing values) *)

(** [mean]: the empty mean is [0/0]. *)
Definition nanmean (v : list R) : float :=
  (Fin (Rsum v) / Fin (INR (length v)))%float.

(** [var] with the default [ddof=1]: [NaN] when the count does not exceed
    [ddof], else the sum of squared deviations over [count - 1]. *)
Definition nanvar (v : list R) : float :=
  if (length v <=? 1)%nat then NaN
  else (Fin (sum_sq_dev v) / Fin (INR (length v) - 1))%float.

(** [std] with the default [ddof=1]. *)
Definition nanstd (v : list R) : float := fsqrt (nanvar v).

(** Insertion into an increasing list, and the sort it gives. *)
Fixpoint insert (x : R) (l : list R) : list R :=
  match l with
  | [] => [x]
  | y :: t => if Rle_dec x y then x :: l else y :: insert x t
  end.

Definition np_sort (v : list R) : list R := fold_right insert [] v.

(** [median]: the middle order statistic, or the mean of the two middle
    ones. *)
Definition nanmedian (v : list R) : float :=
  match v with
  | [] => NaN
  | _ :: _ =>
      let s := np_sort v in
      let n := length s in
      if Nat.even n
      then Fin ((nth (n / 2 - 1) s 0 + nth (n / 2) s 0) / 2)
      else Fin (nth (n / 2) s 0)
  end.

Definition nanmin (v : list R) : float :=
  match v with
  | [] => NaN
  | x :: t => Fin (fold_right Rmin x t)
  end.

Definition nanmax (v : list R) : float :=
  match v with
  | [] => NaN
  | x :: t => Fin (fold_right Rmax x t)
  end.

Definition lerp (a b t : R) : R := a + (b - a) * t.

(** numpy's percentile with the linear method on sorted data: the virtual
    index [(n-1)*q] is split into its floor and its fractional part, and the
    two neighbouring order statistics are interpolated.  The module asks
    for the levels 0.25 and 0.75 only, which are exact binary fractions; the
    level is kept rational so that the index arithmetic is exact. *)
Definition percentile_linear (s : list R) (q : Q) : R :=
  let n := length s in
  let virtual := (inject_Z (Z.of_nat n - 1) * q)%Q in
  let previous := Z.to_nat (Qfloor virtual) in
  let next := Nat.min (previous + 1) (n - 1) in
  let gamma := Q2R (virtual - inject_Z (Qfloor virtual)) in
  lerp (nth previous s 0) (nth next s 0) gamma.

(** [quantile(q)] with the default linear interpolation. *)
Definition nanquantile (v : list R) (q : Q) : float :=
  match v with
  | [] => NaN
  | _ :: _ => Fin (percentile_linear (np_sort v) q)
  end.

(** The [Series] methods. *)
Definition Series_mean (s : Series) : float := nanmean (values s).
Definition Series_std (s : Series) : float := nanstd (values s).
Definition Series_median (s : Series) : float := nanmedian (values s).
Definition Series_min (s : Series) : float := nanmin (values s).
Definition Series_max (s : Series) : float := nanmax (values s).
Definition Series_quantile (s : Series) (q : Q) : float :=
  nanquantile (values s) q.

(** ** scipy.stats on arrays *)

(** [stats.sem]: the sample standard deviation over the square root of the
    count. *)
Definition stats_sem (a : list R) : float :=
  (nanstd a / fsqrt (Fin (INR (length a))))%float.

(** The pooled denominator of the equal-variance t-test, with its degrees
    of freedom. *)
Definition equal_var_ttest_denom (v1 : float) (n1 : R) (v2 : float) (n2 : R)
  : float * float :=
  let df := Fin (n1 + n2 - 2) in
  let svar := ((Fin (n1 - 1) * v1 + Fin (n2 - 1) * v2) / df)%float in
  let denom := fsqrt (svar * (Fin 1 / Fin n1 + Fin 1 / Fin n2))%float in
  (df, denom).

(** Welch's denominator, with the Welch-Satterthwaite degrees of freedom;
    an undefined [df] (both variances zero) is replaced by 1. *)
Definition unequal_var_ttest_denom (v1 : float) (n1 : R) (v2 : float) (n2 : R)
  : float * float :=
  let vn1 := (v1 / Fin n1)%float in
  let vn2 := (v2 / Fin n2)%float in
  let df :=
    (fsquare (vn1 + vn2)
     / (fsquare vn1 / Fin (n1 - 1) + fsquare vn2 / Fin (n2 - 1)))%float in
  let df := if isnan df then Fin 1 else df in
  let denom := fsqrt (vn1 + vn2)%float in
  (df, denom).

(** ** Closed forms at two degrees of freedom

    The Student distribution with two degrees of freedom, and the F
    distribution with one and two, have elementary closed forms.  They serve
    to run the module on small samples (two groups of two observations,
    three pairs, three observations). *)

(** Distribution function of Student's t with two degrees of freedom:
    [1/2 + t / (2 sqrt(2 + t^2))]. *)
Definition student2_cdf (df t : float) : float :=
  match t with
  | NaN => NaN
  | NInf => Fin 0
  | Fin x => Fin (1 / 2 + x / (2 * sqrt (2 + x²)))
  | PInf => Fin 1
  end.

(** Upper tail of the F distribution with one and two degrees of freedom:
    [1 - sqrt(f / (2 + f))]. *)
Definition fisher12_sf (dfn dfd f : float) : float :=
  match f with
  | Fin x => Fin (1 - sqrt (x / (2 + x)))
  | PInf => Fin 0
  | NaN | NInf => NaN
  end.

(** Quantile function of Student's t with two degrees of freedom:
    [(2q - 1) / sqrt(2q(1 - q))]. *)
Definition student2_ppf (q : float) (df : Z) : float :=
  match q with
  | Fin p => Fin ((2 * p - 1) / sqrt (2 * p * (1 - p)))
  | _ => NaN
  end.

(** ** Correlation of two pairs

    With two pairs the moment correlation is [1] or [-1], by the sign of the
    product of the two differences, and is not defined when a difference is
    zero; its p-value is [1]. *)
Definition pearsonr_two_pairs (xs ys : list R) : float * float :=
  match xs, ys with
  | [x1; x2], [y1; y2] =>
      let s := (x2 - x1) * (y2 - y1) in
      (if Rlt_dec 0 s then Fin 1
       else if Rlt_dec s 0 then Fin (-1) else NaN,
       Fin 1)
  | _, _ => (NaN, NaN)
  end.

(* ================================================================== *)
(** * Data loading and validation ([data_loader.py]) *)
(* ================================================================== *)

Module DataLoader.

Open Scope string_scope.

(** The loaders raise [FileNotFoundError] and [ValueError]; numpy raises
    [TypeError] when [np.isinf] is applied to a column that is not
    numeric (its message is shortened below); Python raises
    [AttributeError] when [.columns] is read on a dictionary. *)
Inductive exception : Type :=
| FileNotFoundError (msg : string)
| ValueError (msg : string)
| TypeError (msg : string)
| AttributeError (msg : string).

Inductive result (A : Type) : Type :=
| Return (a : A)
| Raise (e : exception).
Arguments Return {A} a.
Arguments Raise {A} e.

(** A column of a frame: a float column (integer columns are float columns
    without missing or infinite entries), or a column of dtype object, of
    which only the missing entries are known. *)
Inductive column : Type :=
| FloatColumn (v : list float)
| ObjectColumn (v : list (option string)).

(** A frame: its columns by name, in column order.  (In a pandas frame the
    names are distinct and the columns have the same number of rows.) *)
Definition DataFrame : Type := list (string * column).

(** What [load_excel_data] can return: the frame of one sheet, or the
    dictionary of all the sheets of the file by name. *)
Inductive ExcelData : Type :=
| OneSheet (df : DataFrame)
| AllSheets (sheets : list (string * DataFrame)).

(** [df.columns] *)
Definition columns (df : DataFrame) : list string := map fst df.

(** [col in df.columns] *)
Definition has_column (df : DataFrame) (col : string) : bool :=
  existsb (String.eqb col) (columns df).

(** [df[col]] for a column that is present. *)
Fixpoint get_column (df : DataFrame) (col : string) : option column :=
  match df with
  | [] => None
  | (name, c) :: rest =>
      if String.eqb col name then Some c else get_column rest col
  end.

(** [len(series)] *)
Definition column_len (c : column) : nat :=
  match c with
  | FloatColumn v => length v
  | ObjectColumn v => length v
  end.

Definition is_numeric (c : column) : bool :=
  match c with FloatColumn _ => true | ObjectColumn _ => false end.

(** [df.select_dtypes(include=[np.number]).columns.tolist()] *)
Definition numeric_columns (df : DataFrame) : list string :=
  map fst (filter (fun entry => is_numeric (snd entry)) df).

(** ** Reductions of a float column that may hold NaN and infinities *)

Definition isinf (x : float) : bool :=
  match x with PInf | NInf => true | _ => false end.

Definition count (f : float -> bool) (v : list float) : nat :=
  length (filter f v).

(** The entries that are not NaN: what a reduction with [skipna] reads. *)
Definition not_missing (v : list float) : list float :=
  filter (fun x => negb (isnan x)) v.

Definition fsum (v : list float) : float := fold_right fadd (Fin 0) v.

(** [series.mean()] *)
Definition column_mean (v : list float) : float :=
  let w := not_missing v in
  (fsum w / Fin (INR (length w)))%float.

(** [series.std()], with [ddof=1]: NaN when at most one entry is present,
    else the root of the sum of squared deviations over [count - 1]. *)
Definition column_std (v : list float) : float :=
  let w := not_missing v in
  if (length w <=? 1)%nat then NaN
  else
    let avg := (fsum w / Fin (INR (length w)))%float in
    let sqr := map (fun x => fsquare (avg - x)%float) w in
    fsqrt (fsum sqr / Fin (INR (length w) - 1))%float.

(** [((series - mean).abs() > 3 * std).sum()] *)
Definition count_outliers (v : list float) (mean std : float) : nat :=
  count (fun x => fltb (Fin 3 * std)%float (fabs (x - mean)%float)) v.

(** ** Dictionaries filled by assignment *)

(** [d[k] = x]: replaces the value of an existing key in place, or appends
    the new key. *)
Fixpoint dict_set {A : Type} (d : list (string * A)) (k : string) (x : A)
  : list (string * A) :=
  match d with
  | [] => [(k, x)]
  | (k', y) :: rest =>
      if String.eqb k k' then (k', x) :: rest else (k', y) :: dict_set rest k x
  end.

Fixpoint dict_lookup {A : Type} (d : list (string * A)) (k : string)
  : option A :=
  match d with
  | [] => None
  | (k', y) :: rest => if String.eqb k k' then Some y else dict_lookup rest k
  end.

(** The dictionary returned by [validate_numeric_data]: three fixed keys,
    each bound to a dictionary from column name to count. *)
Record ValidationResults : Type := {
  missing_values : list (string * nat);
  infinite_values : list (string * nat);
  outliers : list (string * nat)
}.

(** One round of the loop over [columns]. *)
Definition validate_column (df : DataFrame) (acc : result ValidationResults)
    (col : string) : result ValidationResults :=
  match acc with
  | Raise e => Raise e
  | Return validation_results =>
      if negb (has_column df col) then Return validation_results
      else
        match get_column df col with
        | None => Return validation_results
        | Some series =>
            (* Count missing values *)
            let n_missing :=
              match series with
              | FloatColumn v => count isnan v
              | ObjectColumn v =>
                  length (filter (fun o => match o with
                                           | None => true
                                           | Some _ => false
                                           end) v)
              end in
            (* Count infinite values *)
            match series with
            | ObjectColumn _ =>
                Raise (TypeError "ufunc 'isinf' not supported for the input types")
            | FloatColumn v =>
                let with_counts :=
                  {| missing_values :=
                       dict_set (missing_values validation_results)
                                col n_missing;
                     infinite_values :=
                       dict_set (infinite_values validation_results)
                                col (count isinf v);
                     outliers := outliers validation_results |} in
                (* Count outliers (beyond 3 standard deviations) *)
                if (1 <? length v)%nat then
                  let mean := column_mean v in
                  let std := column_std v in
                  let found :=
                    if fltb (Fin 0) std  (* Avoid division by zero *)
                    then count_outliers v mean std
                    else 0%nat in
                  Return
                    {| missing_values := missing_values with_counts;
                       infinite_values := infinite_values with_counts;
                       outliers :=
                         dict_set (outliers with_counts) col found |}
                else Return with_counts
            end
        end
  end.

Definition validate_numeric_data (df : DataFrame)
    (columns : option (list string)) : result ValidationResults :=
  let columns :=
    match columns with
    | None => numeric_columns df
    | Some cs => cs
    end in
  fold_left (validate_column df) columns
    (Return {| missing_values := []; infinite_values := []; outliers := [] |}).

(** The float columns of a frame with their names, in column order. *)
Definition float_columns (df : DataFrame) : list (string * list float) :=
  flat_map (fun entry =>
              match snd entry with
              | FloatColumn v => [(fst entry, v)]
              | ObjectColumn _ => []
              end) df.

(** The outlier count entered for a float column with more than one row. *)
Definition outlier_count (v : list float) : nat :=
  if fltb (Fin 0) (column_std v)
  then count_outliers v (column_mean v) (column_std v)
  else 0%nat.

(** The counts entered for float columns with distinct names, taken in
    turn. *)
Definition validation_of (cols : list (string * list float))
  : ValidationResults :=
  {| missing_values := map (fun c => (fst c, count isnan (snd c))) cols;
     infinite_values := map (fun c => (fst c, count isinf (snd c))) cols;
     outliers :=
       map (fun c => (fst c, outlier_count (snd c)))
           (filter (fun c => (1 <? length (snd c))%nat) cols) |}.

(** The finite entries of a float column. *)
Definition finite_values (v : list float) : list R :=
  flat_map (fun x => match x with Fin r => [r] | _ => [] end) v.

(** No entry for a name that is not a column of the frame. *)
Definition no_entry_outside (df : DataFrame) (acc : result ValidationResults)
  : Prop :=
  forall r col,
    acc = Return r ->
    has_column df col = false ->
    dict_lookup (missing_values r) col = None /\
    dict_lookup (infinite_values r) col = None /\
    dict_lookup (outliers r) col = None.

(** ** The loaders *)

Section Files.

(** The file system, the pandas readers and the JSON parser are outside
    the module.  A reader yields a frame or the text of the exception it
    raised. *)
Variable Path : Type.
(** [str(file_path)] *)
Variable path_str : Path -> string.
(** [file_path.exists()] *)
Variable path_exists : Path -> bool.
(** The extra keyword arguments handed on to the reader. *)
Variable Kwargs : Type.
Variable read_csv : Path -> Kwargs -> DataFrame + string.
(** [pd.read_excel] with a sheet given by name or by index yields the
    frame of that sheet; with [sheet_name=None] it yields the dictionary of
    all the sheets. *)
Variable read_excel : Path -> string + Z -> Kwargs -> DataFrame + string.
Variable read_excel_all :
  Path -> Kwargs -> list (string * DataFrame) + string.
(** Parsed JSON data, and [json.load] on the opened file: the data, or the
    text of a [JSONDecodeError], or the text of another exception. *)
Variable Json : Type.
Variable json_load : Path -> Json + (string + string).
(** [repr] of a list of strings, as an f-string prints it. *)
Variable repr_list : list string -> string.

(** The check on [required_columns] shared by the two frame loaders: no
    check when the argument is [None] or empty. *)
Definition check_required_columns (df : DataFrame)
    (required_columns : option (list string)) : result DataFrame :=
  match required_columns with
  | None | Some [] => Return df
  | Some required =>
      let missing_columns :=
        filter (fun col => negb (has_column df col)) required in
      match missing_columns with
      | [] => Return df
      | _ :: _ =>
          Raise (ValueError ("Missing required columns: "
                             ++ repr_list missing_columns))
      end
  end.

Definition load_csv_data (file_path : Path)
    (required_columns : option (list string)) (kwargs : Kwargs)
  : result DataFrame :=
  if negb (path_exists file_path) then
    Raise (FileNotFoundError ("CSV file not found: " ++ path_str file_path))
  else
    match read_csv file_path kwargs with
    | inr e =>
        Raise (ValueError ("Error reading CSV file " ++ path_str file_path
                           ++ ": " ++ e))
    | inl df => check_required_columns df required_columns
    end.

(** [sheet_name] is declared [Optional[Union[str, int]]].  With [None]
    the reader's dictionary goes through the same lines as a frame: it is
    returned as it is when no column is required, and the first
    [df.columns] of the check fails on it otherwise. *)
Definition load_excel_data (file_path : Path)
    (sheet_name : option (string + Z))
    (required_columns : option (list string)) (kwargs : Kwargs)
  : result ExcelData :=
  if negb (path_exists file_path) then
    Raise (FileNotFoundError ("Excel file not found: " ++ path_str file_path))
  else
    match sheet_name with
    | Some sheet =>
        match read_excel file_path sheet kwargs with
        | inr e =>
            Raise (ValueError ("Error reading Excel file "
                               ++ path_str file_path ++ ": " ++ e))
        | inl df =>
            match check_required_columns df required_columns with
            | Raise e => Raise e
            | Return df => Return (OneSheet df)
            end
        end
    | None =>
        match read_excel_all file_path kwargs with
        | inr e =>
            Raise (ValueError ("Error reading Excel file "
                               ++ path_str file_path ++ ": " ++ e))
        | inl sheets =>
            match required_columns with
            | None | Some [] => Return (AllSheets sheets)
            | Some (_ :: _) =>
                Raise (AttributeError
                         "'dict' object has no attribute 'columns'")
            end
        end
    end.

Definition load_json_data (file_path : Path) : result Json :=
  if negb (path_exists file_path) then
    Raise (FileNotFoundError ("JSON file not found: " ++ path_str file_path))
  else
    match json_load file_path with
    | inl data => Return data
    | inr (inl e) =>
        Raise (ValueError ("Invalid JSON in file " ++ path_str file_path
                           ++ ": " ++ e))
    | inr (inr e) =>
        Raise (ValueError ("Error reading JSON file " ++ path_str file_path
                           ++ ": " ++ e))
    end.

End Files.

Arguments load_csv_data {Path} path_str path_exists {Kwargs} read_csv
  repr_list file_path required_columns kwargs.
Arguments load_excel_data {Path} path_str path_exists {Kwargs} read_excel
  read_excel_all repr_list file_path sheet_name required_columns kwargs.
Arguments load_json_data {Path} path_str path_exists {Json} json_load
  file_path.

(** [repr] of a list of strings that hold no quote and no escape. *)
Definition repr_str_list (l : list string) : string :=
  "[" ++ String.concat ", " (map (fun s => "'" ++ s ++ "'") l) ++ "]".

(** The columns a loader is asked to find. *)
Definition required_list (required_columns : option (list string))
  : list string :=
  match required_columns with
  | None => []
  | Some required => required
  end.

Close Scope string_scope.

End DataLoader.

(* ================================================================== *)
(** * The module on binary64 numbers *)
(* ================================================================== *)

(** The second model keeps what the first one abstracts: a Python [float]
    is an IEEE 754 binary64 number, every operation rounds, and a result
    too large for the format is an infinity.  The operations are applied
    in the order in which numpy, pandas and scipy apply them.  It covers
    [descriptive_stats], [independent_t_test], [one_way_anova] and
    [confidence_interval]; none of them reads the index of a series, so a
    series is the list of its values here. *)
Module Binary64.

#[local] Set Warnings "-notation-overridden,-inexact-float".
Import PrimFloat.
#[local] Open Scope string_scope.
#[local] Open Scope float_scope.

(** A sample: pandas holds a missing entry of a float column as NaN. *)
Definition Sample : Type := list float.

Inductive value : Type :=
| VInt (k : Z)
| VFloat (x : float).

Definition Dict : Type := list (string * value).

Fixpoint dict_get (k : string) (d : Dict) : option value :=
  match d with
  | [] => None
  | (k', v) :: d' => if String.eqb k k' then Some v else dict_get k d'
  end.

(** [float(n)] of a count; exact below 2^53. *)
Definition float_of_nat (n : nat) : float :=
  of_uint63 (Uint63.of_Z (Z.of_nat n)).

(** [pd.Series(data).dropna()] *)
Definition dropna (data : Sample) : list float :=
  filter (fun x => negb (is_nan x)) data.

(** ** numpy *)

(** [r[j] += a[j]] on the eight running sums. *)
Fixpoint add_each (r a : list float) : list float :=
  match r, a with
  | x :: r', y :: a' => (x + y) :: add_each r' a'
  | _, _ => r
  end.

Fixpoint add_blocks (blocks : nat) (r a : list float)
  : list float * list float :=
  match blocks with
  | O => (r, a)
  | S blocks' => add_blocks blocks' (add_each r (firstn 8 a)) (skipn 8 a)
  end.

(** The unrolled loop of the pairwise sum, on 8 to 128 values: eight
    running sums over the blocks of eight, added up as a tree, then the
    values after the last full block one by one. *)
Definition block_sum (a : list float) : float :=
  let '(r, rest) :=
    add_blocks (length a / 8 - 1) (firstn 8 a) (skipn 8 a) in
  let res :=
    match r with
    | [r0; r1; r2; r3; r4; r5; r6; r7] =>
        ((r0 + r1) + (r2 + r3)) + ((r4 + r5) + (r6 + r7))
    | _ => nan
    end in
  fold_left add rest res.

(** numpy's pairwise sum: fewer than 8 values are added from left to
    right, up to 128 by the unrolled loop, and more are split in two
    halves.  [depth] bounds the number of splits; the length of the array
    is always enough. *)
Fixpoint pairwise_sum (depth : nat) (a : list float) : float :=
  let n := length a in
  if (n <? 8)%nat then fold_left add a (-0)
  else if (n <=? 128)%nat then block_sum a
  else
    match depth with
    | O => nan
    | S depth' =>
        let n2 := (n / 2)%nat in
        let n2 := (n2 - n2 mod 8)%nat in
        pairwise_sum depth' (firstn n2 a) + pairwise_sum depth' (skipn n2 a)
    end.

(** [np.sum]: the reduction starts from zero. *)
Definition np_sum (a : list float) : float :=
  0 + pairwise_sum (length a) a.

(** [np.mean] *)
Definition np_mean (a : list float) : float :=
  np_sum a / float_of_nat (length a).

(** [np.var(a, ddof=ddof)]: the mean, the deviations, their squares, and
    the sum of these over [n - ddof]. *)
Definition np_var (a : list float) (ddof : nat) : float :=
  let arrmean := np_sum a / float_of_nat (length a) in
  let x := map (fun v => v - arrmean) a in
  let x := map (fun v => v * v) x in
  np_sum x / float_of_nat (length a - ddof).

Definition np_std (a : list float) (ddof : nat) : float :=
  sqrt (np_var a ddof).

Fixpoint insert (x : float) (l : list float) : list float :=
  match l with
  | [] => [x]
  | y :: t => if x <=? y then x :: l else y :: insert x t
  end.

Definition np_sort (a : list float) : list float := fold_right insert [] a.

(** [np.median]: the mean of the middle value, or of the two middle
    ones. *)
Definition np_median (a : list float) : float :=
  let part := np_sort a in
  let sz := length part in
  let index := (sz / 2)%nat in
  if Nat.odd sz then np_mean (firstn 1 (skipn index part))
  else np_mean (firstn 2 (skipn (index - 1) part)).

(** The largest integer below a float that is not negative. *)
Definition floor_index (x : float) : nat :=
  match FloatOps.Prim2SF x with
  | SpecFloat.S754_finite false m e => Z.to_nat (Z.shiftl (Zpos m) e)
  | _ => O
  end.

(** numpy's [_lerp]. *)
Definition lerp (a b t : float) : float :=
  let diff_b_a := b - a in
  if 0.5 <=? t then b - diff_b_a * (1 - t) else a + diff_b_a * t.

(** [np.percentile(a, q, method="linear")] on values without NaN. *)
Definition np_percentile (a : list float) (q : float) : float :=
  let q := q / 100 in
  let arr := np_sort a in
  let values_count := length arr in
  let virtual_index := float_of_nat (values_count - 1) * q in
  if float_of_nat (values_count - 1) <=? virtual_index then
    (* above the bounds: the last value on both sides *)
    let gamma := virtual_index - (-1) in
    lerp (last arr nan) (last arr nan) gamma
  else
    let previous_index := floor_index virtual_index in
    let gamma := virtual_index - float_of_nat previous_index in
    lerp (nth previous_index arr nan) (nth (S previous_index) arr nan) gamma.

(** ** pandas reductions of a series without missing values *)

Definition Series_mean (s : list float) : float :=
  if (length s =? 0)%nat then nan
  else np_sum s / float_of_nat (length s).

(** [std()], with [ddof=1]: the two-pass variance of pandas. *)
Definition Series_var (s : list float) : float :=
  let count := length s in
  if (count <=? 1)%nat then nan
  else
    let avg := np_sum s / float_of_nat count in
    let sqr := map (fun x => (avg - x) * (avg - x)) s in
    np_sum sqr / float_of_nat (count - 1).

Definition Series_std (s : list float) : float := sqrt (Series_var s).

Definition Series_median (s : list float) : float :=
  if (length s =? 0)%nat then nan else np_median s.

Definition Series_min (s : list float) : float := hd nan (np_sort s).

Definition Series_max (s : list float) : float := last (np_sort s) nan.

Definition Series_quantile (s : list float) (q : float) : float :=
  if (length s =? 0)%nat then nan else np_percentile s (q * 100).

(** ** scipy.stats *)

(** [stats.sem] *)
Definition stats_sem (a : list float) : float :=
  np_std a 1 / sqrt (float_of_nat (length a)).

(** scipy's [_var(a, ddof=1)]: the mean of the squared deviations, times
    [n / (n - 1)]. *)
Definition stats_var (a : list float) : float :=
  let n := length a in
  let mean := np_mean a in
  let a_zero_mean := map (fun x => x - mean) a in
  let s := map (fun x => x * x) a_zero_mean in
  np_mean s * (float_of_nat n / float_of_nat (n - 1)).

Definition equal_var_ttest_denom (v1 n1 v2 n2 : float) : float * float :=
  let v1 := if n1 =? 1 then 0 else v1 in
  let v2 := if n2 =? 1 then 0 else v2 in
  let df := n1 + n2 - 2 in
  let svar := ((n1 - 1) * v1 + (n2 - 1) * v2) / df in
  let denom := sqrt (svar * (1 / n1 + 1 / n2)) in
  (df, denom).

Definition unequal_var_ttest_denom (v1 n1 v2 n2 : float) : float * float :=
  let vn1 := v1 / n1 in
  let vn2 := v2 / n2 in
  let df :=
    ((vn1 + vn2) * (vn1 + vn2))
    / (vn1 * vn1 / (n1 - 1) + vn2 * vn2 / (n2 - 1)) in
  let df := if is_nan df then 1 else df in
  let denom := sqrt (vn1 + vn2) in
  (df, denom).

(** [(_first(a) == a).all()] *)
Definition all_equal_first (a : list float) : bool :=
  match a with
  | [] => true
  | first :: _ => forallb (fun x => first =? x) a
  end.

Definition square_of_sums (a : list float) : float :=
  let s := np_sum a in s * s.

Definition sum_of_squares (a : list float) : float :=
  np_sum (map (fun x => x * x) a).

Section Routines.

(** [special.stdtr], [special.fdtrc] and [stats.t.ppf] are not part of
    the module. *)
Variable stdtr : float -> float -> float.
Variable fdtrc : float -> float -> float -> float.
Variable t_ppf : float -> nat -> float.

(** [stats.ttest_ind(a, b, equal_var=...)] *)
Definition ttest_ind (a b : list float) (equal_var : bool) : float * float :=
  let v1 := stats_var a in
  let v2 := stats_var b in
  let n1 := float_of_nat (length a) in
  let n2 := float_of_nat (length b) in
  let '(df, denom) :=
    if equal_var then equal_var_ttest_denom v1 n1 v2 n2
    else unequal_var_ttest_denom v1 n1 v2 n2 in
  let d := np_mean a - np_mean b in
  let t := d / denom in
  (t, stdtr df (- abs t) * 2).

(** The body of [stats.f_oneway]. *)
Definition f_oneway (samples : list (list float)) : float * float :=
  let num_groups := float_of_nat (length samples) in
  let alldata := concat samples in
  let bign := float_of_nat (length alldata) in
  if (existsb (fun sample => (length sample =? 0)%nat) samples
      || forallb (fun sample => (length sample =? 1)%nat) samples)%bool
  then (nan, nan)
  else
    let all_const := forallb all_equal_first samples in
    let all_same_const := all_equal_first alldata in
    let offset := np_mean alldata in
    let alldata := map (fun x => x - offset) alldata in
    let normalized_ss := square_of_sums alldata / bign in
    let sstot := sum_of_squares alldata - normalized_ss in
    let ssbn :=
      fold_left
        (fun ssbn sample =>
           ssbn + square_of_sums (map (fun x => x - offset) sample)
                  / float_of_nat (length sample))
        samples 0 in
    let ssbn := ssbn - normalized_ss in
    let sswn := sstot - ssbn in
    let dfbn := num_groups - 1 in
    let dfwn := bign - num_groups in
    let msb := ssbn / dfbn in
    let msw := sswn / dfwn in
    let f := msb / msw in
    let prob := fdtrc dfbn dfwn f in
    if all_same_const then (nan, nan)
    else if all_const then (infinity, 0)
    else (f, prob).

Definition stats_f_oneway (samples : list (list float))
  : result (float * float) :=
  match samples with
  | [] => Raise (TypeError "at least two inputs are required; got 0.")
  | [_] => Raise (TypeError "at least two inputs are required; got 1.")
  | _ => Return (f_oneway samples)
  end.

(** ** The functions of [statistical_analysis.py] *)

Definition descriptive_stats (data : Sample) : result Dict :=
  if (length data =? 0)%nat then
    Raise (ValueError "Cannot compute statistics on empty data")
  else
    let series := dropna data in
    if (length series =? 0)%nat then
      Raise (ValueError "Data contains only NaN values")
    else
      Return
        [ ("n", VInt (Z.of_nat (length series)));
          ("mean", VFloat (Series_mean series));
          ("median", VFloat (Series_median series));
          ("std", VFloat (Series_std series));
          ("sem", VFloat (stats_sem series));
          ("min", VFloat (Series_min series));
          ("max", VFloat (Series_max series));
          ("q1", VFloat (Series_quantile series 0.25));
          ("q3", VFloat (Series_quantile series 0.75));
          ("iqr", VFloat (Series_quantile series 0.75
                          - Series_quantile series 0.25)) ].

Definition independent_t_test (group1 group2 : Sample) (equal_var : bool)
  : result Dict :=
  let group1_clean := dropna group1 in
  let group2_clean := dropna group2 in
  if ((length group1_clean <? 2)%nat || (length group2_clean <? 2)%nat)%bool
  then Raise (ValueError "Each group must have at least 2 non-NaN values")
  else
    let '(t_stat, p_value) := ttest_ind group1_clean group2_clean equal_var in
    let df := (length group1_clean + length group2_clean - 2)%nat in
    (* Calculate Cohen's d *)
    let pooled_std :=
      sqrt ((float_of_nat (length group1_clean - 1)
             * (Series_std group1_clean * Series_std group1_clean)
             + float_of_nat (length group2_clean - 1)
               * (Series_std group2_clean * Series_std group2_clean))
            / float_of_nat df) in
    let cohens_d :=
      (Series_mean group1_clean - Series_mean group2_clean) / pooled_std in
    Return
      [ ("t_statistic", VFloat t_stat);
        ("p_value", VFloat p_value);
        ("df", VFloat (float_of_nat df));
        ("cohens_d", VFloat cohens_d) ].

Definition one_way_anova (groups : list Sample) : result Dict :=
  if (length groups <? 2)%nat then
    Raise (ValueError "ANOVA requires at least 2 groups")
  else
    (* Clean and validate groups *)
    let clean_groups := map dropna groups in
    if existsb (fun group => (length group <? 2)%nat) clean_groups then
      Raise (ValueError "Each group must have at least 2 non-NaN values")
    else
      match stats_f_oneway clean_groups with
      | Raise e => Raise e
      | Return (f_stat, p_value) =>
          (* Calculate degrees of freedom *)
          let total_n := fold_right Nat.add O (map (@length float) clean_groups) in
          let df_between := (length clean_groups - 1)%nat in
          let df_within := (total_n - length clean_groups)%nat in
          Return
            [ ("f_statistic", VFloat f_stat);
              ("p_value", VFloat p_value);
              ("df_between", VFloat (float_of_nat df_between));
              ("df_within", VFloat (float_of_nat df_within)) ]
      end.

Definition confidence_interval (data : Sample) (confidence : float)
  : result (float * float) :=
  if negb ((0 <? confidence) && (confidence <? 1))%bool then
    Raise (ValueError "Confidence level must be between 0 and 1")
  else
    let data_clean := dropna data in
    if (length data_clean <? 2)%nat then
      Raise (ValueError "Need at least 2 observations for confidence interval")
    else
      let mean := Series_mean data_clean in
      let sem := stats_sem data_clean in
      let margin :=
        sem * t_ppf ((1 + confidence) / 2) (length data_clean - 1) in
      Return (mean - margin, mean + margin).

End Routines.

End Binary64.

Section Distributions.

(** The special functions of [scipy.special] and the rank and moment
    correlation routines are not part of the module. *)

(** [special.stdtr(df, t)]: the Student distribution function. *)
Variable stdtr : float -> float -> float.
(** [special.fdtrc(dfn, dfd, f)]: the upper tail of the F distribution. *)
Variable fdtrc : float -> float -> float -> float.
(** [stats.t.ppf(q, df)]: the Student quantile function. *)
Variable t_ppf : float -> Z -> float.
(** [stats.shapiro], [stats.pearsonr], [stats.spearmanr],
    [stats.kendalltau]: each returns (statistic, p-value). *)
Variable shapiro : list R -> float * float.
Variable pearsonr spearmanr kendalltau : list R -> list R -> float * float.

(** The two-sided p-value of a t statistic. *)
Definition ttest_finish (df t : float) : float * float :=
  (t, (stdtr df (- fabs t) * Fin 2)%float).

(** [stats.ttest_ind(a, b, equal_var=...)] *)
Definition ttest_ind (a b : list R) (equal_var : bool) : float * float :=
  let v1 := nanvar a in
  let v2 := nanvar b in
  let n1 := INR (length a) in
  let n2 := INR (length b) in
  let '(df, denom) :=
    if equal_var then equal_var_ttest_denom v1 n1 v2 n2
    else unequal_var_ttest_denom v1 n1 v2 n2 in
  let d := (nanmean a - nanmean b)%float in
  let t := (d / denom)%float in
  ttest_finish df t.

(** The paired test on two arrays of one length: the one-sample test of
    the position-wise differences [a - b]. *)
Definition ttest_rel (a b : list R) : float * float :=
  let n := INR (length a) in
  let df := Fin (n - 1) in
  let d := map (fun p => fst p - snd p) (combine a b) in
  let v := nanvar d in
  let dm := nanmean d in
  let denom := fsqrt (v / Fin n)%float in
  let t := (dm / denom)%float in
  ttest_finish df t.

(** [stats.ttest_rel(a, b)]: scipy refuses two arrays of different
    lengths, and otherwise runs the paired test. *)
Definition stats_ttest_rel (a b : list R) : result (float * float) :=
  if (length a =? length b)%nat then Return (ttest_rel a b)
  else Raise (ValueError "unequal length arrays"%string).

(** [(_first(a) == a).all()]: every entry equals the first one. *)
Definition all_equal_first (a : list R) : bool :=
  match a with
  | [] => true
  | first :: _ =>
      forallb (fun x => if Req_dec_T first x then true else false) a
  end.

(** scipy's [_square_of_sums] and [_sum_of_squares]. *)
Definition square_of_sums (a : list R) : R := (Rsum a)².

Definition sum_of_squares (a : list R) : R := Rsum (map Rsqr a).

(** The body of [stats.f_oneway], as scipy writes it.  An empty array, or
    arrays of one value each, give [NaN].  The sums of squares are taken
    on the data shifted by the grand mean: the total one, the one between
    the groups, and their difference for the one within the groups.
    Inputs that are constant within each group are recognised by
    comparing the entries, and their result is set by hand. *)
Definition f_oneway (samples : list (list R)) : float * float :=
  let num_groups := INR (length samples) in
  let alldata := concat samples in
  let bign := INR (length alldata) in
  if (existsb (fun sample => (length sample =? 0)%nat) samples
      || forallb (fun sample => (length sample =? 1)%nat) samples)%bool
  then (NaN, NaN)
  else
    let all_const := forallb all_equal_first samples in
    let all_same_const := all_equal_first alldata in
    let offset := Rmean alldata in
    let alldata := map (fun x => x - offset) alldata in
    let normalized_ss := square_of_sums alldata / bign in
    let sstot := sum_of_squares alldata - normalized_ss in
    let ssbn :=
      fold_left
        (fun ssbn sample =>
           ssbn + square_of_sums (map (fun x => x - offset) sample)
                  / INR (length sample))
        samples 0 in
    let ssbn := ssbn - normalized_ss in
    let sswn := sstot - ssbn in
    let dfbn := num_groups - 1 in
    let dfwn := bign - num_groups in
    let msb := (Fin ssbn / Fin dfbn)%float in
    let msw := (Fin sswn / Fin dfwn)%float in
    let f := (msb / msw)%float in
    let prob := fdtrc (Fin dfbn) (Fin dfwn) f in
    if all_same_const then (NaN, NaN)
    else if all_const then (PInf, Fin 0)
    else (f, prob).

(** [stats.f_oneway] called on the arrays: scipy refuses fewer than two. *)
Definition stats_f_oneway (samples : list (list R))
  : result (float * float) :=
  match samples with
  | [] => Raise (TypeError "at least two inputs are required; got 0."%string)
  | [_] => Raise (TypeError "at least two inputs are required; got 1."%string)
  | _ => Return (f_oneway samples)
  end.

(* ================================================================== *)
(** * The module: [statistical_analysis.py] *)
(* ================================================================== *)

Open Scope string_scope.

(** Keyword defaults ([equal_var=True], [method="pearson"],
    [confidence=0.95]) are passed explicitly by the caller. *)

Definition descriptive_stats (data : Sample) : result Dict :=
  if (len data =? 0)%Z then
    Raise (ValueError "Cannot compute statistics on empty data")
  else
    let series := dropna (pd_Series data) in
    if (len series =? 0)%Z then
      Raise (ValueError "Data contains only NaN values")
    else
      Return
        [ ("n", VInt (len series));
          ("mean", VFloat (Series_mean series));
          ("median", VFloat (Series_median series));
          ("std", VFloat (Series_std series));
          ("sem", VFloat (stats_sem (values series)));
          ("min", VFloat (Series_min series));
          ("max", VFloat (Series_max series));
          ("q1", VFloat (Series_quantile series 0.25));
          ("q3", VFloat (Series_quantile series 0.75));
          ("iqr", VFloat (Series_quantile series 0.75
                          - Series_quantile series 0.25)%float) ].

Definition independent_t_test (group1 group2 : Sample) (equal_var : bool)
  : result Dict :=
  let group1_clean := dropna (pd_Series group1) in
  let group2_clean := dropna (pd_Series group2) in
  if ((len group1_clean <? 2)%Z || (len group2_clean <? 2)%Z)%bool then
    Raise (ValueError "Each group must have at least 2 non-NaN values")
  else
    let '(t_stat, p_value) :=
      ttest_ind (values group1_clean) (values group2_clean) equal_var in
    let df := (len group1_clean + len group2_clean - 2)%Z in
    (* Calculate Cohen's d *)
    let pooled_std :=
      fsqrt
        ((float_of_int (len group1_clean - 1)
            * fsquare (Series_std group1_clean)
          + float_of_int (len group2_clean - 1)
            * fsquare (Series_std group2_clean))
         / float_of_int df)%float in
    let cohens_d :=
      ((Series_mean group1_clean - Series_mean group2_clean)
       / pooled_std)%float in
    Return
      [ ("t_statistic", VFloat t_stat);
        ("p_value", VFloat p_value);
        ("df", VFloat (float_of_int df));
        ("cohens_d", VFloat cohens_d) ].

Definition paired_t_test (before after : Sample) : result Dict :=
  let before_clean := dropna (pd_Series before) in
  let after_clean := dropna (pd_Series after) in
  (* Ensure we have the same number of paired observations *)
  let min_len := Z.min (len before_clean) (len after_clean) in
  if (min_len <? 2)%Z then
    Raise (ValueError "Need at least 2 complete pairs for paired t-test")
  else
    let before_clean := iloc_upto min_len before_clean in
    let after_clean := iloc_upto min_len after_clean in
    match stats_ttest_rel (values before_clean) (values after_clean) with
    | Raise e => Raise e
    | Return (t_stat, p_value) =>
        let mean_diff := Series_mean (series_sub after_clean before_clean) in
        Return
          [ ("t_statistic", VFloat t_stat);
            ("p_value", VFloat p_value);
            ("df", VFloat (float_of_int (min_len - 1)));
            ("mean_diff", VFloat mean_diff) ]
    end.

Definition one_way_anova (groups : list Sample) : result Dict :=
  if (len groups <? 2)%Z then
    Raise (ValueError "ANOVA requires at least 2 groups")
  else
    (* Clean and validate groups *)
    let clean_groups :=
      map (fun group => dropna (pd_Series group)) groups in
    if existsb (fun group => (len group <? 2)%Z) clean_groups then
      Raise (ValueError "Each group must have at least 2 non-NaN values")
    else
      match stats_f_oneway (map values clean_groups) with
      | Raise e => Raise e
      | Return (f_stat, p_value) =>
          (* Calculate degrees of freedom *)
          let total_n := fold_right Z.add 0%Z (map len clean_groups) in
          let df_between := (len clean_groups - 1)%Z in
          let df_within := (total_n - len clean_groups)%Z in
          Return
            [ ("f_statistic", VFloat f_stat);
              ("p_value", VFloat p_value);
              ("df_between", VFloat (float_of_int df_between));
              ("df_within", VFloat (float_of_int df_within)) ]
      end.

Definition valid_methods : list string :=
  ["pearson"; "spearman"; "kendall"].

(** The message interpolates the set of valid methods; the order in which
    Python prints a set is not fixed, one order is written here. *)
Definition invalid_method_message : string :=
  "Method must be one of {'pearson', 'spearman', 'kendall'}".

Definition correlation_analysis (x y : Sample) (method : string)
  : result Dict :=
  if negb (existsb (String.eqb method) valid_methods) then
    Raise (ValueError invalid_method_message)
  else
    let x_clean := dropna (pd_Series x) in
    let y_clean := dropna (pd_Series y) in
    (* Align the data by index *)
    let aligned_data := frame_dropna x_clean y_clean in
    if (len aligned_data <? 2)%Z then
      Raise (ValueError "Need at least 2 complete pairs for correlation")
    else
      let xs := map (fun row => fst (snd row)) aligned_data in
      let ys := map (fun row => snd (snd row)) aligned_data in
      let '(corr, p_value) :=
        if String.eqb method "pearson" then pearsonr xs ys
        else if String.eqb method "spearman" then spearmanr xs ys
        else (* kendall *) kendalltau xs ys in
      Return
        [ ("correlation", VFloat corr);
          ("p_value", VFloat p_value);
          ("n", VInt (len aligned_data)) ].

Definition normality_test (data : Sample) : result Dict :=
  let data_clean := dropna (pd_Series data) in
  if (len data_clean <? 3)%Z then
    Raise (ValueError "Normality test requires at least 3 observations")
  else
    let '(w_stat, p_value) := shapiro (values data_clean) in
    Return
      [ ("w_statistic", VFloat w_stat);
        ("p_value", VFloat p_value);
        ("is_normal", VBool (fltb (Fin 0.05) p_value)) ].

Definition confidence_interval (data : Sample) (confidence : float)
  : result (float * float) :=
  if negb (fltb (Fin 0) confidence && fltb confidence (Fin 1)) then
    Raise (ValueError "Confidence level must be between 0 and 1")
  else
    let data_clean := dropna (pd_Series data) in
    if (len data_clean <? 2)%Z then
      Raise (ValueError "Need at least 2 observations for confidence interval")
    else
      let mean := Series_mean data_clean in
      let sem := stats_sem (values data_clean) in
      let margin :=
        (sem * t_ppf ((Fin 1 + confidence) / Fin 2)
                     (len data_clean - 1))%float in
      Return ((mean - margin)%float, (mean + margin)%float).

(* ================================================================== *)
(** * The words of the specification *)
(* ================================================================== *)

(** The cleaned sample: the input sequence with its missing values
    removed, order preserved. *)
Fixpoint cleaned (data : Sample) : list R :=
  match data with
  | [] => []
  | Some x :: rest => x :: cleaned rest
  | None :: rest => cleaned rest
  end.

(** A sample without missing values. *)
Definition present (xs : list R) : Sample := map Some xs.

(** Number of observations left after cleaning. *)
Definition n_obs (data : Sample) : nat := length (cleaned data).

(** Sample standard deviation, with the [n-1] denominator. *)
Definition sample_std (v : list R) : R :=
  sqrt (sum_sq_dev v / (INR (length v) - 1)).

(** Pooled standard deviation of two cleaned samples:
    [sqrt(((n1-1)*s1^2 + (n2-1)*s2^2) / df)] with [df = n1+n2-2]. *)
Definition pooled_std (c1 c2 : list R) : R :=
  let n1 := INR (length c1) in
  let n2 := INR (length c2) in
  let df := n1 + n2 - 2 in
  sqrt (((n1 - 1) * (sample_std c1)² + (n2 - 1) * (sample_std c2)²) / df).

(** Aligned pairs: the observations of two sequences kept only where
    both are present at the same position. *)
Fixpoint aligned_pairs (x y : Sample) : list (R * R) :=
  match x, y with
  | Some u :: x', Some v :: y' => (u, v) :: aligned_pairs x' y'
  | _ :: x', _ :: y' => aligned_pairs x' y'
  | _, _ => []
  end.

(** A confidence level strictly between 0 and 1. *)
Definition valid_confidence (c : float) : Prop :=
  exists r, c = Fin r /\ 0 < r < 1.

Definition raises_ValueError {A : Type} (r : result A) : Prop :=
  exists msg, r = Raise (ValueError msg).

Definition returns {A : Type} (r : result A) : Prop :=
  exists a, r = Return a.

(** ** Auxiliary notions *)

(** Rows of a cleaned range-indexed series carry labels at or above the
    start of the range. *)
Definition labels_from (k : nat) (s : Series) : Prop :=
  Forall (fun row => (k <= fst row)%nat) s.

(** The labels of the rows of a range-indexed sample that hold a value,
    the range starting at [k]. *)
Fixpoint present_labels (k : nat) (data : Sample) : list nat :=
  match data with
  | [] => []
  | Some _ :: rest => k :: present_labels (S k) rest
  | None :: rest => present_labels (S k) rest
  end.

(** The missing-value pattern of a sample: which positions are missing. *)
Definition missing_mask (data : Sample) : list bool :=
  map (fun o => match o with Some _ => false | None => true end) data.



Close Scope string_scope.

(* ================================================================== *)
(** * Lemmas on floats *)
(* ================================================================== *)

Lemma fdiv_Fin (a b : R) : b <> 0 -> (Fin a / Fin b)%float = Fin (a / b).
Proof.
  intros Hb. unfold fdiv.
  destruct (Req_dec_T b 0) as [E | _]; [contradiction | reflexivity].
Qed.

Lemma fsqrt_Fin (r : R) : 0 <= r -> fsqrt (Fin r) = Fin (sqrt r).
Proof.
  intros Hr. unfold fsqrt.
  destruct (Rlt_dec r 0) as [L | _]; [lra | reflexivity].
Qed.

Lemma signed_inf_opp (a : R) : a <> 0 -> signed_inf (- a) = fneg (signed_inf a).
Proof.
  intros Ha. unfold signed_inf.
  destruct (Rlt_dec 0 (- a)), (Rlt_dec 0 a); simpl; try reflexivity; lra.
Qed.

Lemma fdiv_opp_l (a b : R) :
  (Fin (- a) / Fin b)%float = fneg (Fin a / Fin b)%float.
Proof.
  unfold fdiv. destruct (Req_dec_T b 0) as [Eb | Nb].
  - destruct (Req_dec_T a 0) as [Ea | Na];
      destruct (Req_dec_T (- a) 0) as [Ea' | Na']; try lra.
    + reflexivity.
    + now apply signed_inf_opp.
  - simpl. f_equal. field. exact Nb.
Qed.

Lemma fabs_fneg (x : float) : fabs (fneg x) = fabs x.
Proof. destruct x; simpl; try reflexivity. now rewrite Rabs_Ropp. Qed.

Lemma fltb_Fin (a b : R) : fltb (Fin a) (Fin b) = true <-> a < b.
Proof.
  simpl. destruct (Rlt_dec a b); split; intros; auto; discriminate.
Qed.

(* ================================================================== *)
(** * Lemmas on series *)
(* ================================================================== *)

Lemma values_range (data : Sample) (k : nat) :
  values (combine (seq k (length data)) data) = cleaned data.
Proof.
  revert k. induction data as [| [x |] rest IH]; intros k; simpl.
  - reflexivity.
  - now rewrite IH.
  - apply IH.
Qed.

Lemma values_pd_Series (data : Sample) :
  values (pd_Series data) = cleaned data.
Proof. apply values_range. Qed.

Lemma values_dropna (s : Series) : values (dropna s) = values s.
Proof.
  induction s as [| [l [x |]] s IH]; simpl.
  - reflexivity.
  - now rewrite IH.
  - exact IH.
Qed.

Lemma length_dropna (s : Series) : length (dropna s) = length (values s).
Proof.
  induction s as [| [l [x |]] s IH]; simpl.
  - reflexivity.
  - now rewrite IH.
  - exact IH.
Qed.

Lemma values_clean (data : Sample) :
  values (dropna (pd_Series data)) = cleaned data.
Proof. now rewrite values_dropna, values_pd_Series. Qed.

Lemma len_clean (data : Sample) :
  len (dropna (pd_Series data)) = Z.of_nat (n_obs data).
Proof.
  unfold len, n_obs. now rewrite length_dropna, values_pd_Series.
Qed.

Lemma n_obs_le_length (data : Sample) : (n_obs data <= length data)%nat.
Proof.
  unfold n_obs. induction data as [| [x |] rest IH]; simpl; lia.
Qed.

Lemma labels_from_weaken (k k' : nat) (s : Series) :
  (k' <= k)%nat -> labels_from k s -> labels_from k' s.
Proof.
  intros Hk H. unfold labels_from in *.
  eapply Forall_impl; [| exact H]. simpl. intros row Hr. lia.
Qed.

Lemma labels_from_clean_range (data : Sample) (k : nat) :
  labels_from k (dropna (combine (seq k (length data)) data)).
Proof.
  revert k. induction data as [| o rest IH]; intros k; simpl.
  - constructor.
  - assert (Hrest : labels_from k
                      (dropna (combine (seq (S k) (length rest)) rest))).
    { apply labels_from_weaken with (k := S k); [lia | apply IH]. }
    unfold notna at 1. simpl.
    destruct o; [constructor; simpl; auto | exact Hrest].
Qed.

Lemma frame_dropna_nil_r (a : Series) : frame_dropna a [] = [].
Proof. destruct a as [| [la x] a']; reflexivity. Qed.

Lemma frame_dropna_skip_l (k : nat) (x : option R) (a b : Series) :
  labels_from (S k) b ->
  frame_dropna ((k, x) :: a) b = frame_dropna a b.
Proof.
  intros Hb. destruct b as [| [lb y] b'].
  - simpl. now rewrite frame_dropna_nil_r.
  - inversion Hb as [| ? ? Hlb _]; subst. simpl in Hlb.
    simpl. destruct (Nat.compare_spec k lb); try lia. reflexivity.
Qed.

Lemma frame_dropna_skip_r (k : nat) (y : option R) (a b : Series) :
  labels_from (S k) a ->
  frame_dropna a ((k, y) :: b) = frame_dropna a b.
Proof.
  intros Ha. induction a as [| [la x] a' IH].
  - reflexivity.
  - inversion Ha as [| ? ? Hla Ha']; subst. simpl in Hla.
    simpl. destruct (Nat.compare_spec la k); try lia. reflexivity.
Qed.

(** On two range-indexed samples, label alignment is position
    alignment. *)
Lemma frame_dropna_range (x y : Sample) (k : nat) :
  map snd (frame_dropna (dropna (combine (seq k (length x)) x))
                        (dropna (combine (seq k (length y)) y)))
  = aligned_pairs x y.
Proof.
  revert y k. induction x as [| ox x' IH]; intros y k.
  - destruct y; reflexivity.
  - destruct y as [| oy y'].
    + simpl. rewrite frame_dropna_nil_r. now destruct ox.
    + pose proof (labels_from_clean_range x' (S k)) as Lx.
      pose proof (labels_from_clean_range y' (S k)) as Ly.
      specialize (IH y' (S k)).
      destruct ox as [u |], oy as [v |]; simpl length; simpl seq;
        simpl combine; unfold dropna; simpl filter; fold dropna.
      * simpl. rewrite Nat.compare_refl. simpl. f_equal. exact IH.
      * rewrite frame_dropna_skip_l by exact Ly. exact IH.
      * rewrite frame_dropna_skip_r by exact Lx. exact IH.
      * exact IH.
Qed.

Lemma len_aligned (x y : Sample) :
  len (frame_dropna (dropna (pd_Series x)) (dropna (pd_Series y)))
  = Z.of_nat (length (aligned_pairs x y)).
Proof.
  unfold len, pd_Series.
  now rewrite <- (frame_dropna_range x y 0), length_map.
Qed.

(* ================================================================== *)
(** * Lemmas on the reductions *)
(* ================================================================== *)

Lemma INR_length_pos {A : Type} (x : A) (l : list A) :
  0 < INR (length (x :: l)).
Proof. apply lt_0_INR. simpl. lia. Qed.

Lemma nanmean_Fin (v : list R) : v <> [] -> nanmean v = Fin (Rmean v).
Proof.
  intros Hv. destruct v as [| x l]; [contradiction |].
  unfold nanmean, Rmean. apply fdiv_Fin.
  pose proof (INR_length_pos x l). lra.
Qed.

Lemma nanvar_Fin (v : list R) :
  (2 <= length v)%nat ->
  nanvar v = Fin (sum_sq_dev v / (INR (length v) - 1)).
Proof.
  intros Hn. unfold nanvar.
  destruct (Nat.leb_spec (length v) 1) as [H | H]; [lia |].
  apply fdiv_Fin. apply le_INR in Hn. simpl in Hn. lra.
Qed.

Lemma nanvar_single (x : R) : nanvar [x] = NaN.
Proof. reflexivity. Qed.

Lemma percentile_linear_single (x : R) (q : Q) :
  percentile_linear [x] q = x.
Proof.
  unfold percentile_linear. simpl length.
  replace (Qfloor (inject_Z (Z.of_nat 1 - 1) * q)) with 0%Z
    by (destruct q; reflexivity).
  simpl. unfold lerp. ring.
Qed.

Lemma fadd_comm (x y : float) : (x + y)%float = (y + x)%float.
Proof.
  destruct x, y; simpl; try reflexivity. f_equal. ring.
Qed.

Lemma fsub_antisym (x y : float) : (y - x)%float = fneg (x - y)%float.
Proof.
  destruct x, y; simpl; try reflexivity. f_equal. ring.
Qed.

Lemma fdiv_fneg_l (x y : float) : (fneg x / y)%float = fneg (x / y)%float.
Proof.
  destruct x as [| | a |], y as [| | b |]; try reflexivity;
    try apply fdiv_opp_l;
    simpl; try (now destruct (Rlt_dec b 0)); f_equal; ring.
Qed.

Lemma fsquare_Fin (a : R) : fsquare (Fin a) = Fin (a²).
Proof. reflexivity. Qed.

Lemma IZR_of_nat_minus (n : nat) (k : Z) :
  IZR (Z.of_nat n - k) = INR n - IZR k.
Proof. now rewrite minus_IZR, <- INR_IZR_INZ. Qed.

Lemma IZR_of_nat_plus_minus (n m : nat) (k : Z) :
  IZR (Z.of_nat n + Z.of_nat m - k) = INR n + INR m - IZR k.
Proof. now rewrite minus_IZR, plus_IZR, <- !INR_IZR_INZ. Qed.

Lemma Rsum_sq_nonneg (f : R -> R) (v : list R) :
  0 <= Rsum (map (fun x => (f x)²) v).
Proof.
  induction v as [| x l IH]; simpl; [lra |].
  pose proof (Rle_0_sqr (f x)). lra.
Qed.

Lemma sum_sq_dev_nonneg (v : list R) : 0 <= sum_sq_dev v.
Proof. unfold sum_sq_dev. apply (Rsum_sq_nonneg (fun x => x - Rmean v)). Qed.

Lemma Rdiv_nonneg (a b : R) : 0 <= a -> 0 < b -> 0 <= a / b.
Proof.
  intros Ha Hb. unfold Rdiv. apply Rmult_le_pos; [exact Ha |].
  left. now apply Rinv_0_lt_compat.
Qed.

Lemma sample_var_nonneg (v : list R) :
  (2 <= length v)%nat -> 0 <= sum_sq_dev v / (INR (length v) - 1).
Proof.
  intros Hn. apply le_INR in Hn. simpl in Hn.
  apply Rdiv_nonneg; [apply sum_sq_dev_nonneg | lra].
Qed.

Lemma nanstd_Fin (v : list R) :
  (2 <= length v)%nat -> nanstd v = Fin (sample_std v).
Proof.
  intros Hn. unfold nanstd, sample_std. rewrite nanvar_Fin by exact Hn.
  apply fsqrt_Fin. now apply sample_var_nonneg.
Qed.

(* ================================================================== *)
(** * Lemmas on the independent t-test *)
(* ================================================================== *)

Lemma pooled_radicand_nonneg (c1 c2 : list R) :
  (2 <= length c1)%nat -> (2 <= length c2)%nat ->
  0 <= ((INR (length c1) - 1) * (sample_std c1)²
        + (INR (length c2) - 1) * (sample_std c2)²)
       / (INR (length c1) + INR (length c2) - 2).
Proof.
  intros H1 H2.
  pose proof (le_INR _ _ H1) as L1. pose proof (le_INR _ _ H2) as L2.
  simpl in L1, L2.
  apply Rdiv_nonneg; [| lra].
  pose proof (Rle_0_sqr (sample_std c1)).
  pose proof (Rle_0_sqr (sample_std c2)).
  apply Rplus_le_le_0_compat; apply Rmult_le_pos; auto; lra.
Qed.

(** The float computation of the pooled standard deviation in the source
    is finite on valid groups and is the real number [pooled_std]. *)
Lemma pooled_std_float (c1 c2 : list R) :
  (2 <= length c1)%nat -> (2 <= length c2)%nat ->
  fsqrt
    ((float_of_int (Z.of_nat (length c1) - 1) * fsquare (nanstd c1)
      + float_of_int (Z.of_nat (length c2) - 1) * fsquare (nanstd c2))
     / float_of_int (Z.of_nat (length c1) + Z.of_nat (length c2) - 2))%float
  = Fin (pooled_std c1 c2).
Proof.
  intros H1 H2. unfold float_of_int, pooled_std.
  rewrite !nanstd_Fin by assumption. rewrite !fsquare_Fin.
  rewrite !IZR_of_nat_minus, IZR_of_nat_plus_minus.
  pose proof (le_INR _ _ H1) as L1. pose proof (le_INR _ _ H2) as L2.
  simpl in L1, L2.
  cbn [fmul fadd]. rewrite fdiv_Fin by lra.
  apply fsqrt_Fin. now apply pooled_radicand_nonneg.
Qed.

Lemma pooled_std_sym (c1 c2 : list R) : pooled_std c2 c1 = pooled_std c1 c2.
Proof. unfold pooled_std. f_equal. f_equal; ring. Qed.

Open Scope string_scope.

(** What [independent_t_test] returns on valid groups. *)
Lemma independent_t_test_valid (group1 group2 : Sample) (equal_var : bool) :
  (2 <= n_obs group1)%nat -> (2 <= n_obs group2)%nat ->
  let c1 := cleaned group1 in
  let c2 := cleaned group2 in
  independent_t_test group1 group2 equal_var =
  Return
    [ ("t_statistic", VFloat (fst (ttest_ind c1 c2 equal_var)));
      ("p_value", VFloat (snd (ttest_ind c1 c2 equal_var)));
      ("df", VFloat (Fin (INR (length c1) + INR (length c2) - 2)));
      ("cohens_d",
       VFloat (Fin (Rmean c1 - Rmean c2) / Fin (pooled_std c1 c2))%float) ].
Proof.
  intros H1 H2 c1 c2. unfold independent_t_test.
  rewrite !len_clean.
  destruct (Z.ltb_spec (Z.of_nat (n_obs group1)) 2); [lia |].
  destruct (Z.ltb_spec (Z.of_nat (n_obs group2)) 2); [lia |].
  cbn [orb]. rewrite !values_clean. fold c1 c2.
  destruct (ttest_ind c1 c2 equal_var) as [t p]. cbn [fst snd].
  unfold Series_std, Series_mean. rewrite !values_clean. fold c1 c2.
  unfold n_obs. fold c1 c2.
  rewrite pooled_std_float by assumption.
  assert (N1 : c1 <> []) by (intros E; unfold n_obs in H1; fold c1 in H1;
                             rewrite E in H1; simpl in H1; lia).
  assert (N2 : c2 <> []) by (intros E; unfold n_obs in H2; fold c2 in H2;
                             rewrite E in H2; simpl in H2; lia).
  rewrite !nanmean_Fin by assumption.
  unfold float_of_int. rewrite IZR_of_nat_plus_minus.
  reflexivity.
Qed.

Close Scope string_scope.

Lemma equal_var_ttest_denom_sym (v1 v2 : float) (n1 n2 : R) :
  equal_var_ttest_denom v2 n2 v1 n1 = equal_var_ttest_denom v1 n1 v2 n2.
Proof.
  unfold equal_var_ttest_denom.
  replace (n2 + n1 - 2) with (n1 + n2 - 2) by ring.
  rewrite (fadd_comm (Fin (n2 - 1) * v2)%float).
  rewrite (fadd_comm (Fin 1 / Fin n2)%float).
  reflexivity.
Qed.

Lemma unequal_var_ttest_denom_sym (v1 v2 : float) (n1 n2 : R) :
  unequal_var_ttest_denom v2 n2 v1 n1 = unequal_var_ttest_denom v1 n1 v2 n2.
Proof.
  unfold unequal_var_ttest_denom.
  rewrite (fadd_comm (v2 / Fin n2)%float).
  rewrite (fadd_comm (fsquare (v2 / Fin n2) / Fin (n2 - 1))%float).
  reflexivity.
Qed.

(** Swapping the two arrays negates the statistic of [ttest_ind] and
    keeps its p-value. *)
Lemma ttest_ind_swap (a b : list R) (equal_var : bool) :
  ttest_ind b a equal_var
  = (fneg (fst (ttest_ind a b equal_var)), snd (ttest_ind a b equal_var)).
Proof.
  unfold ttest_ind.
  replace (if equal_var
           then equal_var_ttest_denom (nanvar b) (INR (length b))
                  (nanvar a) (INR (length a))
           else unequal_var_ttest_denom (nanvar b) (INR (length b))
                  (nanvar a) (INR (length a)))
    with (if equal_var
          then equal_var_ttest_denom (nanvar a) (INR (length a))
                 (nanvar b) (INR (length b))
          else unequal_var_ttest_denom (nanvar a) (INR (length a))
                 (nanvar b) (INR (length b)))
    by (destruct equal_var;
        [now rewrite equal_var_ttest_denom_sym
        | now rewrite unequal_var_ttest_denom_sym]).
  destruct (if equal_var then _ else _) as [df denom].
  unfold ttest_finish. cbn [fst snd].
  rewrite (fsub_antisym (nanmean a) (nanmean b)).
  rewrite fdiv_fneg_l, fabs_fneg. reflexivity.
Qed.

(* ================================================================== *)
(** * Lemmas on the paired t-test *)
(* ================================================================== *)

Lemma dropna_all_notna (s : Series) :
  Forall (fun row => notna row = true) (dropna s).
Proof.
  unfold dropna. apply Forall_forall. intros row Hin.
  now apply filter_In in Hin.
Qed.

Lemma values_firstn (k : nat) (s : Series) :
  Forall (fun row => notna row = true) s ->
  values (firstn k s) = firstn k (values s).
Proof.
  revert k. induction s as [| [l o] s IH]; intros k Hs.
  - now rewrite !firstn_nil.
  - inversion Hs as [| ? ? Hrow Hs']; subst.
    destruct o as [x |]; [| discriminate Hrow].
    destruct k as [| k]; simpl; [reflexivity |].
    now rewrite IH.
Qed.

Lemma values_iloc_clean (k : nat) (data : Sample) :
  values (iloc_upto (Z.of_nat k) (dropna (pd_Series data)))
  = firstn k (cleaned data).
Proof.
  unfold iloc_upto. rewrite Nat2Z.id.
  rewrite values_firstn by apply dropna_all_notna.
  now rewrite values_clean.
Qed.

Lemma min_len_clean (before after : Sample) :
  Z.min (len (dropna (pd_Series before))) (len (dropna (pd_Series after)))
  = Z.of_nat (Nat.min (n_obs before) (n_obs after)).
Proof. rewrite !len_clean. lia. Qed.

Lemma cleaned_present (xs : list R) : cleaned (present xs) = xs.
Proof. induction xs as [| x l IH]; simpl; [reflexivity | now rewrite IH]. Qed.

Lemma dropna_present (ls : list nat) (xs : list R) :
  dropna (combine ls (present xs)) = combine ls (present xs).
Proof.
  revert xs. induction ls as [| l ls IH]; intros [| x xs]; simpl;
    try reflexivity.
  unfold dropna in *. simpl. now rewrite IH.
Qed.

Lemma firstn_seq_le (k n start : nat) :
  (k <= n)%nat -> firstn k (seq start n) = seq start k.
Proof.
  revert n start. induction k as [| k IH]; intros n start Hk.
  - reflexivity.
  - destruct n as [| n]; [lia |]. simpl. f_equal. apply IH. lia.
Qed.

Lemma iloc_clean_present (k : nat) (xs : list R) :
  (k <= length xs)%nat ->
  iloc_upto (Z.of_nat k) (dropna (pd_Series (present xs)))
  = combine (seq 0 k) (present (firstn k xs)).
Proof.
  intros Hk. unfold iloc_upto, pd_Series. rewrite Nat2Z.id.
  rewrite dropna_present, combine_firstn.
  unfold present. rewrite length_map, firstn_map.
  now rewrite firstn_seq_le by exact Hk.
Qed.

(** Two series over the same label column subtract row by row. *)
Lemma series_sub_same_labels (ls : list nat) (xs ys : list R) :
  series_sub (combine ls (present xs)) (combine ls (present ys))
  = combine ls (present (map (fun p => fst p - snd p) (combine xs ys)))
    ++ all_missing (skipn (length ys) (combine ls (present xs)))
    ++ all_missing (skipn (length xs) (combine ls (present ys))).
Proof.
  revert xs ys. induction ls as [| l ls IH]; intros xs ys.
  - simpl. now rewrite !skipn_nil.
  - destruct xs as [| x xs], ys as [| y ys]; simpl.
    + reflexivity.
    + reflexivity.
    + now rewrite app_nil_r.
    + rewrite Nat.compare_refl. simpl. f_equal. apply IH.
Qed.

Lemma values_all_missing (s : Series) : values (all_missing s) = [].
Proof. induction s as [| [l o] s IH]; simpl; [reflexivity | exact IH]. Qed.

Lemma values_combine_present (ls : list nat) (xs : list R) :
  length ls = length xs -> values (combine ls (present xs)) = xs.
Proof.
  revert xs. induction ls as [| l ls IH]; intros [| x xs] Hlen;
    simpl in *; try reflexivity; try discriminate.
  f_equal. apply IH. lia.
Qed.

(** Position-wise differences of the two prefixes, by index. *)
Lemma prefix_differences (k : nat) (xs ys : list R) :
  (k <= length xs)%nat -> (k <= length ys)%nat ->
  map (fun p => fst p - snd p) (combine (firstn k xs) (firstn k ys))
  = map (fun i => nth i xs 0 - nth i ys 0) (seq 0 k).
Proof.
  revert xs ys. induction k as [| k IH]; intros xs ys Hx Hy.
  - reflexivity.
  - destruct xs as [| x xs]; [simpl in Hx; lia |].
    destruct ys as [| y ys]; [simpl in Hy; lia |].
    simpl in Hx, Hy. cbn [firstn combine map seq nth fst snd].
    f_equal. rewrite IH by lia.
    rewrite <- seq_shift, map_map. reflexivity.
Qed.

Open Scope string_scope.

(** The two prefixes handed to [stats.ttest_rel] have one length, so the
    test is run. *)
Lemma stats_ttest_rel_prefixes (before after : Sample) :
  let pairs := Nat.min (n_obs before) (n_obs after) in
  stats_ttest_rel (firstn pairs (cleaned before))
                  (firstn pairs (cleaned after))
  = Return (ttest_rel (firstn pairs (cleaned before))
                      (firstn pairs (cleaned after))).
Proof.
  intros pairs. unfold stats_ttest_rel.
  assert (Hb : length (firstn pairs (cleaned before)) = pairs)
    by (apply firstn_length_le; unfold pairs, n_obs; lia).
  assert (Ha : length (firstn pairs (cleaned after)) = pairs)
    by (apply firstn_length_le; unfold pairs, n_obs; lia).
  rewrite Hb, Ha, Nat.eqb_refl. reflexivity.
Qed.

(** What [paired_t_test] returns when at least two pairs remain. *)
Lemma paired_t_test_valid (before after : Sample) :
  let pairs := Nat.min (n_obs before) (n_obs after) in
  (2 <= pairs)%nat ->
  paired_t_test before after =
  Return
    [ ("t_statistic",
       VFloat (fst (ttest_rel (firstn pairs (cleaned before))
                              (firstn pairs (cleaned after)))));
      ("p_value",
       VFloat (snd (ttest_rel (firstn pairs (cleaned before))
                              (firstn pairs (cleaned after)))));
      ("df", VFloat (Fin (INR pairs - 1)));
      ("mean_diff",
       VFloat (Series_mean
                 (series_sub
                    (iloc_upto (Z.of_nat pairs) (dropna (pd_Series after)))
                    (iloc_upto (Z.of_nat pairs)
                               (dropna (pd_Series before)))))) ].
Proof.
  intros pairs Hp. unfold paired_t_test.
  rewrite min_len_clean. fold pairs.
  destruct (Z.ltb_spec (Z.of_nat pairs) 2); [lia |].
  rewrite !values_iloc_clean.
  unfold pairs. rewrite stats_ttest_rel_prefixes. fold pairs.
  destruct (ttest_rel _ _) as [t p]. cbn [fst snd].
  unfold float_of_int. rewrite IZR_of_nat_minus. reflexivity.
Qed.

Close Scope string_scope.

(** Without missing values, the label-aligned difference of the two
    truncated series is the list of position-wise differences. *)
Lemma values_series_sub_prefix (k : nat) (xs ys : list R) :
  (k <= length xs)%nat -> (k <= length ys)%nat ->
  values (series_sub
            (iloc_upto (Z.of_nat k) (dropna (pd_Series (present xs))))
            (iloc_upto (Z.of_nat k) (dropna (pd_Series (present ys)))))
  = map (fun i => nth i xs 0 - nth i ys 0) (seq 0 k).
Proof.
  intros Hx Hy. rewrite !iloc_clean_present by assumption.
  rewrite series_sub_same_labels.
  assert (Lx : length (firstn k xs) = k) by (apply firstn_length_le; exact Hx).
  assert (Ly : length (firstn k ys) = k) by (apply firstn_length_le; exact Hy).
  rewrite !skipn_all2
    by (unfold present; rewrite length_combine, length_seq, length_map; lia).
  simpl all_missing. rewrite !app_nil_r.
  rewrite values_combine_present
    by (rewrite length_map, length_combine, length_seq; lia).
  now apply prefix_differences.
Qed.

(* ================================================================== *)
(** * Lemmas on the confidence interval *)
(* ================================================================== *)



(* ================================================================== *)
(** * Lemmas on order statistics *)
(* ================================================================== *)

Lemma insert_In (x y : R) (l : list R) :
  In y (insert x l) <-> y = x \/ In y l.
Proof.
  induction l as [| z t IH]; simpl.
  - split; intros [H | H]; auto.
  - destruct (Rle_dec x z); simpl.
    + split; intros [H | H]; auto.
    + split.
      * intros [H | H]; [right; now left |].
        apply IH in H. destruct H as [H | H]; [now left | right; now right].
      * intros [H | [H | H]].
        -- right. apply IH. now left.
        -- now left.
        -- right. apply IH. now right.
Qed.

Lemma insert_sorted (x : R) (l : list R) :
  StronglySorted Rle l -> StronglySorted Rle (insert x l).
Proof.
  induction l as [| y t IH]; intros Hs; simpl.
  - constructor; constructor.
  - inversion Hs as [| ? ? Ht Hy]; subst.
    destruct (Rle_dec x y) as [Hxy | Hxy].
    + constructor; [exact Hs |]. constructor; [exact Hxy |].
      eapply Forall_impl; [| exact Hy]. simpl. intros z Hz. lra.
    + constructor; [now apply IH |].
      apply Forall_forall. intros z Hz. apply insert_In in Hz.
      destruct Hz as [-> | Hz]; [lra |].
      rewrite Forall_forall in Hy. now apply Hy.
Qed.

Lemma np_sort_sorted (v : list R) : StronglySorted Rle (np_sort v).
Proof.
  induction v as [| x l IH]; simpl; [constructor | now apply insert_sorted].
Qed.

Lemma fold_Rmin_le (x : R) (t : list R) (y : R) :
  In y (x :: t) -> fold_right Rmin x t <= y.
Proof.
  induction t as [| z t IH]; simpl; intros Hy.
  - destruct Hy as [-> | []]. lra.
  - pose proof (Rmin_l z (fold_right Rmin x t)).
    pose proof (Rmin_r z (fold_right Rmin x t)).
    destruct Hy as [-> | [-> | Hy]].
    + assert (fold_right Rmin y t <= y) by (apply IH; now left). lra.
    + lra.
    + assert (fold_right Rmin x t <= y) by (apply IH; now right). lra.
Qed.

Lemma fold_Rmax_ge (x : R) (t : list R) (y : R) :
  In y (x :: t) -> y <= fold_right Rmax x t.
Proof.
  induction t as [| z t IH]; simpl; intros Hy.
  - destruct Hy as [-> | []]. lra.
  - pose proof (Rmax_l z (fold_right Rmax x t)).
    pose proof (Rmax_r z (fold_right Rmax x t)).
    destruct Hy as [-> | [-> | Hy]].
    + assert (y <= fold_right Rmax y t) by (apply IH; now left). lra.
    + lra.
    + assert (y <= fold_right Rmax x t) by (apply IH; now right). lra.
Qed.

(* ================================================================== *)
(** * Lemmas on lengths *)
(* ================================================================== *)

Lemma length_ge_2_nonempty (v : list R) : (2 <= length v)%nat -> v <> [].
Proof. intros H E. rewrite E in H. simpl in H. lia. Qed.

(* ================================================================== *)
(** * When each operation raises *)
(* ================================================================== *)

Lemma raises_not_returns {A : Type} (r : result A) :
  raises_ValueError r -> ~ returns r.
Proof. intros [msg ->] [a H]. discriminate H. Qed.

Lemma existsb_too_small (groups : list Sample) :
  existsb (fun group : Series => (len group <? 2)%Z)
          (map (fun group => dropna (pd_Series group)) groups) = true
  <-> Exists (fun g => (n_obs g < 2)%nat) groups.
Proof.
  induction groups as [| g rest IH]; simpl.
  - split; [discriminate | intros H; inversion H].
  - rewrite Bool.orb_true_iff, IH, len_clean, Z.ltb_lt.
    split.
    + intros [H | H]; [left; lia | now right].
    + intros H. inversion H; subst; [left; lia | now right].
Qed.

Lemma valid_method_In (method : string) :
  existsb (String.eqb method) valid_methods = true <-> In method valid_methods.
Proof.
  rewrite existsb_exists. split.
  - intros [m [Hin Heq]]. apply String.eqb_eq in Heq. now subst.
  - intros Hin. exists method. split; [exact Hin | apply String.eqb_refl].
Qed.

Lemma confidence_guard (c : float) :
  (fltb (Fin 0) c && fltb c (Fin 1))%bool = true <-> valid_confidence c.
Proof.
  unfold valid_confidence. rewrite Bool.andb_true_iff. split.
  - intros [H0 H1]. destruct c as [| | r |]; try discriminate.
    exists r. split; [reflexivity |].
    apply fltb_Fin in H0. apply fltb_Fin in H1. lra.
  - intros [r [-> [H0 H1]]]. split; now apply fltb_Fin.
Qed.

Lemma descriptive_stats_raises_iff (data : Sample) :
  n_obs data = 0%nat <-> raises_ValueError (descriptive_stats data).
Proof.
  unfold descriptive_stats. split.
  - intros H0.
    destruct (Z.eqb_spec (len data) 0) as [_ | _]; [now eexists |].
    rewrite len_clean, H0. simpl. now eexists.
  - intros [msg H].
    destruct (Z.eqb_spec (len data) 0) as [E | _].
    + pose proof (n_obs_le_length data). unfold len in E. lia.
    + rewrite len_clean in H.
      destruct (Z.eqb_spec (Z.of_nat (n_obs data)) 0) as [E | _];
        [lia | discriminate H].
Qed.

Lemma independent_t_test_raises_iff
    (group1 group2 : Sample) (equal_var : bool) :
  (n_obs group1 < 2 \/ n_obs group2 < 2)%nat
  <-> raises_ValueError (independent_t_test group1 group2 equal_var).
Proof.
  unfold independent_t_test. rewrite !len_clean.
  destruct (Z.ltb_spec (Z.of_nat (n_obs group1)) 2);
    destruct (Z.ltb_spec (Z.of_nat (n_obs group2)) 2); cbn [orb];
    try (split; [intros _; now eexists | intros _; lia]).
  destruct (ttest_ind _ _ _). split; [lia |].
  intros [msg Hr]. discriminate Hr.
Qed.

Lemma paired_t_test_raises_iff (before after : Sample) :
  (Nat.min (n_obs before) (n_obs after) < 2)%nat
  <-> raises_ValueError (paired_t_test before after).
Proof.
  destruct (le_lt_dec 2 (Nat.min (n_obs before) (n_obs after))) as [Hp | Hp].
  - rewrite paired_t_test_valid by exact Hp. split; [lia |].
    intros [msg Hr]. discriminate Hr.
  - unfold paired_t_test. rewrite min_len_clean.
    destruct (Z.ltb_spec (Z.of_nat (Nat.min (n_obs before) (n_obs after))) 2);
      [| lia].
    split; [intros _; now eexists | intros _; exact Hp].
Qed.

(** Given at least two arrays, [stats.f_oneway] returns. *)
Lemma stats_f_oneway_two_or_more (samples : list (list R)) :
  (2 <= length samples)%nat ->
  stats_f_oneway samples = Return (f_oneway samples).
Proof.
  destruct samples as [| a [| b rest]]; simpl; [lia | lia | reflexivity].
Qed.

Lemma one_way_anova_raises_iff (groups : list Sample) :
  ((length groups < 2)%nat \/ Exists (fun g => (n_obs g < 2)%nat) groups)
  <-> raises_ValueError (one_way_anova groups).
Proof.
  unfold one_way_anova.
  destruct (Z.ltb_spec (len groups) 2) as [Hlen | Hlen]; unfold len in Hlen.
  - split; [intros _; now eexists | intros _; left; lia].
  - destruct (existsb _ _) eqn:E.
    + split; [intros _; now eexists |].
      intros _. right. now apply existsb_too_small.
    + rewrite stats_f_oneway_two_or_more by (rewrite !length_map; lia).
      destruct (f_oneway _). split.
      * intros [Hv | Hv]; [lia |].
        apply existsb_too_small in Hv.
        apply Bool.not_true_iff_false in E. exfalso. apply E. exact Hv.
      * intros [msg Hr]. discriminate Hr.
Qed.

Lemma correlation_analysis_raises_iff (x y : Sample) (method : string) :
  (~ In method valid_methods \/ (length (aligned_pairs x y) < 2)%nat)
  <-> raises_ValueError (correlation_analysis x y method).
Proof.
  unfold correlation_analysis.
  destruct (existsb (String.eqb method) valid_methods) eqn:E; cbn [negb].
  - apply valid_method_In in E. rewrite len_aligned.
    destruct (Z.ltb_spec (Z.of_nat (length (aligned_pairs x y))) 2).
    + split; [intros _; now eexists | intros _; right; lia].
    + destruct (if String.eqb method "pearson" then _ else _).
      split; [intros [Hm | Hl]; [contradiction | lia] |].
      intros [msg Hr]. discriminate Hr.
  - split; [intros _; now eexists |].
    intros _. left. intros Hin. apply valid_method_In in Hin. congruence.
Qed.

Lemma normality_test_raises_iff (data : Sample) :
  (n_obs data < 3)%nat <-> raises_ValueError (normality_test data).
Proof.
  unfold normality_test. rewrite len_clean.
  destruct (Z.ltb_spec (Z.of_nat (n_obs data)) 3).
  - split; [intros _; now eexists | intros _; lia].
  - destruct (shapiro _). split; [lia |].
    intros [msg Hr]. discriminate Hr.
Qed.

Lemma confidence_interval_raises_iff (data : Sample) (confidence : float) :
  (~ valid_confidence confidence \/ (n_obs data < 2)%nat)
  <-> raises_ValueError (confidence_interval data confidence).
Proof.
  unfold confidence_interval.
  destruct (fltb (Fin 0) confidence && fltb confidence (Fin 1))%bool eqn:E;
    cbn [negb].
  - apply confidence_guard in E. rewrite len_clean.
    destruct (Z.ltb_spec (Z.of_nat (n_obs data)) 2).
    + split; [intros _; now eexists | intros _; right; lia].
    + split; [intros [Hc | Hl]; [contradiction | lia] |].
      intros [msg Hr]. discriminate Hr.
  - split; [intros _; now eexists |].
    intros _. left. intros Hc. apply confidence_guard in Hc. congruence.
Qed.

(* ================================================================== *)
(** * Error handling *)
(* ================================================================== *)

(** C1 (amended).  Each of the seven operations raises exactly when its
    precondition is violated (no observation left for
    [descriptive_stats]; a group with fewer than two observations after
    cleaning; fewer than two pairs; fewer than two groups; a method
    outside pearson, spearman and kendall; fewer than three observations
    for the normality test; a confidence level outside the open interval
    from 0 to 1), the exception raised is Python's built-in [ValueError],
    and a call that raises returns no mapping. *)
Theorem precondition_violation_raises_ValueError :
  (forall data,
      n_obs data = 0%nat <-> raises_ValueError (descriptive_stats data))
  /\ (forall group1 group2 equal_var,
         (n_obs group1 < 2 \/ n_obs group2 < 2)%nat
         <-> raises_ValueError (independent_t_test group1 group2 equal_var))
  /\ (forall before after,
         (Nat.min (n_obs before) (n_obs after) < 2)%nat
         <-> raises_ValueError (paired_t_test before after))
  /\ (forall groups,
         ((length groups < 2)%nat
          \/ Exists (fun g => (n_obs g < 2)%nat) groups)
         <-> raises_ValueError (one_way_anova groups))
  /\ (forall x y method,
         (~ In method valid_methods
          \/ (length (aligned_pairs x y) < 2)%nat)
         <-> raises_ValueError (correlation_analysis x y method))
  /\ (forall data,
         (n_obs data < 3)%nat <-> raises_ValueError (normality_test data))
  /\ (forall data confidence,
         (~ valid_confidence confidence \/ (n_obs data < 2)%nat)
         <-> raises_ValueError (confidence_interval data confidence))
  /\ (forall (A : Type) (r : result A),
         raises_ValueError r ->
         ~ returns r
         /\ exists e, r = Raise e /\ exception_class e = "ValueError"%string).
Proof.
  split; [exact descriptive_stats_raises_iff |].
  split; [exact independent_t_test_raises_iff |].
  split; [exact paired_t_test_raises_iff |].
  split; [exact one_way_anova_raises_iff |].
  split; [exact correlation_analysis_raises_iff |].
  split; [exact normality_test_raises_iff |].
  split; [exact confidence_interval_raises_iff |].
  intros A r Hr. split; [now apply raises_not_returns |].
  destruct Hr as [msg ->]. eexists. split; reflexivity.
Qed.

(* ================================================================== *)
(** * Descriptive statistics of one value *)
(* ================================================================== *)

Open Scope string_scope.

Lemma descriptive_stats_5 :
  descriptive_stats [Some 5] =
  Return
    [ ("n", VInt 1); ("mean", VFloat (Fin 5)); ("median", VFloat (Fin 5));
      ("std", VFloat NaN); ("sem", VFloat NaN);
      ("min", VFloat (Fin 5)); ("max", VFloat (Fin 5));
      ("q1", VFloat (Fin 5)); ("q3", VFloat (Fin 5));
      ("iqr", VFloat (Fin 0)) ].
Proof.
  unfold descriptive_stats. simpl.
  unfold Series_mean, Series_median, Series_std, Series_min, Series_max,
    Series_quantile, stats_sem, nanstd, nanquantile.
  simpl values. simpl np_sort.
  rewrite !percentile_linear_single, nanvar_single.
  rewrite nanmean_Fin by discriminate.
  unfold Rmean. simpl.
  replace ((5 + 0) / 1) with 5 by field.
  replace (5 + - (5)) with 0 by ring.
  reflexivity.
Qed.

(** C2 (amended).  [descriptive_stats] applied to the single-element
    sample [5] returns a mapping with n = 1, mean = median = min = max = 5,
    q1 = 5, q3 = 5 and iqr = 0: both quartiles of a one-value sample are
    that value. *)
Theorem descriptive_stats_single_value :
  exists r,
    descriptive_stats [Some 5] = Return r
    /\ dict_get "n" r = Some (VInt 1)
    /\ dict_get "mean" r = Some (VFloat (Fin 5))
    /\ dict_get "median" r = Some (VFloat (Fin 5))
    /\ dict_get "min" r = Some (VFloat (Fin 5))
    /\ dict_get "max" r = Some (VFloat (Fin 5))
    /\ dict_get "q1" r = Some (VFloat (Fin 5))
    /\ dict_get "q3" r = Some (VFloat (Fin 5))
    /\ dict_get "iqr" r = Some (VFloat (Fin 0)).
Proof.
  eexists. split; [apply descriptive_stats_5 |].
  repeat split; reflexivity.
Qed.

(** C2, as stated, fails: the claim asks for q1 = 0 and q3 = 0, the code
    returns q1 = q3 = 5. *)
Lemma descriptive_stats_single_value_quartiles_not_zero :
  ~ (exists r,
        descriptive_stats [Some 5] = Return r
        /\ dict_get "n" r = Some (VInt 1)
        /\ dict_get "mean" r = Some (VFloat (Fin 5))
        /\ dict_get "median" r = Some (VFloat (Fin 5))
        /\ dict_get "min" r = Some (VFloat (Fin 5))
        /\ dict_get "max" r = Some (VFloat (Fin 5))
        /\ dict_get "q1" r = Some (VFloat (Fin 0))
        /\ dict_get "q3" r = Some (VFloat (Fin 0))
        /\ dict_get "iqr" r = Some (VFloat (Fin 0))).
Proof.
  intros [r [Hr [_ [_ [_ [_ [_ [Hq1 _]]]]]]]].
  rewrite descriptive_stats_5 in Hr. injection Hr as <-.
  simpl in Hq1. injection Hq1 as Hq1. lra.
Qed.

Close Scope string_scope.

(* ================================================================== *)
(** * The independent t-test *)
(* ================================================================== *)

Open Scope string_scope.

(** C3.  For two groups that each keep at least two values after
    cleaning, [independent_t_test] returns
    [cohens_d = (mean1 - mean2) / pooled_std], where
    [pooled_std = sqrt(((n1-1)*s1^2 + (n2-1)*s2^2) / df)],
    [df = n1 + n2 - 2], and [s1], [s2] are the standard deviations with
    the [n-1] denominator. *)
Theorem cohens_d_uses_pooled_std
    (group1 group2 : Sample) (equal_var : bool) :
  (2 <= n_obs group1)%nat -> (2 <= n_obs group2)%nat ->
  let c1 := cleaned group1 in
  let c2 := cleaned group2 in
  let n1 := INR (length c1) in
  let n2 := INR (length c2) in
  let s1 := sqrt (sum_sq_dev c1 / (n1 - 1)) in
  let s2 := sqrt (sum_sq_dev c2 / (n2 - 1)) in
  let df := n1 + n2 - 2 in
  let pooled := sqrt (((n1 - 1) * s1² + (n2 - 1) * s2²) / df) in
  exists r,
    independent_t_test group1 group2 equal_var = Return r
    /\ dict_get "cohens_d" r
       = Some (VFloat (Fin (Rmean c1 - Rmean c2) / Fin pooled)%float).
Proof.
  intros H1 H2 c1 c2 n1 n2 s1 s2 df pooled.
  eexists. split.
  - apply independent_t_test_valid; assumption.
  - reflexivity.
Qed.

(** C4.  On valid groups, swapping the two arguments of
    [independent_t_test] negates [t_statistic] and [cohens_d] and leaves
    [p_value] and [df] unchanged.  (On two constant groups with equal means
    the statistic is [NaN] in both orders, and the negation of [NaN] is
    [NaN].) *)
Theorem independent_t_test_antisymmetric
    (group1 group2 : Sample) (equal_var : bool) :
  (2 <= n_obs group1)%nat -> (2 <= n_obs group2)%nat ->
  exists r r' t d p df,
    independent_t_test group1 group2 equal_var = Return r
    /\ independent_t_test group2 group1 equal_var = Return r'
    /\ dict_get "t_statistic" r = Some (VFloat t)
    /\ dict_get "t_statistic" r' = Some (VFloat (fneg t))
    /\ dict_get "cohens_d" r = Some (VFloat d)
    /\ dict_get "cohens_d" r' = Some (VFloat (fneg d))
    /\ dict_get "p_value" r = Some (VFloat p)
    /\ dict_get "p_value" r' = Some (VFloat p)
    /\ dict_get "df" r = Some (VFloat df)
    /\ dict_get "df" r' = Some (VFloat df).
Proof.
  intros H1 H2.
  rewrite (independent_t_test_valid group1 group2 equal_var H1 H2).
  rewrite (independent_t_test_valid group2 group1 equal_var H2 H1).
  rewrite (ttest_ind_swap (cleaned group1) (cleaned group2)). cbn [fst snd].
  do 6 eexists. split; [reflexivity |]. split; [reflexivity |].
  cbn [dict_get String.eqb Ascii.eqb Bool.eqb].
  repeat split; try reflexivity.
  - rewrite pooled_std_sym, <- fdiv_opp_l. do 4 f_equal. ring.
  - do 3 f_equal. ring.
Qed.

(** C9.  On valid groups the [df] and [cohens_d] entries do not depend on
    [equal_var]: [df] is [n1 + n2 - 2] and [cohens_d] is taken over the
    pooled standard deviation also when Welch's test is requested. *)
Theorem df_and_cohens_d_ignore_equal_var (group1 group2 : Sample) :
  (2 <= n_obs group1)%nat -> (2 <= n_obs group2)%nat ->
  let c1 := cleaned group1 in
  let c2 := cleaned group2 in
  exists r_pooled r_welch,
    independent_t_test group1 group2 true = Return r_pooled
    /\ independent_t_test group1 group2 false = Return r_welch
    /\ dict_get "df" r_welch = dict_get "df" r_pooled
    /\ dict_get "cohens_d" r_welch = dict_get "cohens_d" r_pooled
    /\ dict_get "df" r_welch
       = Some (VFloat (Fin (INR (length c1) + INR (length c2) - 2)))
    /\ dict_get "cohens_d" r_welch
       = Some (VFloat (Fin (Rmean c1 - Rmean c2)
                       / Fin (pooled_std c1 c2))%float).
Proof.
  intros H1 H2 c1 c2.
  rewrite (independent_t_test_valid group1 group2 true H1 H2).
  rewrite (independent_t_test_valid group1 group2 false H1 H2).
  do 2 eexists. repeat split; reflexivity.
Qed.

Close Scope string_scope.

(* ================================================================== *)
(** * The paired t-test *)
(* ================================================================== *)

Open Scope string_scope.

(** C5.  [paired_t_test] cleans each sample on its own (missing values
    dropped, order kept), cuts both cleaned samples to the length of the
    shorter one and tests these two prefixes position by position; it
    raises its own error when fewer than two pairs remain, and otherwise
    returns [df] equal to the number of pairs minus one.  The cut is what
    lets the test run: two cleaned samples of different lengths are
    refused by [stats.ttest_rel] as they stand. *)
Theorem paired_t_test_truncates_to_shorter (before after : Sample) :
  let b := cleaned before in
  let a := cleaned after in
  let pairs := Nat.min (length b) (length a) in
  ((pairs < 2)%nat ->
   paired_t_test before after
   = Raise (ValueError "Need at least 2 complete pairs for paired t-test"))
  /\ (length b <> length a ->
      stats_ttest_rel b a = Raise (ValueError "unequal length arrays"))
  /\ ((2 <= pairs)%nat ->
      length (firstn pairs b) = pairs
      /\ length (firstn pairs a) = pairs
      /\ stats_ttest_rel (firstn pairs b) (firstn pairs a)
         = Return (ttest_rel (firstn pairs b) (firstn pairs a))
      /\ exists r,
          paired_t_test before after = Return r
          /\ dict_get "t_statistic" r
             = Some (VFloat (fst (ttest_rel (firstn pairs b)
                                            (firstn pairs a))))
          /\ dict_get "p_value" r
             = Some (VFloat (snd (ttest_rel (firstn pairs b)
                                            (firstn pairs a))))
          /\ dict_get "df" r = Some (VFloat (Fin (INR pairs - 1)))).
Proof.
  intros b a pairs. split; [| split].
  - intros Hp. unfold paired_t_test. rewrite min_len_clean.
    destruct (Z.ltb_spec (Z.of_nat (Nat.min (n_obs before) (n_obs after))) 2)
      as [_ | Hge]; [reflexivity |].
    unfold pairs, b, a in Hp. unfold n_obs in Hge. lia.
  - intros Hne. unfold stats_ttest_rel.
    destruct (Nat.eqb_spec (length b) (length a)) as [E | _];
      [contradiction | reflexivity].
  - intros Hp. split; [apply firstn_length_le; lia |].
    split; [apply firstn_length_le; lia |].
    split; [apply stats_ttest_rel_prefixes |].
    eexists. split.
    + apply paired_t_test_valid. exact Hp.
    + repeat split; reflexivity.
Qed.

(** C10.  On two inputs without missing values, each of length at least
    two, [mean_diff] is the arithmetic mean of [after[i] - before[i]] over
    the first [min(len(before), len(after))] positions: the difference is
    after minus before. *)
Theorem mean_diff_is_after_minus_before (before after : list R) :
  (2 <= length before)%nat -> (2 <= length after)%nat ->
  let m := Nat.min (length before) (length after) in
  exists r,
    paired_t_test (present before) (present after) = Return r
    /\ dict_get "mean_diff" r
       = Some (VFloat (Fin (Rmean (map (fun i => nth i after 0
                                                 - nth i before 0)
                                       (seq 0 m))))).
Proof.
  intros Hb Ha m.
  assert (Hm : Nat.min (n_obs (present before)) (n_obs (present after)) = m)
    by (unfold n_obs; now rewrite !cleaned_present).
  eexists. split.
  - apply paired_t_test_valid. rewrite Hm. unfold m. lia.
  - cbn [dict_get String.eqb Ascii.eqb Bool.eqb]. rewrite Hm.
    unfold Series_mean.
    rewrite values_series_sub_prefix by (unfold m; lia).
    rewrite nanmean_Fin; [reflexivity |].
    destruct m as [| m'] eqn:E; [unfold m in E; lia | discriminate].
Qed.

Close Scope string_scope.

(* ================================================================== *)
(** * The confidence interval *)
(* ================================================================== *)

Section StudentQuantile.

(** The Student quantile function is finite and positive above the
    median: the distribution is symmetric about zero. *)
Hypothesis t_ppf_positive :
  forall (q : R) (df : Z),
    1 / 2 < q < 1 -> (1 <= df)%Z ->
    exists crit, t_ppf (Fin q) df = Fin crit /\ 0 < crit.


End StudentQuantile.

(* ================================================================== *)
(** * Further properties of the descriptive statistics *)
(* ================================================================== *)

Open Scope string_scope.

(** What [descriptive_stats] returns as soon as one observation is left,
    in terms of the cleaned sample. *)
Lemma descriptive_stats_valid (data : Sample) :
  (1 <= n_obs data)%nat ->
  let v := cleaned data in
  descriptive_stats data =
  Return
    [ ("n", VInt (Z.of_nat (length v)));
      ("mean", VFloat (nanmean v));
      ("median", VFloat (nanmedian v));
      ("std", VFloat (nanstd v));
      ("sem", VFloat (stats_sem v));
      ("min", VFloat (nanmin v));
      ("max", VFloat (nanmax v));
      ("q1", VFloat (nanquantile v 0.25));
      ("q3", VFloat (nanquantile v 0.75));
      ("iqr", VFloat (nanquantile v 0.75 - nanquantile v 0.25)%float) ].
Proof.
  intros Hn v. unfold descriptive_stats.
  pose proof (n_obs_le_length data) as Hlen.
  destruct (Z.eqb_spec (len data) 0) as [E | _]; [unfold len in E; lia |].
  rewrite len_clean.
  destruct (Z.eqb_spec (Z.of_nat (n_obs data)) 0) as [E | _]; [lia |].
  unfold Series_mean, Series_median, Series_std, Series_min, Series_max,
    Series_quantile.
  rewrite values_clean. reflexivity.
Qed.

Lemma len_zero_iff_nil {A : Type} (l : list A) : len l = 0%Z <-> l = [].
Proof.
  unfold len. destruct l; simpl; split; intros H;
    try reflexivity; try discriminate; lia.
Qed.

(** X1.  [descriptive_stats] fails in two ways only, and tells them
    apart: the message is "Cannot compute statistics on empty data" exactly
    when the input has no entry at all, and "Data contains only NaN values"
    exactly when it has entries and all of them are missing; it returns a
    mapping exactly when at least one observation is present. *)
Theorem descriptive_stats_error_messages (data : Sample) :
  (descriptive_stats data
   = Raise (ValueError "Cannot compute statistics on empty data")
   <-> data = [])
  /\ (descriptive_stats data
      = Raise (ValueError "Data contains only NaN values")
      <-> data <> [] /\ n_obs data = 0%nat)
  /\ (returns (descriptive_stats data) <-> (1 <= n_obs data)%nat).
Proof.
  destruct data as [| o rest].
  - split; [| split].
    + split; reflexivity.
    + split; [discriminate | intros [H _]; contradiction].
    + split; [intros [a H]; discriminate H | unfold n_obs; simpl; lia].
  - destruct (Nat.eq_dec (n_obs (o :: rest)) 0) as [E0 | E0].
    + assert (Hr : descriptive_stats (o :: rest)
                   = Raise (ValueError "Data contains only NaN values")).
      { unfold descriptive_stats.
        destruct (Z.eqb_spec (len (o :: rest)) 0) as [E | _];
          [apply len_zero_iff_nil in E; discriminate |].
        rewrite len_clean, E0. reflexivity. }
      rewrite Hr. split; [| split].
      * split; discriminate.
      * split; [intros _; split; [discriminate | exact E0] | reflexivity].
      * split; [intros [a H]; discriminate H | lia].
    + rewrite (descriptive_stats_valid (o :: rest)) by lia.
      split; [| split].
      * split; discriminate.
      * split; [discriminate | intros [_ H]; contradiction].
      * split; [lia | intros _; eexists; reflexivity].
Qed.

Lemma nanquantile_single (x : R) (q : Q) : nanquantile [x] q = Fin x.
Proof.
  unfold nanquantile. simpl np_sort. now rewrite percentile_linear_single.
Qed.

Lemma nanmean_single (x : R) : nanmean [x] = Fin x.
Proof.
  rewrite nanmean_Fin by discriminate. unfold Rmean. simpl. f_equal. field.
Qed.

Lemma fsub_Fin_self (a : R) : (Fin a - Fin a)%float = Fin 0.
Proof. unfold fsub. simpl. f_equal. ring. Qed.

(** X2.  When exactly one observation [x] is left after cleaning
    (wherever the missing values sit), [descriptive_stats] returns n = 1,
    mean = median = min = max = q1 = q3 = x and iqr = 0, while std and sem
    are NaN: a standard deviation needs two observations. *)
Theorem descriptive_stats_one_observation (data : Sample) (x : R) :
  cleaned data = [x] ->
  descriptive_stats data =
  Return
    [ ("n", VInt 1); ("mean", VFloat (Fin x)); ("median", VFloat (Fin x));
      ("std", VFloat NaN); ("sem", VFloat NaN);
      ("min", VFloat (Fin x)); ("max", VFloat (Fin x));
      ("q1", VFloat (Fin x)); ("q3", VFloat (Fin x));
      ("iqr", VFloat (Fin 0)) ].
Proof.
  intros Hv.
  rewrite descriptive_stats_valid by (unfold n_obs; rewrite Hv; simpl; lia).
  rewrite Hv. rewrite !nanquantile_single, nanmean_single, fsub_Fin_self.
  unfold nanstd, stats_sem, nanstd. rewrite nanvar_single.
  reflexivity.
Qed.

Close Scope string_scope.

(* ================================================================== *)
(** * The order of the observations and the place of missing values *)
(* ================================================================== *)

Lemma cleaned_perm (data data' : Sample) :
  Permutation data data' -> Permutation (cleaned data) (cleaned data').
Proof.
  induction 1 as [| o l l' _ IH | o1 o2 l | l1 l2 l3 _ IH1 _ IH2].
  - constructor.
  - destruct o; simpl; [now constructor | exact IH].
  - destruct o1, o2; simpl; try apply Permutation_refl. apply perm_swap.
  - now apply Permutation_trans with (l' := cleaned l2).
Qed.

Lemma insert_perm (x : R) (l : list R) : Permutation (insert x l) (x :: l).
Proof.
  induction l as [| y t IH]; simpl.
  - apply Permutation_refl.
  - destruct (Rle_dec x y).
    + apply Permutation_refl.
    + apply Permutation_trans with (l' := y :: x :: t).
      * now constructor.
      * apply perm_swap.
Qed.

Lemma np_sort_perm (v : list R) : Permutation (np_sort v) v.
Proof.
  induction v as [| x l IH]; simpl.
  - constructor.
  - apply Permutation_trans with (l' := x :: np_sort l).
    + apply insert_perm.
    + now constructor.
Qed.

(** Two increasing lists with the same elements are the same list. *)
Lemma sorted_perm_eq (l1 l2 : list R) :
  StronglySorted Rle l1 -> StronglySorted Rle l2 ->
  Permutation l1 l2 -> l1 = l2.
Proof.
  revert l2. induction l1 as [| x1 t1 IH]; intros l2 S1 S2 P.
  - apply Permutation_nil in P. now subst.
  - destruct l2 as [| x2 t2].
    + apply Permutation_sym, Permutation_nil in P. discriminate.
    + inversion S1 as [| ? ? St1 F1]; subst.
      inversion S2 as [| ? ? St2 F2]; subst.
      rewrite Forall_forall in F1, F2.
      assert (E : x1 = x2).
      { assert (In x2 (x1 :: t1))
          by (apply Permutation_in with (l := x2 :: t2);
              [now apply Permutation_sym | now left]).
        assert (In x1 (x2 :: t2))
          by (apply Permutation_in with (l := x1 :: t1); [exact P | now left]).
        assert (x1 <= x2) by (destruct H as [-> | H]; [lra | now apply F1]).
        assert (x2 <= x1) by (destruct H0 as [-> | H0]; [lra | now apply F2]).
        lra. }
      subst x2. f_equal. apply IH; try assumption.
      now apply Permutation_cons_inv with (a := x1).
Qed.

Lemma np_sort_perm_eq (v v' : list R) :
  Permutation v v' -> np_sort v = np_sort v'.
Proof.
  intros H. apply sorted_perm_eq; try apply np_sort_sorted.
  apply Permutation_trans with (l' := v); [apply np_sort_perm |].
  apply Permutation_trans with (l' := v'); [exact H |].
  apply Permutation_sym, np_sort_perm.
Qed.

Lemma perm_nonempty_shape (v v' : list R) :
  Permutation v v' ->
  (v = [] /\ v' = []) \/ (exists x t y u, v = x :: t /\ v' = y :: u).
Proof.
  intros H. destruct v as [| x t].
  - left. apply Permutation_nil in H. now split.
  - right. destruct v' as [| y u].
    + apply Permutation_sym, Permutation_nil in H. discriminate.
    + now exists x, t, y, u.
Qed.

Lemma nanmedian_perm (v v' : list R) :
  Permutation v v' -> nanmedian v = nanmedian v'.
Proof.
  intros H. destruct (perm_nonempty_shape v v' H)
    as [[-> ->] | [x [t [y [u [-> ->]]]]]]; [reflexivity |].
  unfold nanmedian. now rewrite (np_sort_perm_eq _ _ H).
Qed.

Lemma nanquantile_perm (v v' : list R) (q : Q) :
  Permutation v v' -> nanquantile v q = nanquantile v' q.
Proof.
  intros H. destruct (perm_nonempty_shape v v' H)
    as [[-> ->] | [x [t [y [u [-> ->]]]]]]; [reflexivity |].
  unfold nanquantile. now rewrite (np_sort_perm_eq _ _ H).
Qed.

Lemma fold_Rmin_In (x : R) (t : list R) : In (fold_right Rmin x t) (x :: t).
Proof.
  induction t as [| z t IH]; [now left |].
  cbn [fold_right].
  destruct (Rle_dec z (fold_right Rmin x t)) as [L | L].
  - rewrite Rmin_left by exact L. right. now left.
  - rewrite Rmin_right by lra.
    destruct IH as [E | E]; [now left | right; now right].
Qed.

Lemma fold_Rmax_In (x : R) (t : list R) : In (fold_right Rmax x t) (x :: t).
Proof.
  induction t as [| z t IH]; [now left |].
  cbn [fold_right].
  destruct (Rle_dec z (fold_right Rmax x t)) as [L | L].
  - rewrite Rmax_right by exact L.
    destruct IH as [E | E]; [now left | right; now right].
  - rewrite Rmax_left by lra. right. now left.
Qed.

Lemma nanmin_perm (v v' : list R) : Permutation v v' -> nanmin v = nanmin v'.
Proof.
  intros H. destruct (perm_nonempty_shape v v' H)
    as [[-> ->] | [x [t [y [u [-> ->]]]]]]; [reflexivity |].
  simpl. f_equal. apply Rle_antisym.
  - apply fold_Rmin_le. apply Permutation_in with (l := y :: u);
      [now apply Permutation_sym | apply fold_Rmin_In].
  - apply fold_Rmin_le. apply Permutation_in with (l := x :: t);
      [exact H | apply fold_Rmin_In].
Qed.

Lemma nanmax_perm (v v' : list R) : Permutation v v' -> nanmax v = nanmax v'.
Proof.
  intros H. destruct (perm_nonempty_shape v v' H)
    as [[-> ->] | [x [t [y [u [-> ->]]]]]]; [reflexivity |].
  simpl. f_equal. apply Rle_antisym.
  - apply fold_Rmax_ge. apply Permutation_in with (l := x :: t);
      [exact H | apply fold_Rmax_In].
  - apply fold_Rmax_ge. apply Permutation_in with (l := y :: u);
      [now apply Permutation_sym | apply fold_Rmax_In].
Qed.

(** X5.  The order statistics that [descriptive_stats] reports do not
    depend on the order of the entries of its input: on every
    rearrangement of the same entries it raises the same error, or returns
    the same [n], [median], [min], [max], [q1], [q3] and [iqr].  (The mean,
    the standard deviation and the standard error are sums over the
    entries in input order, and are left out.) *)
Theorem descriptive_stats_order_statistics_ignore_order
    (data data' : Sample) :
  Permutation data data' ->
  (forall e, descriptive_stats data = Raise e
             <-> descriptive_stats data' = Raise e)
  /\ (forall r r',
         descriptive_stats data = Return r ->
         descriptive_stats data' = Return r' ->
         forall key,
           In key ["n"; "median"; "min"; "max"; "q1"; "q3"; "iqr"]%string ->
           dict_get key r = dict_get key r').
Proof.
  intros H. pose proof (cleaned_perm _ _ H) as Hc.
  assert (Hn : n_obs data = n_obs data')
    by (unfold n_obs; now apply Permutation_length).
  destruct (Nat.eq_dec (n_obs data) 0) as [E0 | E0].
  - assert (Hsame : descriptive_stats data = descriptive_stats data').
    { unfold descriptive_stats. rewrite !len_clean, <- Hn, E0.
      unfold len. rewrite (Permutation_length H). reflexivity. }
    rewrite Hsame. split.
    + intros e. split; intros He; exact He.
    + intros r r' Hr Hr'. rewrite Hr in Hr'. injection Hr' as <-.
      intros key _. reflexivity.
  - rewrite (descriptive_stats_valid data) by lia.
    rewrite (descriptive_stats_valid data') by lia.
    cbv zeta. split.
    + intros e. split; intros He; discriminate He.
    + intros r r' Hr Hr'. injection Hr as <-. injection Hr' as <-.
      rewrite (Permutation_length Hc), (nanmedian_perm _ _ Hc),
        (nanmin_perm _ _ Hc), (nanmax_perm _ _ Hc),
        (nanquantile_perm _ _ 0.25 Hc), (nanquantile_perm _ _ 0.75 Hc).
      intros key Hkey.
      repeat (destruct Hkey as [<- | Hkey]; [reflexivity |]).
      destruct Hkey.
Qed.

(** X6.  Missing values are ignored wherever they sit: two inputs with the
    same cleaned sample give the same result in [descriptive_stats] (for
    non-empty inputs), [independent_t_test], [one_way_anova],
    [normality_test] and [confidence_interval]. *)
Theorem missing_values_are_ignored :
  (forall data data',
      cleaned data = cleaned data' -> data <> [] -> data' <> [] ->
      descriptive_stats data = descriptive_stats data')
  /\ (forall g1 g2 g1' g2' equal_var,
         cleaned g1 = cleaned g1' -> cleaned g2 = cleaned g2' ->
         independent_t_test g1 g2 equal_var
         = independent_t_test g1' g2' equal_var)
  /\ (forall groups groups',
         map cleaned groups = map cleaned groups' ->
         one_way_anova groups = one_way_anova groups')
  /\ (forall data data',
         cleaned data = cleaned data' ->
         normality_test data = normality_test data')
  /\ (forall data data' confidence,
         cleaned data = cleaned data' ->
         confidence_interval data confidence
         = confidence_interval data' confidence).
Proof.
  split; [| split; [| split; [| split]]].
  - intros data data' Hc Hd Hd'.
    unfold descriptive_stats.
    destruct (Z.eqb_spec (len data) 0) as [E | _];
      [apply len_zero_iff_nil in E; contradiction |].
    destruct (Z.eqb_spec (len data') 0) as [E | _];
      [apply len_zero_iff_nil in E; contradiction |].
    unfold Series_mean, Series_median, Series_std, Series_min, Series_max,
      Series_quantile.
    rewrite !len_clean, !values_clean. unfold n_obs. now rewrite Hc.
  - intros g1 g2 g1' g2' equal_var H1 H2.
    unfold independent_t_test, Series_mean, Series_std.
    rewrite !len_clean, !values_clean. unfold n_obs.
    now rewrite H1, H2.
  - intros groups groups' H.
    assert (Hl : length groups = length groups')
      by (rewrite <- (length_map cleaned groups), H; apply length_map).
    assert (Hv : map values (map (fun g => dropna (pd_Series g)) groups)
                 = map cleaned groups)
      by (rewrite map_map; apply map_ext; intros g; apply values_clean).
    assert (Hv' : map values (map (fun g => dropna (pd_Series g)) groups')
                  = map cleaned groups')
      by (rewrite map_map; apply map_ext; intros g; apply values_clean).
    assert (Hn : map (@len (nat * option R))
                     (map (fun g => dropna (pd_Series g)) groups)
                 = map (fun v => Z.of_nat (length v)) (map cleaned groups))
      by (rewrite !map_map; apply map_ext; intros g; apply len_clean).
    assert (Hn' : map (@len (nat * option R))
                      (map (fun g => dropna (pd_Series g)) groups')
                  = map (fun v => Z.of_nat (length v)) (map cleaned groups'))
      by (rewrite !map_map; apply map_ext; intros g; apply len_clean).
    assert (He : forall gs,
               existsb (fun group : Series => (len group <? 2)%Z)
                       (map (fun g => dropna (pd_Series g)) gs)
               = existsb (fun v => (Z.of_nat (length v) <? 2)%Z)
                         (map cleaned gs)).
    { induction gs as [| g gs IH]; simpl; [reflexivity |].
      rewrite IH, len_clean. reflexivity. }
    unfold one_way_anova.
    rewrite !He, Hv, Hv', Hn, Hn', H.
    unfold len. rewrite !length_map, Hl. reflexivity.
  - intros data data' H. unfold normality_test.
    rewrite !len_clean, !values_clean. unfold n_obs. now rewrite H.
  - intros data data' confidence H.
    unfold confidence_interval, Series_mean.
    rewrite !len_clean, !values_clean. unfold n_obs. now rewrite H.
Qed.

(* ================================================================== *)
(** * Further properties of the group comparisons *)
(* ================================================================== *)

Open Scope string_scope.

Lemma total_len_clean (groups : list Sample) :
  fold_right Z.add 0%Z
    (map (@len (nat * option R))
         (map (fun group => dropna (pd_Series group)) groups))
  = Z.of_nat (length (concat (map cleaned groups))).
Proof.
  induction groups as [| g rest IH]; [reflexivity |].
  cbn [map fold_right concat]. rewrite IH, len_clean, length_app.
  unfold n_obs. lia.
Qed.

Lemma existsb_too_small_false (groups : list Sample) :
  Forall (fun g => (2 <= n_obs g)%nat) groups ->
  existsb (fun group : Series => (len group <? 2)%Z)
          (map (fun group => dropna (pd_Series group)) groups) = false.
Proof.
  intros H. apply Bool.not_true_iff_false. intros E.
  apply existsb_too_small in E. apply Exists_exists in E.
  destruct E as [g [Hin Hg]]. rewrite Forall_forall in H.
  specialize (H g Hin). lia.
Qed.

(** What [one_way_anova] returns on valid groups. *)
Lemma one_way_anova_valid (groups : list Sample) :
  (2 <= length groups)%nat ->
  Forall (fun g => (2 <= n_obs g)%nat) groups ->
  let cs := map cleaned groups in
  one_way_anova groups =
  Return
    [ ("f_statistic", VFloat (fst (f_oneway cs)));
      ("p_value", VFloat (snd (f_oneway cs)));
      ("df_between", VFloat (Fin (INR (length groups) - 1)));
      ("df_within",
       VFloat (Fin (INR (length (concat cs)) - INR (length groups)))) ].
Proof.
  intros Hk Hg cs. unfold one_way_anova.
  destruct (Z.ltb_spec (len groups) 2) as [E | _]; [unfold len in E; lia |].
  rewrite existsb_too_small_false by exact Hg.
  rewrite total_len_clean.
  replace (map values (map (fun group => dropna (pd_Series group)) groups))
    with cs
    by (unfold cs; rewrite map_map; apply map_ext; intros g;
        symmetry; apply values_clean).
  rewrite stats_f_oneway_two_or_more by (unfold cs; rewrite length_map; lia).
  destruct (f_oneway cs) as [f p]. cbn [fst snd].
  unfold float_of_int, len. rewrite length_map.
  rewrite IZR_of_nat_minus.
  rewrite minus_IZR, <- !INR_IZR_INZ. reflexivity.
Qed.

Lemma concat_length_ge (cs : list (list R)) :
  Forall (fun c => (2 <= length c)%nat) cs ->
  (2 * length cs <= length (concat cs))%nat.
Proof.
  induction 1 as [| c rest Hc _ IH]; simpl; [lia |].
  rewrite length_app. lia.
Qed.

(** X8.  On valid groups, [one_way_anova] reports
    [df_between = k - 1] and [df_within = N - k], where [k] is the number of
    groups and [N] the total number of observations left after cleaning;
    the two add up to [N - 1], and [df_within] is at least [k]. *)
Theorem one_way_anova_degrees_of_freedom (groups : list Sample) :
  (2 <= length groups)%nat ->
  Forall (fun g => (2 <= n_obs g)%nat) groups ->
  let k := INR (length groups) in
  let N := INR (length (concat (map cleaned groups))) in
  exists r dfb dfw,
    one_way_anova groups = Return r
    /\ dict_get "df_between" r = Some (VFloat (Fin dfb))
    /\ dict_get "df_within" r = Some (VFloat (Fin dfw))
    /\ dfb = k - 1 /\ dfw = N - k /\ dfb + dfw = N - 1 /\ k <= dfw.
Proof.
  intros Hk Hg k N.
  rewrite (one_way_anova_valid groups Hk Hg).
  do 3 eexists. split; [reflexivity |].
  do 2 (split; [reflexivity |]).
  split; [reflexivity |]. split; [reflexivity |].
  split; [unfold k, N; ring |].
  assert (Hc : (2 * length (map cleaned groups)
                <= length (concat (map cleaned groups)))%nat).
  { apply concat_length_ge. apply Forall_map.
    eapply Forall_impl; [| exact Hg]. intros g H. exact H. }
  rewrite length_map in Hc. apply le_INR in Hc.
  rewrite mult_INR in Hc. simpl in Hc. unfold k, N. lra.
Qed.

Close Scope string_scope.

(* ================================================================== *)
(** * Further properties of the correlation analysis *)
(* ================================================================== *)

Lemma aligned_columns (x y : Sample) :
  let rows := frame_dropna (dropna (pd_Series x)) (dropna (pd_Series y)) in
  map (fun row => fst (snd row)) rows = map fst (aligned_pairs x y)
  /\ map (fun row => snd (snd row)) rows = map snd (aligned_pairs x y).
Proof.
  intros rows. unfold rows, pd_Series.
  rewrite <- (frame_dropna_range x y 0), !map_map. split; reflexivity.
Qed.

Open Scope string_scope.

(** What [correlation_analysis] returns on valid input. *)
Lemma correlation_analysis_valid
    (x y : Sample) (method : string) :
  In method valid_methods ->
  (2 <= length (aligned_pairs x y))%nat ->
  let pairs := aligned_pairs x y in
  let routine :=
    if String.eqb method "pearson" then pearsonr
    else if String.eqb method "spearman" then spearmanr
    else kendalltau in
  correlation_analysis x y method =
  Return
    [ ("correlation", VFloat (fst (routine (map fst pairs) (map snd pairs))));
      ("p_value", VFloat (snd (routine (map fst pairs) (map snd pairs))));
      ("n", VInt (Z.of_nat (length pairs))) ].
Proof.
  intros Hm Hn pairs routine. unfold correlation_analysis.
  apply valid_method_In in Hm. rewrite Hm. cbn [negb].
  rewrite len_aligned.
  destruct (Z.ltb_spec (Z.of_nat (length (aligned_pairs x y))) 2); [lia |].
  destruct (aligned_columns x y) as [Hx Hy]. cbv zeta in Hx, Hy.
  rewrite Hx, Hy. fold pairs.
  replace (if String.eqb method "pearson"
           then pearsonr (map fst pairs) (map snd pairs)
           else if String.eqb method "spearman"
                then spearmanr (map fst pairs) (map snd pairs)
                else kendalltau (map fst pairs) (map snd pairs))
    with (routine (map fst pairs) (map snd pairs))
    by (unfold routine; destruct (String.eqb method "pearson");
        [reflexivity | destruct (String.eqb method "spearman"); reflexivity]).
  destruct (routine (map fst pairs) (map snd pairs)) as [corr p].
  reflexivity.
Qed.

(** X11.  On a valid method and at least two aligned pairs,
    [correlation_analysis] hands to the routine named by the method
    (pearson, spearman, kendall) exactly the pairs of values that sit at a
    position where both inputs hold a value, in input order, and reports
    their number as [n]. *)
Theorem correlation_analysis_uses_aligned_pairs
    (x y : Sample) (method : string) :
  In method valid_methods ->
  (2 <= length (aligned_pairs x y))%nat ->
  let pairs := aligned_pairs x y in
  let routine :=
    if String.eqb method "pearson" then pearsonr
    else if String.eqb method "spearman" then spearmanr
    else kendalltau in
  correlation_analysis x y method =
  Return
    [ ("correlation", VFloat (fst (routine (map fst pairs) (map snd pairs))));
      ("p_value", VFloat (snd (routine (map fst pairs) (map snd pairs))));
      ("n", VInt (Z.of_nat (length pairs))) ].
Proof.
  intros Hm Hn. now apply correlation_analysis_valid.
Qed.

Close Scope string_scope.

Lemma aligned_pairs_swap (x y : Sample) :
  aligned_pairs y x = map (fun p => (snd p, fst p)) (aligned_pairs x y).
Proof.
  revert y. induction x as [| [u |] x' IH]; intros [| [v |] y'];
    simpl; try reflexivity; try apply IH.
  now rewrite IH.
Qed.

Lemma aligned_pairs_length_le (x y : Sample) :
  (length (aligned_pairs x y) <= Nat.min (n_obs x) (n_obs y))%nat.
Proof.
  unfold n_obs. revert y.
  induction x as [| [u |] x' IH]; intros [| [v |] y'];
    cbn [aligned_pairs cleaned length]; try lia; specialize (IH y'); lia.
Qed.

(** X12.  The number of pairs kept by [correlation_analysis] is the same
    when the two inputs are exchanged and never exceeds the number of
    observations of either input; so exchanging the inputs turns a failure
    into a failure and a result into a result with the same [n]. *)
Theorem correlation_analysis_pair_count (x y : Sample) (method : string) :
  (raises_ValueError (correlation_analysis x y method)
   <-> raises_ValueError (correlation_analysis y x method))
  /\ (forall r,
         correlation_analysis x y method = Return r ->
         exists r' n,
           correlation_analysis y x method = Return r'
           /\ dict_get "n"%string r = Some (VInt (Z.of_nat n))
           /\ dict_get "n"%string r' = Some (VInt (Z.of_nat n))
           /\ (n <= Nat.min (n_obs x) (n_obs y))%nat).
Proof.
  assert (Hlen : length (aligned_pairs y x) = length (aligned_pairs x y))
    by (rewrite aligned_pairs_swap; apply length_map).
  split.
  - rewrite <- !correlation_analysis_raises_iff, Hlen. reflexivity.
  - intros r Hr.
    destruct (in_dec string_dec method valid_methods) as [Hm | Hm].
    + destruct (le_lt_dec 2 (length (aligned_pairs x y))) as [Hn | Hn].
      * rewrite (correlation_analysis_valid x y method Hm Hn)
          in Hr.
        injection Hr as <-.
        rewrite (correlation_analysis_valid y x method Hm)
          by (rewrite Hlen; exact Hn).
        do 2 eexists. split; [reflexivity |].
        split; [reflexivity |]. split; [now rewrite Hlen |].
        apply aligned_pairs_length_le.
      * exfalso. apply (raises_not_returns (correlation_analysis x y method)).
        -- apply correlation_analysis_raises_iff. now right.
        -- now exists r.
    + exfalso. apply (raises_not_returns (correlation_analysis x y method)).
      * apply correlation_analysis_raises_iff. now left.
      * now exists r.
Qed.

(* ================================================================== *)
(** * Further properties of the confidence interval *)
(* ================================================================== *)

Open Scope string_scope.

(** X13.  On a valid level and at least two observations,
    [confidence_interval] builds its two bounds from the very [mean] and
    [sem] that [descriptive_stats] reports for the same data: the bounds
    are [mean - sem * crit] and [mean + sem * crit], with [crit] the
    Student quantile at [(1 + confidence) / 2] and [n - 1] degrees of
    freedom. *)
Theorem confidence_interval_from_descriptive_stats
    (data : Sample) (c : R) :
  0 < c < 1 -> (2 <= n_obs data)%nat ->
  exists r mean sem,
    descriptive_stats data = Return r
    /\ dict_get "mean" r = Some (VFloat mean)
    /\ dict_get "sem" r = Some (VFloat sem)
    /\ let crit := t_ppf (Fin ((1 + c) / 2)) (Z.of_nat (n_obs data) - 1) in
       confidence_interval data (Fin c)
       = Return ((mean - sem * crit)%float, (mean + sem * crit)%float).
Proof.
  intros Hc Hn.
  rewrite descriptive_stats_valid by lia. cbv zeta.
  exists
    [ ("n", VInt (Z.of_nat (length (cleaned data))));
      ("mean", VFloat (nanmean (cleaned data)));
      ("median", VFloat (nanmedian (cleaned data)));
      ("std", VFloat (nanstd (cleaned data)));
      ("sem", VFloat (stats_sem (cleaned data)));
      ("min", VFloat (nanmin (cleaned data)));
      ("max", VFloat (nanmax (cleaned data)));
      ("q1", VFloat (nanquantile (cleaned data) 0.25));
      ("q3", VFloat (nanquantile (cleaned data) 0.75));
      ("iqr", VFloat (nanquantile (cleaned data) 0.75
                      - nanquantile (cleaned data) 0.25)%float) ],
    (nanmean (cleaned data)), (stats_sem (cleaned data)).
  split; [reflexivity |]. split; [reflexivity |]. split; [reflexivity |].
  unfold confidence_interval.
  assert (G : (fltb (Fin 0) (Fin c) && fltb (Fin c) (Fin 1))%bool = true)
    by (apply confidence_guard; exists c; split; [reflexivity | lra]).
  rewrite G. cbn [negb]. rewrite len_clean.
  destruct (Z.ltb_spec (Z.of_nat (n_obs data)) 2); [lia |].
  unfold Series_mean. rewrite values_clean.
  cbn [fadd]. rewrite fdiv_Fin by lra. reflexivity.
Qed.

(** X14.  [confidence_interval] checks the level before it looks at the
    data: a level that is NaN, infinite, at most 0 or at least 1 raises
    "Confidence level must be between 0 and 1" on every input; with a level
    strictly between 0 and 1, fewer than two observations raise
    "Need at least 2 observations for confidence interval". *)
Theorem confidence_interval_checks_level_first
    (data : Sample) (confidence : float) :
  (~ valid_confidence confidence ->
   confidence_interval data confidence
   = Raise (ValueError "Confidence level must be between 0 and 1"))
  /\ (valid_confidence confidence -> (n_obs data < 2)%nat ->
      confidence_interval data confidence
      = Raise (ValueError
                 "Need at least 2 observations for confidence interval"))
  /\ ~ valid_confidence NaN /\ ~ valid_confidence PInf
  /\ ~ valid_confidence NInf
  /\ ~ valid_confidence (Fin 0) /\ ~ valid_confidence (Fin 1).
Proof.
  split; [| split].
  - intros Hv. unfold confidence_interval.
    destruct (fltb (Fin 0) confidence && fltb confidence (Fin 1))%bool eqn:E;
      [apply confidence_guard in E; contradiction | reflexivity].
  - intros Hv Hn. unfold confidence_interval.
    apply confidence_guard in Hv. rewrite Hv. cbn [negb].
    rewrite len_clean.
    destruct (Z.ltb_spec (Z.of_nat (n_obs data)) 2); [reflexivity | lia].
  - repeat split; intros [c [E Hc]]; try discriminate E;
      injection E as <-; lra.
Qed.

Close Scope string_scope.

(* ================================================================== *)
(** * Further properties of the paired t-test *)
(* ================================================================== *)

Lemma pd_Series_app (a e : Sample) :
  pd_Series (a ++ e)
  = pd_Series a ++ combine (seq (length a) (length e)) e.
Proof.
  unfold pd_Series. rewrite length_app, seq_app. simpl.
  generalize (seq (length a) (length e)) as tl.
  generalize 0%nat as k. induction a as [| o a IH]; intros k tl.
  - reflexivity.
  - simpl. f_equal. apply IH.
Qed.

Lemma iloc_clean_app (k : nat) (a e : Sample) :
  (k <= n_obs a)%nat ->
  iloc_upto (Z.of_nat k) (dropna (pd_Series (a ++ e)))
  = iloc_upto (Z.of_nat k) (dropna (pd_Series a)).
Proof.
  intros Hk. unfold iloc_upto. rewrite Nat2Z.id, pd_Series_app.
  unfold dropna at 1. rewrite filter_app. fold (dropna (pd_Series a)).
  rewrite firstn_app.
  assert (Hl : length (dropna (pd_Series a)) = n_obs a)
    by (rewrite length_dropna, values_pd_Series; reflexivity).
  replace (k - length (dropna (pd_Series a)))%nat with 0%nat by lia.
  simpl. apply app_nil_r.
Qed.

Lemma n_obs_app (a e : Sample) : n_obs (a ++ e) = (n_obs a + n_obs e)%nat.
Proof.
  unfold n_obs. induction a as [| [x |] a IH]; simpl; lia.
Qed.

(** X15.  [paired_t_test] ignores what follows the last pair: when the
    second input has at least as many observations as the first, appending
    further entries to the second input changes nothing in the result; and
    likewise with the two inputs exchanged. *)
Theorem paired_t_test_ignores_trailing_observations
    (before after extra : Sample) :
  ((n_obs before <= n_obs after)%nat ->
   paired_t_test before (after ++ extra) = paired_t_test before after)
  /\ ((n_obs after <= n_obs before)%nat ->
      paired_t_test (before ++ extra) after = paired_t_test before after).
Proof.
  split; intros Hle; unfold paired_t_test; rewrite !min_len_clean.
  - rewrite n_obs_app.
    replace (Nat.min (n_obs before) (n_obs after + n_obs extra))
      with (n_obs before) by lia.
    replace (Nat.min (n_obs before) (n_obs after))
      with (n_obs before) by lia.
    now rewrite (iloc_clean_app (n_obs before) after extra Hle).
  - rewrite n_obs_app.
    replace (Nat.min (n_obs before + n_obs extra) (n_obs after))
      with (n_obs after) by lia.
    replace (Nat.min (n_obs before) (n_obs after))
      with (n_obs after) by lia.
    now rewrite (iloc_clean_app (n_obs after) before extra Hle).
Qed.

Lemma Rsum_diff_swap (xs ys : list R) :
  Rsum (map (fun p => fst p - snd p) (combine xs ys))
  = - Rsum (map (fun p => fst p - snd p) (combine ys xs)).
Proof.
  revert ys. induction xs as [| x xs IH]; intros [| y ys]; simpl;
    try ring. rewrite IH. ring.
Qed.

Lemma Rmean_diff_swap (xs ys : list R) :
  Rmean (map (fun p => fst p - snd p) (combine xs ys))
  = - Rmean (map (fun p => fst p - snd p) (combine ys xs)).
Proof.
  unfold Rmean. rewrite Rsum_diff_swap, !length_map, !length_combine.
  rewrite (Nat.min_comm (length xs)). unfold Rdiv. ring.
Qed.

(** The statistic of [ttest_rel] on two arrays of the same length, at
    least two. *)
Lemma ttest_rel_statistic (a b : list R) :
  length a = length b -> (2 <= length a)%nat ->
  let d := map (fun p => fst p - snd p) (combine a b) in
  let se := sqrt (sum_sq_dev d / (INR (length d) - 1) / INR (length a)) in
  fst (ttest_rel a b) = (Fin (Rmean d) / Fin se)%float.
Proof.
  intros Hab Hn d se. unfold ttest_rel, ttest_finish. cbn [fst]. fold d.
  assert (Hd : length d = length a)
    by (unfold d; rewrite length_map, length_combine; lia).
  pose proof (le_INR _ _ Hn) as L. simpl in L.
  rewrite nanvar_Fin by lia.
  rewrite nanmean_Fin by (apply length_ge_2_nonempty; lia).
  rewrite fdiv_Fin by lra.
  rewrite fsqrt_Fin; [reflexivity |].
  apply Rdiv_nonneg; [| lra]. apply sample_var_nonneg. lia.
Qed.

Open Scope string_scope.

(** X16.  On two inputs without missing values, each of length at least
    two, the statistic of [paired_t_test] is [(- mean_diff) / se] for a
    standard error [se] that is not negative: the test is run on before
    minus after while [mean_diff] is after minus before, so a positive
    [mean_diff] comes with a negative [t_statistic]. *)
Theorem paired_t_statistic_opposes_mean_diff (before after : list R) :
  (2 <= length before)%nat -> (2 <= length after)%nat ->
  exists (r : Dict) (mean_diff se : float),
    paired_t_test (present before) (present after) = Return r
    /\ dict_get "mean_diff" r = Some (VFloat mean_diff)
    /\ dict_get "t_statistic" r = Some (VFloat (- mean_diff / se)%float)
    /\ fltb se (Fin 0) = false.
Proof.
  intros Hb Ha.
  set (m := Nat.min (length before) (length after)).
  assert (Hm : Nat.min (n_obs (present before)) (n_obs (present after)) = m)
    by (unfold n_obs; now rewrite !cleaned_present).
  assert (Hm2 : (2 <= m)%nat) by (unfold m; lia).
  rewrite paired_t_test_valid by (rewrite Hm; exact Hm2).
  rewrite Hm, !cleaned_present.
  assert (Lb : length (firstn m before) = m)
    by (apply firstn_length_le; unfold m; lia).
  assert (La : length (firstn m after) = m)
    by (apply firstn_length_le; unfold m; lia).
  rewrite ttest_rel_statistic by lia. cbv zeta.
  unfold Series_mean.
  rewrite values_series_sub_prefix by (unfold m; lia).
  rewrite <- prefix_differences by (unfold m; lia).
  rewrite nanmean_Fin
    by (apply length_ge_2_nonempty;
        rewrite length_map, length_combine; lia).
  rewrite (Rmean_diff_swap (firstn m before) (firstn m after)).
  do 3 eexists. split; [reflexivity |].
  split; [reflexivity |]. split; [reflexivity |].
  cbn [fltb]. destruct (Rlt_dec _ 0) as [Hneg | _]; [| reflexivity].
  exfalso.
  pose proof (sqrt_pos
    (sum_sq_dev (map (fun p => fst p - snd p)
                     (combine (firstn m before) (firstn m after)))
     / (INR (length (map (fun p => fst p - snd p)
                         (combine (firstn m before) (firstn m after)))) - 1)
     / INR (length (firstn m before)))) as Hs.
  lra.
Qed.

Close Scope string_scope.

(** The values of a label-aligned difference are the differences over the
    rows that the two series share. *)
Lemma values_series_sub (a b : Series) :
  values (series_sub a b)
  = map (fun row => fst (snd row) - snd (snd row)) (frame_dropna a b).
Proof.
  revert b. induction a as [| [la x] a' IHa]; intros b.
  - simpl. apply values_all_missing.
  - induction b as [| [lb y] b' IHb].
    + simpl. apply values_all_missing.
    + simpl. destruct (Nat.compare la lb).
      * destruct x as [u |], y as [v |]; simpl; rewrite IHa; reflexivity.
      * simpl. apply IHa.
      * simpl. exact IHb.
Qed.

Lemma frame_dropna_In (a b : Series) (l : nat) (u v : R) :
  In (l, (u, v)) (frame_dropna a b) ->
  In (l, Some u) a /\ In (l, Some v) b.
Proof.
  revert b. induction a as [| [la x] a' IHa]; intros b H.
  - destruct H.
  - induction b as [| [lb y] b' IHb].
    + destruct H.
    + simpl in H. destruct (Nat.compare_spec la lb) as [E | L | G].
      * subst lb. destruct x as [u' |], y as [v' |];
          try (apply IHa in H; destruct H; split; now right).
        destruct H as [H | H].
        -- injection H as <- <- <-. split; now left.
        -- apply IHa in H. destruct H. split; now right.
      * apply IHa in H. destruct H as [H1 H2]. split; [now right | exact H2].
      * apply IHb in H. destruct H as [H1 H2]. split; [exact H1 | now right].
Qed.

Lemma In_range_row (data : Sample) (k l : nat) (o : option R) :
  In (l, o) (combine (seq k (length data)) data) ->
  (k <= l)%nat /\ nth_error data (l - k) = Some o.
Proof.
  revert k. induction data as [| o' rest IH]; intros k H.
  - destruct H.
  - simpl in H. destruct H as [H | H].
    + injection H as <- <-. split; [lia |].
      now rewrite Nat.sub_diag.
    + apply IH in H. destruct H as [Hk Hn]. split; [lia |].
      replace (l - k)%nat with (S (l - S k)) by lia. exact Hn.
Qed.

Lemma In_clean_row (data : Sample) (l : nat) (u : R) :
  In (l, Some u) (dropna (pd_Series data)) ->
  nth_error data l = Some (Some u).
Proof.
  intros H. unfold dropna in H. apply filter_In in H. destruct H as [H _].
  apply In_range_row in H. destruct H as [_ H].
  now rewrite Nat.sub_0_r in H.
Qed.

Lemma aligned_pairs_In (x y : Sample) (i : nat) (u v : R) :
  nth_error x i = Some (Some u) -> nth_error y i = Some (Some v) ->
  In (u, v) (aligned_pairs x y).
Proof.
  revert x y. induction i as [| i IH]; intros [| ox x'] [| oy y'] Hx Hy;
    simpl in Hx, Hy; try discriminate.
  - injection Hx as ->. injection Hy as ->. now left.
  - specialize (IH x' y' Hx Hy).
    destruct ox, oy; simpl; try exact IH. now right.
Qed.

Lemma In_firstn {A : Type} (n : nat) (l : list A) (x : A) :
  In x (firstn n l) -> In x l.
Proof.
  intros H. rewrite <- (firstn_skipn n l). apply in_or_app. now left.
Qed.

Lemma nanmean_nil : nanmean [] = NaN.
Proof.
  unfold nanmean, fdiv. simpl.
  destruct (Req_dec_T 0 0) as [_ | N]; [reflexivity | contradiction].
Qed.

Open Scope string_scope.

(** X17.  [mean_diff] pairs the rows by their position in the input, not
    by their rank after cleaning: when at least two observations are left
    on each side but no position holds a value in both inputs,
    [paired_t_test] still returns its statistic on the truncated cleaned
    samples, and [mean_diff] is NaN. *)
Theorem paired_mean_diff_nan_without_common_position
    (before after : Sample) :
  (2 <= Nat.min (n_obs before) (n_obs after))%nat ->
  aligned_pairs before after = [] ->
  let pairs := Nat.min (n_obs before) (n_obs after) in
  exists r,
    paired_t_test before after = Return r
    /\ dict_get "t_statistic" r
       = Some (VFloat (fst (ttest_rel (firstn pairs (cleaned before))
                                      (firstn pairs (cleaned after)))))
    /\ dict_get "mean_diff" r = Some (VFloat NaN).
Proof.
  intros Hp Hnone pairs.
  rewrite paired_t_test_valid by exact Hp. fold pairs.
  eexists. split; [reflexivity |]. split; [reflexivity |].
  cbn [dict_get String.eqb Ascii.eqb Bool.eqb].
  unfold Series_mean. rewrite values_series_sub.
  destruct (frame_dropna
              (iloc_upto (Z.of_nat pairs) (dropna (pd_Series after)))
              (iloc_upto (Z.of_nat pairs) (dropna (pd_Series before))))
    as [| [l [u v]] rows] eqn:E.
  - simpl. now rewrite nanmean_nil.
  - exfalso.
    assert (Hin : In (l, (u, v))
                     (frame_dropna
                        (iloc_upto (Z.of_nat pairs)
                                   (dropna (pd_Series after)))
                        (iloc_upto (Z.of_nat pairs)
                                   (dropna (pd_Series before)))))
      by (rewrite E; now left).
    apply frame_dropna_In in Hin. destruct Hin as [Ha Hb].
    unfold iloc_upto in Ha, Hb.
    apply In_firstn, In_clean_row in Ha.
    apply In_firstn, In_clean_row in Hb.
    pose proof (aligned_pairs_In before after l v u Hb Ha) as Hin.
    rewrite Hnone in Hin. destruct Hin.
Qed.

Close Scope string_scope.

Lemma dropna_range_labels (data : Sample) (k : nat) :
  dropna (combine (seq k (length data)) data)
  = combine (present_labels k data) (present (cleaned data)).
Proof.
  revert k. induction data as [| [x |] rest IH]; intros k.
  - reflexivity.
  - simpl. unfold dropna in *. simpl. f_equal. apply IH.
  - simpl. unfold dropna in *. simpl. apply IH.
Qed.

Lemma present_labels_mask (x y : Sample) (k : nat) :
  missing_mask x = missing_mask y -> present_labels k x = present_labels k y.
Proof.
  revert y k. induction x as [| ox x' IH]; intros [| oy y'] k H;
    simpl in H; try discriminate; [reflexivity |].
  injection H as Ho Hr.
  destruct ox, oy; try discriminate; simpl;
    [f_equal |]; now apply IH.
Qed.

Lemma Rmean_diff_flip (xs ys : list R) :
  Rmean (map (fun p => fst p - snd p) (combine xs ys))
  = Rmean (map (fun p => snd p - fst p) (combine ys xs)).
Proof.
  unfold Rmean. rewrite !length_map, !length_combine.
  rewrite (Nat.min_comm (length xs)). f_equal.
  revert ys. induction xs as [| x xs IH]; intros [| y ys]; simpl;
    try reflexivity. now rewrite IH.
Qed.

Lemma present_labels_length (x : Sample) (k : nat) :
  length (present_labels k x) = n_obs x.
Proof.
  unfold n_obs. revert k. induction x as [| [u |] x' IH]; intros k; simpl;
    [reflexivity | now rewrite IH | apply IH].
Qed.

Open Scope string_scope.

(** X18.  When the two inputs have the same length and miss their values
    at the same positions, [paired_t_test] is consistent: the test is run
    on all the cleaned pairs, and [mean_diff] is the mean of after minus
    before over these same pairs. *)
Theorem paired_t_test_same_missing_pattern (before after : Sample) :
  missing_mask before = missing_mask after ->
  (2 <= n_obs before)%nat ->
  let b := cleaned before in
  let a := cleaned after in
  length a = length b
  /\ exists r,
      paired_t_test before after = Return r
      /\ dict_get "t_statistic" r = Some (VFloat (fst (ttest_rel b a)))
      /\ dict_get "df" r = Some (VFloat (Fin (INR (length b) - 1)))
      /\ dict_get "mean_diff" r
         = Some (VFloat (Fin (Rmean (map (fun p => snd p - fst p)
                                         (combine b a))))).
Proof.
  intros Hmask Hn b a.
  assert (Hlab : present_labels 0 before = present_labels 0 after)
    by now apply present_labels_mask.
  assert (Hlen : n_obs after = n_obs before)
    by (rewrite <- (present_labels_length after 0), <- Hlab;
        apply present_labels_length).
  split; [exact Hlen |].
  assert (Hab : length a = length b) by exact Hlen.
  assert (Hnb : n_obs before = length b) by reflexivity.
  assert (Hmin : Nat.min (n_obs before) (n_obs after) = n_obs before)
    by lia.
  rewrite paired_t_test_valid by (rewrite Hmin; exact Hn).
  rewrite Hmin. fold b a.
  assert (Fb : firstn (n_obs before) b = b) by apply firstn_all.
  assert (Fa : firstn (n_obs before) a = a)
    by (rewrite <- Hlen; apply firstn_all).
  rewrite Fb, Fa.
  eexists. split; [reflexivity |]. split; [reflexivity |].
  split; [reflexivity |].
  cbn [dict_get String.eqb Ascii.eqb Bool.eqb].
  unfold iloc_upto, pd_Series. rewrite Nat2Z.id.
  rewrite !dropna_range_labels, <- Hlab. fold b a.
  rewrite !firstn_all2
    by (unfold present; rewrite length_combine, length_map,
          present_labels_length; lia).
  unfold Series_mean. rewrite series_sub_same_labels.
  rewrite !skipn_all2
    by (unfold present; rewrite length_combine, length_map,
          present_labels_length; lia).
  simpl all_missing. rewrite !app_nil_r.
  rewrite values_combine_present
    by (rewrite length_map, length_combine, present_labels_length; lia).
  rewrite nanmean_Fin
    by (apply length_ge_2_nonempty;
        rewrite length_map, length_combine; lia).
  do 3 f_equal. apply Rmean_diff_flip.
Qed.

Close Scope string_scope.

(* ================================================================== *)
(** * Change of origin *)
(* ================================================================== *)

Open Scope string_scope.

Close Scope string_scope.










Open Scope string_scope.


Close Scope string_scope.

Open Scope string_scope.

Close Scope string_scope.

End Distributions.

(* ================================================================== *)
(** * Concrete runs *)
(* ================================================================== *)

Open Scope string_scope.

(** Counts the observations of a literal sample. *)
Ltac count_obs := unfold n_obs; simpl; lia.


(** C1, as stated, fails: a group with a single observation makes
    [independent_t_test] raise [ValueError], not [InsufficientDataError]. *)
Lemma too_small_group_raises_ValueError_not_InsufficientDataError :
  exists e,
    independent_t_test student2_cdf [Some 1] [Some 1; Some 2] true = Raise e
    /\ exception_class e = "ValueError"
    /\ exception_class e <> "InsufficientDataError".
Proof.
  eexists. split; [reflexivity |]. split; [reflexivity | discriminate].
Qed.

(** C3 on the groups [1, NaN, 2] and [3, 5]. *)
Lemma cohens_d_uses_pooled_std_witness :
  (2 <= n_obs [Some 1; None; Some 2]%R)%nat
  /\ (2 <= n_obs [Some 3; Some 5]%R)%nat
  /\ exists r,
      independent_t_test student2_cdf
        [Some 1; None; Some 2] [Some 3; Some 5] true = Return r
      /\ dict_get "cohens_d" r
         = Some (VFloat (Fin (Rmean [1; 2] - Rmean [3; 5])
                         / Fin (pooled_std [1; 2] [3; 5]))%float).
Proof.
  assert (H1 : (2 <= n_obs [Some 1; None; Some 2]%R)%nat) by count_obs.
  assert (H2 : (2 <= n_obs [Some 3; Some 5]%R)%nat) by count_obs.
  split; [exact H1 |]. split; [exact H2 |].
  exact (cohens_d_uses_pooled_std student2_cdf
           [Some 1; None; Some 2] [Some 3; Some 5] true H1 H2).
Defined.

(** C4 on the groups [1, NaN, 2] and [3, 5]. *)
Lemma independent_t_test_antisymmetric_witness :
  (2 <= n_obs [Some 1; None; Some 2]%R)%nat
  /\ (2 <= n_obs [Some 3; Some 5]%R)%nat
  /\ exists r r' t d p df,
      independent_t_test student2_cdf
        [Some 1; None; Some 2] [Some 3; Some 5] true = Return r
      /\ independent_t_test student2_cdf
           [Some 3; Some 5] [Some 1; None; Some 2] true = Return r'
      /\ dict_get "t_statistic" r = Some (VFloat t)
      /\ dict_get "t_statistic" r' = Some (VFloat (fneg t))
      /\ dict_get "cohens_d" r = Some (VFloat d)
      /\ dict_get "cohens_d" r' = Some (VFloat (fneg d))
      /\ dict_get "p_value" r = Some (VFloat p)
      /\ dict_get "p_value" r' = Some (VFloat p)
      /\ dict_get "df" r = Some (VFloat df)
      /\ dict_get "df" r' = Some (VFloat df).
Proof.
  assert (H1 : (2 <= n_obs [Some 1; None; Some 2]%R)%nat) by count_obs.
  assert (H2 : (2 <= n_obs [Some 3; Some 5]%R)%nat) by count_obs.
  split; [exact H1 |]. split; [exact H2 |].
  exact (independent_t_test_antisymmetric student2_cdf
           [Some 1; None; Some 2] [Some 3; Some 5] true H1 H2).
Defined.

(** C5 on [1, NaN, 3, 4, 6] and [5, 6, 7, NaN]: four observations against
    three, so the fourth one of the first sample is cut and three pairs
    remain. *)
Lemma paired_t_test_truncates_to_shorter_witness :
  (2 <= Nat.min (length (cleaned [Some 1; None; Some 3; Some 4; Some 6]%R))
                (length (cleaned [Some 5; Some 6; Some 7; None]%R)))%nat
  /\ stats_ttest_rel student2_cdf [1; 3; 4; 6] [5; 6; 7]
     = Raise (ValueError "unequal length arrays")
  /\ exists r,
      paired_t_test student2_cdf
        [Some 1; None; Some 3; Some 4; Some 6] [Some 5; Some 6; Some 7; None]
      = Return r
      /\ dict_get "t_statistic" r
         = Some (VFloat (fst (ttest_rel student2_cdf [1; 3; 4] [5; 6; 7])))
      /\ dict_get "p_value" r
         = Some (VFloat (snd (ttest_rel student2_cdf [1; 3; 4] [5; 6; 7])))
      /\ dict_get "df" r = Some (VFloat (Fin (INR 3 - 1))).
Proof.
  assert (H : (2 <= Nat.min
                      (length (cleaned [Some 1; None; Some 3; Some 4;
                                        Some 6]%R))
                      (length (cleaned [Some 5; Some 6; Some 7; None]%R)))%nat)
    by (simpl; lia).
  assert (Hne : length (cleaned [Some 1; None; Some 3; Some 4; Some 6]%R)
                <> length (cleaned [Some 5; Some 6; Some 7; None]%R))
    by (simpl; lia).
  split; [exact H |].
  split.
  - exact (proj1 (proj2
             (paired_t_test_truncates_to_shorter student2_cdf
                [Some 1; None; Some 3; Some 4; Some 6]
                [Some 5; Some 6; Some 7; None])) Hne).
  - exact (proj2 (proj2 (proj2 (proj2 (proj2
             (paired_t_test_truncates_to_shorter student2_cdf
                [Some 1; None; Some 3; Some 4; Some 6]
                [Some 5; Some 6; Some 7; None]))
             H)))).
Defined.


(** C9 on the groups [1, NaN, 2] and [3, 5]. *)
Lemma df_and_cohens_d_ignore_equal_var_witness :
  (2 <= n_obs [Some 1; None; Some 2]%R)%nat
  /\ (2 <= n_obs [Some 3; Some 5]%R)%nat
  /\ exists r_pooled r_welch,
      independent_t_test student2_cdf
        [Some 1; None; Some 2] [Some 3; Some 5] true = Return r_pooled
      /\ independent_t_test student2_cdf
           [Some 1; None; Some 2] [Some 3; Some 5] false = Return r_welch
      /\ dict_get "df" r_welch = dict_get "df" r_pooled
      /\ dict_get "cohens_d" r_welch = dict_get "cohens_d" r_pooled
      /\ dict_get "df" r_welch
         = Some (VFloat (Fin (INR 2 + INR 2 - 2)))
      /\ dict_get "cohens_d" r_welch
         = Some (VFloat (Fin (Rmean [1; 2] - Rmean [3; 5])
                         / Fin (pooled_std [1; 2] [3; 5]))%float).
Proof.
  assert (H1 : (2 <= n_obs [Some 1; None; Some 2]%R)%nat) by count_obs.
  assert (H2 : (2 <= n_obs [Some 3; Some 5]%R)%nat) by count_obs.
  split; [exact H1 |]. split; [exact H2 |].
  exact (df_and_cohens_d_ignore_equal_var student2_cdf
           [Some 1; None; Some 2] [Some 3; Some 5] H1 H2).
Defined.

(** C10 on before = [1, 2, 4, 7] and after = [2, 5, 9]: three positions are
    compared. *)
Lemma mean_diff_is_after_minus_before_witness :
  (2 <= length [1; 2; 4; 7]%R)%nat
  /\ (2 <= length [2; 5; 9]%R)%nat
  /\ exists r,
      paired_t_test student2_cdf (present [1; 2; 4; 7]) (present [2; 5; 9])
      = Return r
      /\ dict_get "mean_diff" r
         = Some (VFloat (Fin (Rmean [2 - 1; 5 - 2; 9 - 4]))).
Proof.
  assert (H1 : (2 <= length [1; 2; 4; 7]%R)%nat) by (simpl; lia).
  assert (H2 : (2 <= length [2; 5; 9]%R)%nat) by (simpl; lia).
  split; [exact H1 |]. split; [exact H2 |].
  exact (mean_diff_is_after_minus_before student2_cdf
           [1; 2; 4; 7] [2; 5; 9] H1 H2).
Defined.

Close Scope string_scope.

(* ================================================================== *)
(** * Properties of the data loaders and of the validation *)
(* ================================================================== *)

Section DataLoaderProperties.

Import DataLoader.
Open Scope string_scope.

Variable Path : Type.
Variable path_str : Path -> string.
Variable path_exists : Path -> bool.
Variable Kwargs : Type.
Variable read_csv : Path -> Kwargs -> DataFrame + string.
Variable read_excel : Path -> string + Z -> Kwargs -> DataFrame + string.
Variable read_excel_all :
  Path -> Kwargs -> list (string * DataFrame) + string.
Variable Json : Type.
Variable json_load : Path -> Json + (string + string).
Variable repr_list : list string -> string.

Lemma has_column_In (df : DataFrame) (col : string) :
  has_column df col = true <-> In col (columns df).
Proof.
  unfold has_column. rewrite existsb_exists. split.
  - intros [name [Hin Heq]]. apply String.eqb_eq in Heq. subst. exact Hin.
  - intros Hin. exists col. split; [exact Hin | apply String.eqb_refl].
Qed.

Lemma has_column_false (df : DataFrame) (col : string) :
  has_column df col = false <-> ~ In col (columns df).
Proof.
  rewrite <- has_column_In. destruct (has_column df col); split; intros H.
  - discriminate.
  - exfalso. apply H. reflexivity.
  - discriminate.
  - reflexivity.
Qed.

Lemma check_required_columns_returns_iff
    (df df' : DataFrame) (required_columns : option (list string)) :
  check_required_columns repr_list df required_columns = Return df' <->
  df = df' /\
  forall col, In col (required_list required_columns) -> In col (columns df).
Proof.
  unfold check_required_columns.
  destruct required_columns as [[|c required]|]; cbn [required_list].
  - split.
    + intros H. inversion H. split; [reflexivity | intros col []].
    + intros [-> _]. reflexivity.
  - destruct (filter (fun col => negb (has_column df col)) (c :: required))
      as [|m missing] eqn:Hf.
    + split.
      * intros H. inversion H. subst df'. split; [reflexivity|].
        intros col Hin. apply has_column_In.
        destruct (has_column df col) eqn:Hc; [reflexivity|].
        assert (Hm : In col (filter (fun col => negb (has_column df col))
                               (c :: required))).
        { apply filter_In. split; [exact Hin | rewrite Hc; reflexivity]. }
        rewrite Hf in Hm. destruct Hm.
      * intros [-> _]. reflexivity.
    + split.
      * intros H. discriminate H.
      * intros [_ Hall]. exfalso.
        assert (Hm : In m (filter (fun col => negb (has_column df col))
                             (c :: required))).
        { rewrite Hf. left. reflexivity. }
        apply filter_In in Hm. destruct Hm as [Hin Hneg].
        apply Hall in Hin. apply has_column_In in Hin.
        rewrite Hin in Hneg. discriminate Hneg.
  - split.
    + intros H. inversion H. split; [reflexivity | intros col []].
    + intros [-> _]. reflexivity.
Qed.

(** X19.  A frame loader returns a frame exactly when the file exists, the
    reader yields that frame, and every required column is one of its
    columns; [load_json_data] returns exactly what the parser yields for an
    existing file.  With [sheet_name=None], [load_excel_data] returns the
    dictionary of the sheets exactly when the file exists, the reader
    yields it, and no column is required. *)
Theorem loaders_return_iff
    (file_path : Path) (sheet_name : string + Z)
    (required_columns : option (list string)) (kwargs : Kwargs)
    (df : DataFrame) (sheets : list (string * DataFrame)) (data : Json) :
  (load_csv_data path_str path_exists read_csv repr_list
     file_path required_columns kwargs = Return df <->
   path_exists file_path = true /\
   read_csv file_path kwargs = inl df /\
   forall col, In col (required_list required_columns) ->
               In col (columns df)) /\
  (load_excel_data path_str path_exists read_excel read_excel_all repr_list
     file_path (Some sheet_name) required_columns kwargs
   = Return (OneSheet df) <->
   path_exists file_path = true /\
   read_excel file_path sheet_name kwargs = inl df /\
   forall col, In col (required_list required_columns) ->
               In col (columns df)) /\
  (load_excel_data path_str path_exists read_excel read_excel_all repr_list
     file_path None required_columns kwargs
   = Return (AllSheets sheets) <->
   path_exists file_path = true /\
   read_excel_all file_path kwargs = inl sheets /\
   required_list required_columns = []) /\
  (load_json_data path_str path_exists json_load file_path = Return data <->
   path_exists file_path = true /\ json_load file_path = inl data).
Proof.
  split; [|split; [|split]].
  - unfold load_csv_data.
    destruct (path_exists file_path); cbn [negb].
    + destruct (read_csv file_path kwargs) as [df0|e].
      * rewrite check_required_columns_returns_iff. split.
        -- intros [-> H]. repeat split. exact H.
        -- intros [_ [Heq H]]. inversion Heq. split; [reflexivity | exact H].
      * split; [intros H; discriminate H | intros [_ [H _]]; discriminate H].
    + split; [intros H; discriminate H | intros [H _]; discriminate H].
  - unfold load_excel_data.
    destruct (path_exists file_path); cbn [negb].
    + destruct (read_excel file_path sheet_name kwargs) as [df0|e].
      * destruct (check_required_columns repr_list df0 required_columns)
          as [df1|e1] eqn:Hc.
        -- apply check_required_columns_returns_iff in Hc.
           destruct Hc as [-> Hall]. split.
           ++ intros H. inversion H. subst. repeat split. exact Hall.
           ++ intros [_ [Heq _]]. inversion Heq. reflexivity.
        -- split; [intros H; discriminate H |].
           intros [_ [Heq Hall]]. inversion Heq. subst df0.
           assert (Hr : check_required_columns repr_list df required_columns
                        = Return df)
             by (apply check_required_columns_returns_iff;
                 split; [reflexivity | exact Hall]).
           rewrite Hr in Hc. discriminate Hc.
      * split; [intros H; discriminate H | intros [_ [H _]]; discriminate H].
    + split; [intros H; discriminate H | intros [H _]; discriminate H].
  - unfold load_excel_data.
    destruct (path_exists file_path); cbn [negb].
    + destruct (read_excel_all file_path kwargs) as [sheets0|e].
      * destruct required_columns as [[|c required]|]; cbn [required_list].
        -- split.
           ++ intros H. inversion H. repeat split.
           ++ intros [_ [Heq _]]. inversion Heq. reflexivity.
        -- split; [intros H; discriminate H |].
           intros [_ [_ H]]. discriminate H.
        -- split.
           ++ intros H. inversion H. repeat split.
           ++ intros [_ [Heq _]]. inversion Heq. reflexivity.
      * split; [intros H; discriminate H | intros [_ [H _]]; discriminate H].
    + split; [intros H; discriminate H | intros [H _]; discriminate H].
  - unfold load_json_data.
    destruct (path_exists file_path); cbn [negb].
    + destruct (json_load file_path) as [d|[e|e]].
      * split.
        -- intros H. inversion H. split; reflexivity.
        -- intros [_ H]. inversion H. reflexivity.
      * split; [intros H; discriminate H | intros [_ H]; discriminate H].
      * split; [intros H; discriminate H | intros [_ H]; discriminate H].
    + split; [intros H; discriminate H | intros [H _]; discriminate H].
Qed.

(** X20.  When the file exists and is read, and a required column is not in
    the frame, a frame loader raises a [ValueError] whose message lists the
    required columns that are absent, all of them and no other. *)
Theorem missing_required_columns_are_all_listed
    (file_path : Path) (sheet_name : string + Z) (required : list string)
    (kwargs : Kwargs) (df : DataFrame) (absent : string) :
  path_exists file_path = true ->
  In absent required ->
  ~ In absent (columns df) ->
  exists missing_columns,
    (forall col, In col missing_columns <->
                 In col required /\ ~ In col (columns df)) /\
    (read_csv file_path kwargs = inl df ->
     load_csv_data path_str path_exists read_csv repr_list
       file_path (Some required) kwargs =
     Raise (ValueError ("Missing required columns: "
                        ++ repr_list missing_columns))) /\
    (read_excel file_path sheet_name kwargs = inl df ->
     load_excel_data path_str path_exists read_excel read_excel_all
       repr_list file_path (Some sheet_name) (Some required) kwargs =
     Raise (ValueError ("Missing required columns: "
                        ++ repr_list missing_columns))).
Proof.
  intros Hex Hin Hno.
  exists (filter (fun col => negb (has_column df col)) required).
  assert (Hm : In absent (filter (fun col => negb (has_column df col))
                            required)).
  { apply filter_In. split; [exact Hin|].
    apply has_column_false in Hno. rewrite Hno. reflexivity. }
  split; [|split].
  - intros col. rewrite filter_In. split.
    + intros [H1 H2]. split; [exact H1|]. apply has_column_false.
      destruct (has_column df col); [discriminate H2 | reflexivity].
    + intros [H1 H2]. split; [exact H1|]. apply has_column_false in H2.
      rewrite H2. reflexivity.
  - intros Hr. unfold load_csv_data. rewrite Hex, Hr. cbn [negb].
    unfold check_required_columns.
    destruct required as [|c required]; [destruct Hin|].
    destruct (filter (fun col => negb (has_column df col)) (c :: required));
      [destruct Hm | reflexivity].
  - intros Hr. unfold load_excel_data. rewrite Hex, Hr. cbn [negb].
    unfold check_required_columns.
    destruct required as [|c required]; [destruct Hin|].
    destruct (filter (fun col => negb (has_column df col)) (c :: required));
      [destruct Hm | reflexivity].
Qed.






End DataLoaderProperties.

Section ValidationProperties.

Import DataLoader.
Open Scope list_scope.

Lemma dict_set_fresh {A : Type} (d : list (string * A)) (k : string) (x : A) :
  ~ In k (map fst d) -> dict_set d k x = d ++ [(k, x)].
Proof.
  induction d as [|[k' y] d IH]; intros H; cbn [dict_set app].
  - reflexivity.
  - destruct (String.eqb k k') eqn:E.
    + apply String.eqb_eq in E. subst. exfalso. apply H. left. reflexivity.
    + rewrite IH; [reflexivity|]. intros Hin. apply H. right. exact Hin.
Qed.

Lemma get_column_has (df : DataFrame) (col : string) (c : column) :
  get_column df col = Some c -> has_column df col = true.
Proof.
  unfold has_column, columns.
  induction df as [|[name c'] df IH]; cbn [get_column map existsb fst].
  - discriminate.
  - destruct (String.eqb col name); [reflexivity|]. exact IH.
Qed.

Lemma get_column_NoDup (df : DataFrame) (name : string) (c : column) :
  NoDup (columns df) -> In (name, c) df -> get_column df name = Some c.
Proof.
  unfold columns.
  induction df as [|[name' c'] df IH]; intros Hnd Hin; [destruct Hin|].
  cbn [map fst] in Hnd. inversion Hnd as [|? ? Hnot Hnd']. subst.
  cbn [get_column]. destruct Hin as [Heq|Hin].
  - inversion Heq. subst. rewrite String.eqb_refl. reflexivity.
  - destruct (String.eqb name name') eqn:E.
    + apply String.eqb_eq in E. subst. exfalso. apply Hnot.
      apply in_map_iff. exists (name', c). split; [reflexivity | exact Hin].
    + apply IH; assumption.
Qed.

Lemma float_columns_In (df : DataFrame) (name : string) (v : list float) :
  In (name, v) (float_columns df) -> In (name, FloatColumn v) df.
Proof.
  unfold float_columns. intros H. apply in_flat_map in H.
  destruct H as [[name' c] [Hin H]]. cbn [fst snd] in H.
  destruct c as [w|w]; [|destruct H].
  destruct H as [H|[]]. inversion H. subst. exact Hin.
Qed.

Lemma float_columns_names (df : DataFrame) (name : string) :
  In name (map fst (float_columns df)) -> In name (columns df).
Proof.
  intros H. apply in_map_iff in H. destruct H as [[n v] [Heq Hin]].
  cbn [fst] in Heq. subst. apply float_columns_In in Hin.
  unfold columns. apply in_map_iff. exists (name, FloatColumn v).
  split; [reflexivity | exact Hin].
Qed.

Lemma float_columns_NoDup (df : DataFrame) :
  NoDup (columns df) -> NoDup (map fst (float_columns df)).
Proof.
  induction df as [|[name c] df IH]; intros Hnd.
  - constructor.
  - unfold columns in Hnd. cbn [map fst] in Hnd.
    inversion Hnd as [|? ? Hnot Hnd']. subst.
    unfold float_columns. cbn [flat_map fst snd].
    destruct c as [v|v]; cbn [app map fst].
    + constructor.
      * intros Hin. apply Hnot. apply (float_columns_names df). exact Hin.
      * apply IH. exact Hnd'.
    + apply IH. exact Hnd'.
Qed.

Lemma numeric_columns_float (df : DataFrame) :
  numeric_columns df = map fst (float_columns df).
Proof.
  unfold numeric_columns, float_columns.
  induction df as [|[name c] df IH]; [reflexivity|].
  cbn [filter flat_map snd fst is_numeric].
  destruct c as [v|v]; cbn [is_numeric app map fst]; rewrite IH; reflexivity.
Qed.

Lemma validation_keys (f : string * list float -> nat)
    (cols : list (string * list float)) :
  map fst (map (fun c => (fst c, f c)) cols) = map fst cols.
Proof.
  rewrite map_map. apply map_ext. intros c. reflexivity.
Qed.

Lemma validate_column_float
    (df : DataFrame) (done : list (string * list float))
    (name : string) (v : list float) :
  get_column df name = Some (FloatColumn v) ->
  ~ In name (map fst done) ->
  validate_column df (Return (validation_of done)) name =
  Return (validation_of (done ++ [(name, v)])).
Proof.
  intros Hg Hfresh. unfold validate_column.
  rewrite (get_column_has _ _ _ Hg), Hg. cbn [negb].
  unfold validation_of. cbn [missing_values infinite_values outliers].
  rewrite !map_app, filter_app. cbn [map filter fst snd].
  assert (Hout : ~ In name
                   (map fst (map (fun c => (fst c, outlier_count (snd c)))
                      (filter (fun c => (1 <? length (snd c))%nat) done)))).
  { rewrite (validation_keys (fun c => outlier_count (snd c))).
    intros Hin. apply Hfresh. apply in_map_iff in Hin.
    destruct Hin as [c [Heq Hin]]. apply filter_In in Hin.
    apply in_map_iff. exists c. split; [exact Heq | apply Hin]. }
  assert (Hinf : ~ In name
                   (map fst (map (fun c => (fst c, count isinf (snd c)))
                      done))).
  { rewrite (validation_keys (fun c => count isinf (snd c))). exact Hfresh. }
  assert (Hnan : ~ In name
                   (map fst (map (fun c => (fst c, count isnan (snd c)))
                      done))).
  { rewrite (validation_keys (fun c => count isnan (snd c))). exact Hfresh. }
  destruct (1 <? length v)%nat.
  - rewrite (dict_set_fresh _ _ _ Hout), (dict_set_fresh _ _ _ Hinf),
      (dict_set_fresh _ _ _ Hnan).
    rewrite map_app. reflexivity.
  - rewrite (dict_set_fresh _ _ _ Hinf), (dict_set_fresh _ _ _ Hnan).
    rewrite app_nil_r. reflexivity.
Qed.

Lemma validate_columns_float
    (df : DataFrame) (todo done : list (string * list float)) :
  (forall name v, In (name, v) todo ->
                  get_column df name = Some (FloatColumn v)) ->
  NoDup (map fst (done ++ todo)) ->
  fold_left (validate_column df) (map fst todo)
            (Return (validation_of done)) =
  Return (validation_of (done ++ todo)).
Proof.
  revert done. induction todo as [|[name v] todo IH]; intros done Hg Hnd.
  - rewrite app_nil_r. reflexivity.
  - cbn [map fst fold_left].
    assert (Hfresh : ~ In name (map fst done)).
    { rewrite map_app in Hnd. cbn [map fst] in Hnd.
      apply NoDup_remove_2 in Hnd. intros Hin. apply Hnd.
      apply in_or_app. left. exact Hin. }
    rewrite (validate_column_float df done name v);
      [|apply Hg; left; reflexivity | exact Hfresh].
    rewrite IH.
    + rewrite <- app_assoc. reflexivity.
    + intros n w Hin. apply Hg. right. exact Hin.
    + rewrite <- app_assoc. exact Hnd.
Qed.

(** X22.  Called without [columns] on a frame with distinct column names,
    [validate_numeric_data] never raises: it visits the float columns in
    column order, and enters for each one its count of missing and of
    infinite values, and for each one with more than one row its count of
    outliers. *)
Theorem validate_numeric_data_default_columns (df : DataFrame) :
  NoDup (columns df) ->
  validate_numeric_data df None = Return (validation_of (float_columns df)).
Proof.
  intros Hnd. unfold validate_numeric_data.
  rewrite numeric_columns_float.
  apply (validate_columns_float df (float_columns df) []).
  - intros name v Hin. apply get_column_NoDup; [exact Hnd|].
    apply float_columns_In. exact Hin.
  - cbn [app]. apply float_columns_NoDup. exact Hnd.
Qed.

Lemma validate_column_absent
    (df : DataFrame) (acc : result ValidationResults) (col : string) :
  has_column df col = false -> validate_column df acc col = acc.
Proof.
  intros H. unfold validate_column. rewrite H. cbn [negb].
  destruct acc; reflexivity.
Qed.

Lemma validate_columns_skip
    (df : DataFrame) (cols : list string) (acc : result ValidationResults) :
  fold_left (validate_column df) (filter (has_column df) cols) acc =
  fold_left (validate_column df) cols acc.
Proof.
  revert acc. induction cols as [|col cols IH]; intros acc; [reflexivity|].
  cbn [filter fold_left]. destruct (has_column df col) eqn:H.
  - cbn [fold_left]. apply IH.
  - rewrite (validate_column_absent df acc col H). apply IH.
Qed.

Lemma dict_lookup_set_other {A : Type} (d : list (string * A))
    (k col : string) (x : A) :
  String.eqb col k = false ->
  dict_lookup (dict_set d k x) col = dict_lookup d col.
Proof.
  intros Hne. induction d as [|[k' y] d IH]; cbn [dict_set dict_lookup].
  - rewrite Hne. reflexivity.
  - destruct (String.eqb k k') eqn:E.
    + apply String.eqb_eq in E. subst k'. cbn [dict_lookup].
      rewrite Hne. reflexivity.
    + cbn [dict_lookup]. rewrite IH. reflexivity.
Qed.

Lemma validate_column_no_entry_outside
    (df : DataFrame) (acc : result ValidationResults) (c : string) :
  no_entry_outside df acc -> no_entry_outside df (validate_column df acc c).
Proof.
  intros Hacc. destruct (has_column df c) eqn:Hc.
  - intros r col Hr Hcol.
    assert (Hne : String.eqb col c = false).
    { destruct (String.eqb col c) eqn:E; [|reflexivity].
      apply String.eqb_eq in E. subst. rewrite Hc in Hcol. discriminate. }
    unfold validate_column in Hr. destruct acc as [r0|e]; [|discriminate Hr].
    rewrite Hc in Hr. cbn [negb] in Hr.
    destruct (Hacc r0 col eq_refl Hcol) as [H1 [H2 H3]].
    destruct (get_column df c) as [[v|v]|].
    + cbn [missing_values infinite_values outliers] in Hr.
      destruct (1 <? length v)%nat; inversion Hr; subst r;
        cbn [missing_values infinite_values outliers];
        rewrite ?dict_lookup_set_other by exact Hne;
        repeat split; assumption.
    + discriminate Hr.
    + inversion Hr. subst r. repeat split; assumption.
  - rewrite validate_column_absent by exact Hc. exact Hacc.
Qed.

Lemma validate_columns_no_entry_outside
    (df : DataFrame) (cols : list string) (acc : result ValidationResults) :
  no_entry_outside df acc ->
  no_entry_outside df (fold_left (validate_column df) cols acc).
Proof.
  revert acc. induction cols as [|c cols IH]; intros acc Hacc.
  - exact Hacc.
  - cbn [fold_left]. apply IH. apply validate_column_no_entry_outside.
    exact Hacc.
Qed.

(** X23.  A name in [columns] that is not a column of the frame is passed
    over without an error and leaves no entry: the result is that of the
    call without such names. *)
Theorem validate_numeric_data_skips_unknown_columns
    (df : DataFrame) (cols : list string) :
  validate_numeric_data df (Some cols) =
  validate_numeric_data df (Some (filter (has_column df) cols)) /\
  forall (r : ValidationResults) (col : string),
    validate_numeric_data df (Some cols) = Return r ->
    has_column df col = false ->
    dict_lookup (missing_values r) col = None /\
    dict_lookup (infinite_values r) col = None /\
    dict_lookup (outliers r) col = None.
Proof.
  split.
  - unfold validate_numeric_data. symmetry. apply validate_columns_skip.
  - unfold validate_numeric_data.
    apply (validate_columns_no_entry_outside df cols).
    intros r col Hr _. inversion Hr. repeat split; reflexivity.
Qed.

Lemma validate_one_column (df : DataFrame) (col : string) (v : list float) :
  get_column df col = Some (FloatColumn v) ->
  validate_numeric_data df (Some [col]) = Return (validation_of [(col, v)]).
Proof.
  intros Hg. unfold validate_numeric_data. cbn [fold_left].
  apply (validate_column_float df [] col v Hg). intros [].
Qed.

Lemma fsum_NaN_In (w : list float) : In NaN w -> fsum w = NaN.
Proof.
  induction w as [|x w IH]; intros H; [destruct H|].
  change (fsum (x :: w)) with (x + fsum w)%float.
  destruct H as [->|H]; [reflexivity|].
  rewrite (IH H). destruct x; reflexivity.
Qed.

Lemma fsum_Fin_inv (w : list float) (s : R) :
  fsum w = Fin s -> w = map Fin (finite_values w).
Proof.
  revert s. induction w as [|x w IH]; intros s H; [reflexivity|].
  change (fsum (x :: w)) with (x + fsum w)%float in H.
  destruct x as [| |a|]; destruct (fsum w) as [| |b|] eqn:E;
    try discriminate H.
  unfold finite_values. cbn [flat_map app map]. f_equal.
  apply (IH b). reflexivity.
Qed.

Lemma fsum_PInf_In (w : list float) : fsum w = PInf -> In PInf w.
Proof.
  induction w as [|x w IH]; intros H; [discriminate H|].
  change (fsum (x :: w)) with (x + fsum w)%float in H.
  destruct x as [| |a|]; destruct (fsum w) as [| |b|] eqn:E;
    try discriminate H;
    try (left; reflexivity); right; apply IH; reflexivity.
Qed.

Lemma fsum_NInf_In (w : list float) : fsum w = NInf -> In NInf w.
Proof.
  induction w as [|x w IH]; intros H; [discriminate H|].
  change (fsum (x :: w)) with (x + fsum w)%float in H.
  destruct x as [| |a|]; destruct (fsum w) as [| |b|] eqn:E;
    try discriminate H;
    try (left; reflexivity); right; apply IH; reflexivity.
Qed.

Lemma not_missing_In (v : list float) (x : float) :
  In x (not_missing v) <-> In x v /\ isnan x = false.
Proof.
  unfold not_missing. rewrite filter_In.
  destruct (isnan x); cbn [negb]; split; intros [H1 H2]; split;
    try assumption; try reflexivity; discriminate.
Qed.

(** A column with an infinite entry has no standard deviation. *)
Lemma column_std_inf (v : list float) (x : float) :
  In x v -> isinf x = true -> column_std v = NaN.
Proof.
  intros Hin Hinf.
  assert (Hw : In x (not_missing v)).
  { apply not_missing_In. split; [exact Hin|]. destruct x; try reflexivity.
    discriminate Hinf. }
  unfold column_std. set (w := not_missing v) in *.
  destruct (length w <=? 1)%nat; [reflexivity|].
  assert (Hn : 0 < INR (length w)).
  { destruct w as [|y w']; [destruct Hw|]. apply INR_length_pos. }
  assert (Hnan : forall avg : float,
             In NaN (map (fun y => fsquare (avg - y)%float) w) ->
             fsqrt (fsum (map (fun y => fsquare (avg - y)%float) w)
                    / Fin (INR (length w) - 1))%float = NaN).
  { intros avg H. rewrite (fsum_NaN_In _ H). reflexivity. }
  destruct (fsum w) as [| |s|] eqn:E.
  - apply Hnan. apply in_map_iff. exists x. split; [|exact Hw].
    destruct x; reflexivity.
  - assert (Havg : (NInf / Fin (INR (length w)))%float = NInf).
    { cbn [fdiv]. destruct (Rlt_dec (INR (length w)) 0); [lra | reflexivity]. }
    rewrite Havg. apply Hnan. apply in_map_iff. exists NInf.
    split; [reflexivity | apply fsum_NInf_In; exact E].
  - exfalso. apply fsum_Fin_inv in E. rewrite E in Hw.
    apply in_map_iff in Hw. destruct Hw as [r [Hr _]]. subst x.
    discriminate Hinf.
  - assert (Havg : (PInf / Fin (INR (length w)))%float = PInf).
    { cbn [fdiv]. destruct (Rlt_dec (INR (length w)) 0); [lra | reflexivity]. }
    rewrite Havg. apply Hnan. apply in_map_iff. exists PInf.
    split; [reflexivity | apply fsum_PInf_In; exact E].
Qed.

Lemma outlier_count_inf (v : list float) (x : float) :
  In x v -> isinf x = true -> outlier_count v = 0%nat.
Proof.
  intros Hin Hinf. unfold outlier_count.
  rewrite (column_std_inf v x Hin Hinf). reflexivity.
Qed.

(** X24.  An infinite entry hides every outlier of its column: the column
    is entered with no outlier, whatever its other entries. *)
Theorem infinite_value_hides_outliers
    (df : DataFrame) (col : string) (v : list float) :
  get_column df col = Some (FloatColumn v) ->
  (1 < length v)%nat ->
  In PInf v \/ In NInf v ->
  validate_numeric_data df (Some [col]) =
  Return {| missing_values := [(col, count isnan v)];
            infinite_values := [(col, count isinf v)];
            outliers := [(col, 0%nat)] |}.
Proof.
  intros Hg Hlen Hinf. rewrite (validate_one_column df col v Hg).
  unfold validation_of. cbn [map filter fst snd].
  apply Nat.ltb_lt in Hlen. rewrite Hlen. cbn [map fst snd].
  destruct Hinf as [H|H].
  - rewrite (outlier_count_inf v PInf H eq_refl). reflexivity.
  - rewrite (outlier_count_inf v NInf H eq_refl). reflexivity.
Qed.

Lemma count_none (f : float -> bool) (v : list float) :
  (forall x, In x v -> f x = false) -> count f v = 0%nat.
Proof.
  unfold count. induction v as [|x v IH]; intros H; [reflexivity|].
  cbn [filter]. rewrite (H x (or_introl eq_refl)). apply IH.
  intros y Hy. apply H. right. exact Hy.
Qed.

Lemma no_inf_forall (v : list float) :
  existsb isinf v = false -> forall x, In x v -> isinf x = false.
Proof.
  intros E x Hx. destruct (isinf x) eqn:Ex; [|reflexivity].
  assert (Ht : existsb isinf v = true).
  { apply existsb_exists. exists x. split; assumption. }
  rewrite Ht in E. discriminate E.
Qed.

Lemma count_disjoint (f g : float -> bool) (v : list float) :
  (forall x, f x = true -> g x = false) ->
  (count f v + count g v <= length v)%nat.
Proof.
  intros H. unfold count. induction v as [|x v IH]; [cbn; lia|].
  cbn [filter length]. destruct (f x) eqn:Ef.
  - rewrite (H x Ef). cbn [length]. lia.
  - destruct (g x); cbn [length]; lia.
Qed.

Lemma counts_within_rows (v : list float) :
  (count isnan v + count isinf v + outlier_count v <= length v)%nat.
Proof.
  destruct (existsb isinf v) eqn:E.
  - apply existsb_exists in E. destruct E as [x [Hin Hx]].
    rewrite (outlier_count_inf v x Hin Hx).
    pose proof (count_disjoint isnan isinf v) as H.
    rewrite Nat.add_0_r. apply H. intros y Hy. destruct y; try discriminate Hy.
    reflexivity.
  - pose proof (no_inf_forall v E) as Hfin.
    rewrite (count_none isinf v Hfin), Nat.add_0_r.
    unfold outlier_count. destruct (fltb (Fin 0) (column_std v)).
    + apply count_disjoint. intros y Hy. destruct y; try discriminate Hy.
      cbn [fsub fadd fabs]. destruct (Fin 3 * column_std v)%float; reflexivity.
    + pose proof (count_disjoint isnan isinf v) as H.
      rewrite (count_none isinf v Hfin) in H. rewrite Nat.add_0_r.
      rewrite Nat.add_0_r in H. apply H.
      intros y Hy. destruct y; try discriminate Hy. reflexivity.
Qed.

Lemma dict_lookup_single {A : Type} (k : string) (x : A) :
  dict_lookup [(k, x)] k = Some x.
Proof.
  cbn [dict_lookup]. rewrite String.eqb_refl. reflexivity.
Qed.

(** X26.  The three counts entered for a float column count rows that do
    not overlap: missing, infinite and outlying entries together never
    exceed the rows of the column, and the outlier entry is there exactly
    when the column has more than one row. *)
Theorem validation_counts_within_rows
    (df : DataFrame) (col : string) (v : list float) :
  get_column df col = Some (FloatColumn v) ->
  exists (r : ValidationResults) (m i : nat),
    validate_numeric_data df (Some [col]) = Return r /\
    dict_lookup (missing_values r) col = Some m /\
    dict_lookup (infinite_values r) col = Some i /\
    (m + i <= length v)%nat /\
    ((1 < length v)%nat ->
     exists o, dict_lookup (outliers r) col = Some o /\
               (m + i + o <= length v)%nat) /\
    ((length v <= 1)%nat -> dict_lookup (outliers r) col = None).
Proof.
  intros Hg. exists (validation_of [(col, v)]), (count isnan v), (count isinf v).
  pose proof (counts_within_rows v) as Hc.
  split; [apply (validate_one_column df col v Hg)|].
  unfold validation_of. cbn [map filter fst snd missing_values infinite_values
                             outliers].
  split; [apply dict_lookup_single|].
  split; [apply dict_lookup_single|].
  split; [lia|]. split.
  - intros Hlen. apply Nat.ltb_lt in Hlen. rewrite Hlen. cbn [map fst snd].
    exists (outlier_count v). split; [apply dict_lookup_single | exact Hc].
  - intros Hlen. apply Nat.ltb_ge in Hlen. rewrite Hlen. reflexivity.
Qed.

End ValidationProperties.

(* ================================================================== *)
(** * The further properties on concrete inputs *)
(* ================================================================== *)

Open Scope string_scope.

(** X2 on the sample [NaN, 5]. *)
Lemma descriptive_stats_one_observation_witness :
  cleaned [None; Some 5]%R = [5]
  /\ descriptive_stats [None; Some 5]%R =
     Return
       [ ("n", VInt 1); ("mean", VFloat (Fin 5)); ("median", VFloat (Fin 5));
         ("std", VFloat NaN); ("sem", VFloat NaN);
         ("min", VFloat (Fin 5)); ("max", VFloat (Fin 5));
         ("q1", VFloat (Fin 5)); ("q3", VFloat (Fin 5));
         ("iqr", VFloat (Fin 0)) ].
Proof.
  assert (H : cleaned [None; Some 5]%R = [5]) by reflexivity.
  split; [exact H |].
  exact (descriptive_stats_one_observation [None; Some 5]%R 5 H).
Defined.

(** X5 on the sample [1, NaN, 2] and its rotation [NaN, 2, 1]. *)
Lemma descriptive_stats_order_statistics_ignore_order_witness :
  Permutation [Some 1; None; Some 2]%R [None; Some 2; Some 1]%R
  /\ (forall r r',
         descriptive_stats [Some 1; None; Some 2]%R = Return r ->
         descriptive_stats [None; Some 2; Some 1]%R = Return r' ->
         forall key,
           In key ["n"; "median"; "min"; "max"; "q1"; "q3"; "iqr"]%string ->
           dict_get key r = dict_get key r').
Proof.
  assert (H : Permutation [Some 1; None; Some 2]%R [None; Some 2; Some 1]%R)
    by apply (Permutation_cons_append [None; Some 2]%R (Some 1%R)).
  split; [exact H |].
  exact (proj2 (descriptive_stats_order_statistics_ignore_order
                  [Some 1; None; Some 2]%R [None; Some 2; Some 1]%R H)).
Defined.

(** X8 on the groups [1, 2] and [3, 5, NaN]. *)
Lemma one_way_anova_degrees_of_freedom_witness :
  (2 <= length [[Some 1; Some 2]; [Some 3; Some 5; None]]%R)%nat
  /\ Forall (fun g => (2 <= n_obs g)%nat)
            [[Some 1; Some 2]; [Some 3; Some 5; None]]%R
  /\ exists r dfb dfw,
      one_way_anova fisher12_sf
        [[Some 1; Some 2]; [Some 3; Some 5; None]]%R = Return r
      /\ dict_get "df_between" r = Some (VFloat (Fin dfb))
      /\ dict_get "df_within" r = Some (VFloat (Fin dfw))
      /\ dfb = INR 2 - 1 /\ dfw = INR 4 - INR 2
      /\ dfb + dfw = INR 4 - 1 /\ INR 2 <= dfw.
Proof.
  assert (H1 : (2 <= length [[Some 1; Some 2];
                             [Some 3; Some 5; None]]%R)%nat)
    by (simpl; lia).
  assert (H2 : Forall (fun g => (2 <= n_obs g)%nat)
                      [[Some 1; Some 2]; [Some 3; Some 5; None]]%R)
    by (repeat constructor; count_obs).
  split; [exact H1 |]. split; [exact H2 |].
  exact (one_way_anova_degrees_of_freedom fisher12_sf
           [[Some 1; Some 2]; [Some 3; Some 5; None]]%R H1 H2).
Defined.

(** X11 on [1, NaN, 2, 4] against [2, 3, NaN, 1] with the moment
    correlation: the pairs kept are (1, 2) and (4, 1). *)
Lemma correlation_analysis_uses_aligned_pairs_witness :
  In "pearson" valid_methods
  /\ (2 <= length (aligned_pairs [Some 1; None; Some 2; Some 4]%R
                                 [Some 2; Some 3; None; Some 1]%R))%nat
  /\ correlation_analysis pearsonr_two_pairs
       (fun _ _ => (NaN, NaN)) (fun _ _ => (NaN, NaN))
       [Some 1; None; Some 2; Some 4]%R [Some 2; Some 3; None; Some 1]%R
       "pearson"
     = Return
         [ ("correlation",
            VFloat (fst (pearsonr_two_pairs
                           (map fst (aligned_pairs
                                       [Some 1; None; Some 2; Some 4]%R
                                       [Some 2; Some 3; None; Some 1]%R))
                           (map snd (aligned_pairs
                                       [Some 1; None; Some 2; Some 4]%R
                                       [Some 2; Some 3; None; Some 1]%R)))));
           ("p_value",
            VFloat (snd (pearsonr_two_pairs
                           (map fst (aligned_pairs
                                       [Some 1; None; Some 2; Some 4]%R
                                       [Some 2; Some 3; None; Some 1]%R))
                           (map snd (aligned_pairs
                                       [Some 1; None; Some 2; Some 4]%R
                                       [Some 2; Some 3; None; Some 1]%R)))));
           ("n", VInt (Z.of_nat (length (aligned_pairs
                                           [Some 1; None; Some 2; Some 4]%R
                                           [Some 2; Some 3; None; Some 1]%R))))
         ].
Proof.
  assert (H1 : In "pearson" valid_methods) by (left; reflexivity).
  assert (H2 : (2 <= length (aligned_pairs [Some 1; None; Some 2; Some 4]%R
                               [Some 2; Some 3; None; Some 1]%R))%nat)
    by (simpl; lia).
  split; [exact H1 |]. split; [exact H2 |].
  exact (correlation_analysis_uses_aligned_pairs pearsonr_two_pairs
           (fun _ _ => (NaN, NaN)) (fun _ _ => (NaN, NaN))
           [Some 1; None; Some 2; Some 4]%R [Some 2; Some 3; None; Some 1]%R
           "pearson" H1 H2).
Defined.

(** X13 on the sample [1, NaN, 2, 3] at confidence 0.95, with the Student
    quantile at two degrees of freedom. *)
Lemma confidence_interval_from_descriptive_stats_witness :
  0 < 0.95 < 1
  /\ (2 <= n_obs [Some 1; None; Some 2; Some 3]%R)%nat
  /\ exists r mean sem,
      descriptive_stats [Some 1; None; Some 2; Some 3]%R = Return r
      /\ dict_get "mean" r = Some (VFloat mean)
      /\ dict_get "sem" r = Some (VFloat sem)
      /\ confidence_interval student2_ppf
           [Some 1; None; Some 2; Some 3]%R (Fin 0.95)
         = Return
             ((mean - sem * student2_ppf (Fin ((1 + 0.95) / 2))
                            (Z.of_nat (n_obs [Some 1; None; Some 2;
                                              Some 3]%R) - 1))%float,
              (mean + sem * student2_ppf (Fin ((1 + 0.95) / 2))
                            (Z.of_nat (n_obs [Some 1; None; Some 2;
                                              Some 3]%R) - 1))%float).
Proof.
  assert (Hc : 0 < 0.95 < 1) by lra.
  assert (Hn : (2 <= n_obs [Some 1; None; Some 2; Some 3]%R)%nat)
    by count_obs.
  split; [exact Hc |]. split; [exact Hn |].
  exact (confidence_interval_from_descriptive_stats student2_ppf
           [Some 1; None; Some 2; Some 3]%R 0.95 Hc Hn).
Defined.

(** X16 on [1, 2] before and [2, 4] after. *)
Lemma paired_t_statistic_opposes_mean_diff_witness :
  (2 <= length [1; 2])%nat
  /\ (2 <= length [2; 4])%nat
  /\ exists (r : Dict) (mean_diff se : float),
      paired_t_test student2_cdf (present [1; 2]) (present [2; 4]) = Return r
      /\ dict_get "mean_diff" r = Some (VFloat mean_diff)
      /\ dict_get "t_statistic" r = Some (VFloat (- mean_diff / se)%float)
      /\ fltb se (Fin 0) = false.
Proof.
  assert (H1 : (2 <= length [1; 2])%nat) by (simpl; lia).
  assert (H2 : (2 <= length [2; 4])%nat) by (simpl; lia).
  split; [exact H1 |]. split; [exact H2 |].
  exact (paired_t_statistic_opposes_mean_diff student2_cdf
           [1; 2] [2; 4] H1 H2).
Defined.

(** X17 on [NaN, NaN, 1, 2] before and [3, 4, NaN, NaN] after: two
    observations on each side, at no common position. *)
Lemma paired_mean_diff_nan_without_common_position_witness :
  (2 <= Nat.min (n_obs [None; None; Some 1; Some 2]%R)
                (n_obs [Some 3; Some 4; None; None]%R))%nat
  /\ aligned_pairs [None; None; Some 1; Some 2]%R
                   [Some 3; Some 4; None; None]%R = []
  /\ exists r,
      paired_t_test student2_cdf [None; None; Some 1; Some 2]%R
                    [Some 3; Some 4; None; None]%R = Return r
      /\ dict_get "mean_diff" r = Some (VFloat NaN).
Proof.
  assert (H1 : (2 <= Nat.min (n_obs [None; None; Some 1; Some 2]%R)
                             (n_obs [Some 3; Some 4; None; None]%R))%nat)
    by (unfold n_obs; simpl; lia).
  assert (H2 : aligned_pairs [None; None; Some 1; Some 2]%R
                             [Some 3; Some 4; None; None]%R = [])
    by reflexivity.
  split; [exact H1 |]. split; [exact H2 |].
  destruct (paired_mean_diff_nan_without_common_position student2_cdf
              [None; None; Some 1; Some 2]%R [Some 3; Some 4; None; None]%R
              H1 H2) as [r [Hr [_ Hm]]].
  exists r. split; [exact Hr | exact Hm].
Defined.

(** X18 on [1, NaN, 2] before and [2, NaN, 5] after. *)
Lemma paired_t_test_same_missing_pattern_witness :
  missing_mask [Some 1; None; Some 2]%R
  = missing_mask [Some 2; None; Some 5]%R
  /\ (2 <= n_obs [Some 1; None; Some 2]%R)%nat
  /\ exists r,
      paired_t_test student2_cdf [Some 1; None; Some 2]%R
                    [Some 2; None; Some 5]%R = Return r
      /\ dict_get "mean_diff" r
         = Some (VFloat (Fin (Rmean (map (fun p => snd p - fst p)
                                         (combine [1; 2] [2; 5]))))).
Proof.
  assert (H1 : missing_mask [Some 1; None; Some 2]%R
               = missing_mask [Some 2; None; Some 5]%R) by reflexivity.
  assert (H2 : (2 <= n_obs [Some 1; None; Some 2]%R)%nat) by count_obs.
  split; [exact H1 |]. split; [exact H2 |].
  destruct (paired_t_test_same_missing_pattern student2_cdf
              [Some 1; None; Some 2]%R [Some 2; None; Some 5]%R H1 H2)
    as [_ [r [Hr [_ [_ Hm]]]]].
  exists r. split; [exact Hr | exact Hm].
Defined.

(** X20 on a file whose frame has the columns a and s, asked for a and b. *)
Lemma missing_required_columns_are_all_listed_witness :
  let df := [("a", DataLoader.FloatColumn [Fin 1; NaN; Fin 2]);
             ("s", DataLoader.ObjectColumn [Some "x"; None; None])] in
  let path_exists := fun p : string => String.eqb p "data.csv" in
  let read_csv := fun (_ : string) (_ : unit) =>
                    inl df : DataLoader.DataFrame + string in
  let read_excel := fun (_ : string) (_ : string + Z) (_ : unit) =>
                      inl df : DataLoader.DataFrame + string in
  let read_excel_all :=
    fun (_ : string) (_ : unit) =>
      inl [("Sheet1", df)] : list (string * DataLoader.DataFrame) + string in
  path_exists "data.csv" = true
  /\ In "b" ["a"; "b"]
  /\ ~ In "b" (DataLoader.columns df)
  /\ exists missing_columns,
      (forall col, In col missing_columns <->
                   In col ["a"; "b"] /\ ~ In col (DataLoader.columns df))
      /\ (read_csv "data.csv" tt = inl df ->
          DataLoader.load_csv_data (fun p => p) path_exists read_csv
            DataLoader.repr_str_list "data.csv" (Some ["a"; "b"]) tt
          = DataLoader.Raise
              (DataLoader.ValueError
                 ("Missing required columns: "
                  ++ DataLoader.repr_str_list missing_columns)))
      /\ (read_excel "data.csv" (inr 0%Z) tt = inl df ->
          DataLoader.load_excel_data (fun p => p) path_exists read_excel
            read_excel_all DataLoader.repr_str_list "data.csv"
            (Some (inr 0%Z)) (Some ["a"; "b"]) tt
          = DataLoader.Raise
              (DataLoader.ValueError
                 ("Missing required columns: "
                  ++ DataLoader.repr_str_list missing_columns))).
Proof.
  intros df path_exists read_csv read_excel read_excel_all.
  assert (H1 : path_exists "data.csv" = true) by reflexivity.
  assert (H2 : In "b" ["a"; "b"]) by (right; left; reflexivity).
  assert (H3 : ~ In "b" (DataLoader.columns df)).
  { intros [H|[H|[]]]; discriminate H. }
  split; [exact H1 |]. split; [exact H2 |]. split; [exact H3 |].
  exact (missing_required_columns_are_all_listed
           string (fun p => p) path_exists unit read_csv read_excel
           read_excel_all DataLoader.repr_str_list "data.csv" (inr 0%Z)
           ["a"; "b"] tt df "b" H1 H2 H3).
Defined.

(** X22 on a frame with a float column a and an object column s. *)
Lemma validate_numeric_data_default_columns_witness :
  let df := [("a", DataLoader.FloatColumn [Fin 1; NaN; Fin 2]);
             ("s", DataLoader.ObjectColumn [Some "x"; None; None])] in
  NoDup (DataLoader.columns df)
  /\ DataLoader.validate_numeric_data df None
     = DataLoader.Return
         (DataLoader.validation_of (DataLoader.float_columns df)).
Proof.
  intros df.
  assert (H : NoDup (DataLoader.columns df)).
  { constructor.
    - intros [H|[]]. discriminate H.
    - constructor; [intros [] | constructor]. }
  split; [exact H |].
  exact (validate_numeric_data_default_columns df H).
Defined.

(** X24 on the column [1, inf, 2, 1000]. *)
Lemma infinite_value_hides_outliers_witness :
  let v := [Fin 1; PInf; Fin 2; Fin 1000] in
  let df := [("a", DataLoader.FloatColumn v)] in
  DataLoader.get_column df "a" = Some (DataLoader.FloatColumn v)
  /\ (1 < length v)%nat
  /\ (In PInf v \/ In NInf v)
  /\ DataLoader.validate_numeric_data df (Some ["a"])
     = DataLoader.Return
         {| DataLoader.missing_values := [("a", DataLoader.count isnan v)];
            DataLoader.infinite_values :=
              [("a", DataLoader.count DataLoader.isinf v)];
            DataLoader.outliers := [("a", 0%nat)] |}.
Proof.
  intros v df.
  assert (H1 : DataLoader.get_column df "a" = Some (DataLoader.FloatColumn v))
    by reflexivity.
  assert (H2 : (1 < length v)%nat) by (simpl; lia).
  assert (H3 : In PInf v \/ In NInf v) by (left; right; left; reflexivity).
  split; [exact H1 |]. split; [exact H2 |]. split; [exact H3 |].
  exact (infinite_value_hides_outliers df "a" v H1 H2 H3).
Defined.

(** X26 on the column [1, NaN, inf]. *)
Lemma validation_counts_within_rows_witness :
  let v := [Fin 1; NaN; PInf] in
  let df := [("a", DataLoader.FloatColumn v)] in
  DataLoader.get_column df "a" = Some (DataLoader.FloatColumn v)
  /\ exists (r : DataLoader.ValidationResults) (m i : nat),
      DataLoader.validate_numeric_data df (Some ["a"]) = DataLoader.Return r
      /\ DataLoader.dict_lookup (DataLoader.missing_values r) "a" = Some m
      /\ DataLoader.dict_lookup (DataLoader.infinite_values r) "a" = Some i
      /\ (m + i <= length v)%nat
      /\ ((1 < length v)%nat ->
          exists o,
            DataLoader.dict_lookup (DataLoader.outliers r) "a" = Some o
            /\ (m + i + o <= length v)%nat)
      /\ ((length v <= 1)%nat ->
          DataLoader.dict_lookup (DataLoader.outliers r) "a" = None).
Proof.
  intros v df.
  assert (H : DataLoader.get_column df "a" = Some (DataLoader.FloatColumn v))
    by reflexivity.
  split; [exact H |].
  exact (validation_counts_within_rows df "a" v H).
Defined.

(* ================================================================== *)
(** * Runs on binary64 numbers *)
(* ================================================================== *)

Section Binary64Runs.

#[local] Set Warnings "-notation-overridden,-inexact-float".
Import PrimFloat.
#[local] Open Scope string_scope.
#[local] Open Scope float_scope.

(** The pairwise sum does not depend on the bound on its splits, once the
    bound is at least the length of the array. *)
Lemma pairwise_sum_depth (d1 d2 : nat) (a : list float) :
  (length a <= d1)%nat -> (length a <= d2)%nat ->
  Binary64.pairwise_sum d1 a = Binary64.pairwise_sum d2 a.
Proof.
  revert d2 a. induction d1 as [| d1 IH]; intros d2 a H1 H2.
  - destruct a; [| simpl in H1; lia]. now destruct d2.
  - destruct d2 as [| d2].
    + destruct a; [reflexivity | simpl in H2; lia].
    + cbn [Binary64.pairwise_sum].
      destruct (Nat.ltb_spec (length a) 8) as [_ | H8]; [reflexivity |].
      destruct (Nat.leb_spec (length a) 128) as [_ | H128]; [reflexivity |].
      set (n2 := (length a / 2 - (length a / 2) mod 8)%nat).
      assert (Hn2 : (0 < n2 < length a)%nat).
      { unfold n2.
        pose proof (Nat.mod_upper_bound (length a / 2) 8 ltac:(lia)).
        pose proof (Nat.div_mod_eq (length a) 2).
        pose proof (Nat.mod_upper_bound (length a) 2 ltac:(lia)).
        lia. }
      f_equal; apply IH;
        rewrite ?length_firstn, ?length_skipn; lia.
Qed.








End Binary64Runs.
